(* ===== verification/_CoqProject ===== *)
-Q . S2P
Prelude.v
PyStr.v
PyRuntime.v
PyPath.v
XCFramework.v
Sha1.v
Report.v
Digester.v
Notifier.v
CheckApi.v
ExitStatus.v
Argparse.v
CliParser.v
Cli.v
