(* ===== verification/Prelude.v ===== *)
(** * Verification of the API-compatibility checker of mapbox-maps-ios

    The program is the Python script
    [src/scripts/api-compatibility-check/breaking-api-check.py] (286 lines).
    It wraps Apple's [swift-api-digester] and has two sub-commands:
    - [dump] unpacks the SDK zip, locates [MapboxMaps.xcframework], picks
      its iOS device library, lists the frameworks the binary links
      ([otool -L]) and runs the digester in [-dump-sdk] mode;
    - [check-api] runs the digester in [-diagnose-sdk] mode on two dumps,
      parses the textual report it writes, decides pass/fail by comparing
      the SHA-1 of the report file with a hard-coded fingerprint of the
      empty report, can post a summary on the pull request through [gh],
      and exits 1 on breakage.

    This file is the root of the development. It holds the notations, the
    tactics, the hint databases and the generic lemmas on lists that the
    other files share. The files, in dependency order:

    - [Prelude]: [py] turns an ASCII literal into a Python string (a list of
      code points); the [apichk] hint databases, the [invc] and
      [decide_lit] tactics, [infix_of], and lemmas on [take]/[drop].
    - [PyStr]: Python's [str] as the script uses it: [str.isspace],
      [strip], [startswith], [endswith], slicing with negative indices
      ([line[3:-4]]), [os.path.basename], the strict UTF-8 codec of [open()]
      in text mode (with the round trip [utf8_roundtrip]), universal
      newlines and [readlines].
    - [PyRuntime]: the effects as a state-and-exception monad [PyM] over a
      [world]: regular files (a [gmap] from path to bytes), directories
      with their listings, the working directory, the stdout and stderr
      transcripts and the log of spawned commands. Exceptions are the sum
      type [exc]; the side effects done before one are kept, as in Python.
      [map_m], [filter_m], [fold_m] are the script's loops. [reads_only]
      (with [same_view], the [readonly] hint database and [ro_solve]) says
      that a computation only reads, so its result carries over to any
      world with the same files. [log_grows] and [spawns_first] (with the
      [loggrows] database and [lg_solve]) say that the log of commands is
      append-only and which command comes first.
    - [PyPath]: [str.split] (with a separator and on whitespace) and
      [os.path.join], [dirname], [normpath], [abspath], [splitext].
    - [XCFramework]: [XCFramework.Library], [SDKModule] and [XCFramework]
      (lines 189-284), as the Modules [Library], [SDKModule] and
      [XCFramework] with a Record for each class and one definition per
      method, the three [__repr__] included. A plist value is [pval];
      Python's [d[k]], [l[0]], [k in v] and iteration on it are [getitem],
      [getitem0], [contains], [iter].
    - [Sha1]: [hashlib.sha1] as an incremental context, with [update] and
      [hexdigest], and the lemma that updating is compositional.
    - [Report]: [APIDigester.BreakageReport] (lines 159-187) in the Module
      [BreakageReport]: the line parser [__parseReport] as a fold over lines
      with the three-valued [category] variable (unbound / [None] / a
      string), the [breakage] dict as an insertion-ordered association
      list, the 4096-byte read loop of [__hashsum], and the verdict. The
      Module [ReportSpec] gives a declarative reference for the loop of
      [__parseReport] (paragraphs, owning headers, first-occurrence
      grouping) and proves the loop equal to it on every input.
    - [Digester]: the Module [APIDigester]: [compare] (lines 96-114) and
      [dump_sdk] (lines 116-157) with its two inner functions.
    - [Notifier]: [add_comment_to_pr] (lines 46-67): the Markdown rendering
      and the edit-then-create protocol with [gh].
    - [CheckApi]: [check_api_breaking_changes] (lines 28-43) and the exit
      status of the interpreter.
    - [ExitStatus]: which [SystemExit] each component can raise
      ([exits_in], with the [exits] hint database and [ei_solve]): none,
      except the [exit(1)] of [check-api].
    - [Argparse]: the part of CPython 3.11's [argparse] the script uses,
      as the Module [Argparse]: parsers built from [store],
      [BooleanOptionalAction], help and sub-parser actions (nargs [None]),
      and [parse_known_args]: the classification of the strings ([--],
      options, negative numbers), prefix matching and [--opt=value], the
      alternation of optionals and positionals ([consume], with fuel), the
      required-argument and invalid-choice errors. The usage and help texts
      are the interface [ArgparseText].
    - [CliParser]: the three parsers [main] builds (lines 70-85) and
      [parser.parse_args()] (line 87), with lemmas on what they parse.
    - [Cli]: the top-level [dump_sdk] (lines 11-26), and [main] (lines
      69-92) in three parts: [run] parses the command line (help exits 0,
      a usage error exits 2), [cli_of_namespace] reads the attributes the
      dispatch uses, and [main] applies the defaults and [abspath] and
      dispatches; [script] is [__main__] on [sys.argv].

    Interfaces. What the script only calls is a typeclass, and every
    theorem holds for all its instances: [Toolchain] (the outcome and the
    file system an external command leaves), [PlistLib] ([plistlib]'s
    parse), [PyRepr] ([repr()] of a plist value), [TempFiles] ([tempfile.mkdtemp],
    with its promise of a fresh directory) and [Archives]
    ([shutil.unpack_archive]), [ArgparseText] (the program name, usage and
    help texts of [argparse]). [APIDigester.DigesterContract] is what the
    spec expects of the digester on identical dumps. The witnesses use
    small concrete instances.

    Theorems, by claim (C1-C38):
    - the report engine: parsing well-formed blocks (C1), the canonical
      empty report (C2), the verdict is the fingerprint (C3) and is
      byte-sensitive (C4), the crash on a leading stray line (C5), the
      invariant of the parsed dict (C6), termination of the read loop
      (C7);
    - the whole script: its exit status is 0, 1 or 2, and 2 exactly on a
      usage error (bounds, C8);
    - [compare]: the failure path (C9), the refinement of the spec's
      contract A (C10), the command line (C11);
    - the notifier: the [gh] protocol (C12), the removal of
      [comment.txt] (C13) and its leak when [gh] cannot start (C14), the
      broken code spans of the bullets (C15);
    - [check-api] end to end: exit status (C16), identical dumps (C17),
      breakage with a comment (C18);
    - the dependency resolver: [otool] parsing and filtering (C19), the
      ignored [otool] status (C20), the target triple (C21);
    - the bundle locator: first-match device selection (C22), no device
      (C23), a library without platform (C24), loading a bundle (C25),
      what the guard rejects (C26);
    - the dump invoker: the digester command of [dump_sdk] (C27);
    - the commands: a non-zip SDK (C28), only the empty command line has
      no sub-command and it does nothing (C29);
    - added later, by kind: the loop of [__parseReport] equals its
      declarative reference on every input (equivalence, C30), the
      bundle-name round trip and its collisions (C31), absolute bundle and
      module paths (type, C32), bundle loading only reads (invariant,
      C33), [check-api] on a failing digester (C34);
    - the command line: each call has a command line that parses back to
      it (round trip, C35), a ['--'] value becomes an empty list that
      crashes [check-api] or drops the allow-list (C36), the digester runs
      first from the command line (C37), usage errors exit 2 before
      anything runs (C38).

    Fuel: the read loop of [__hashsum] is given [length data + 1] reads.
    Each read but the last consumes at least one byte, so this fuel is
    enough; this is proved ([BreakageReport.read_blocks_enough]), and the
    fingerprint is shown equal to the SHA-1 of the whole file. The main
    loop of [parse_known_args] is given [length args + 1] turns. Each turn
    but the last consumes at least one string, so this fuel is enough;
    this is proved ([Argparse.consume_fuel]). No other loop of the script
    needs fuel: all iterate over lists. The script runs to completion on
    every input once the external programs return (every definition is
    total, and the programs are the [Toolchain] interface), so it has no
    liveness property beyond this termination: it has no retry, polling
    or concurrency to make progress through.

    Not modelled: the parts of [argparse] the script does not use (other
    actions, [nargs], abbreviations of long options with a single dash,
    [fromfile_prefix_chars]) and the formatting of its usage and help
    texts (the interface [ArgparseText]: they depend on the terminal width
    [shutil.get_terminal_size] reads and on [textwrap]), the parsers of the
    libraries (interfaces), plist values other than strings, arrays and
    dicts (integers, reals, booleans, dates and data), and the text of the
    external tools, which the [Toolchain] instance supplies. The locale
    encoding is UTF-8, the default on the macOS runners the script
    targets. Relative paths are resolved against the working directory
    without normalisation ([resolve]), except where the script calls
    [os.path.abspath]. *)

From stdpp Require Export base list gmap strings.
From Stdlib Require Export ZArith Lia.

Declare Scope py_scope.
Delimit Scope py_scope with py.

(** Python strings are sequences of code points; byte strings are sequences
    of integers in [0, 256). Both are lists of [Z]. *)
Abbreviation pystr := (list Z).
Abbreviation pybytes := (list Z).

(** [py "abc"] is the Python literal ['abc'] (ASCII only). *)
Fixpoint py (s : string) : pystr :=
  match s with
  | EmptyString => []
  | String c s' => Z.of_nat (Ascii.nat_of_ascii c) :: py s'
  end.

Create HintDb apichk discriminated.
Create Rewrite HintDb apichk_rw.

Ltac invc H := inversion H; subst; clear H.

(** ** Generic list lemmas shared by the components *)

Lemma take_app_exact {A} (l1 l2 : list A) n :
  n = length l1 -> take n (l1 ++ l2) = l1.
Proof. intros ->. by rewrite take_app_length. Qed.

Lemma drop_app_exact {A} (l1 l2 : list A) n :
  n = length l1 -> drop n (l1 ++ l2) = l2.
Proof. intros ->. by rewrite drop_app_length. Qed.

#[export] Hint Resolve take_app_exact drop_app_exact : apichk.

(** Close a decidable goal about literals by evaluation. *)
Ltac decide_lit := apply (bool_decide_unpack _); vm_compute; exact I.

Lemma head_rev_last {A} (l : list A) : head (rev l) = last l.
Proof.
  destruct l as [|x l] using rev_ind; [done|].
  by rewrite rev_app_distr, last_snoc.
Qed.

Lemma forallb_Forall {A} (f : A -> bool) (l : list A) :
  forallb f l = true -> Forall (fun x => f x = true) l.
Proof.
  induction l as [|x l IH]; simpl; [constructor|].
  rewrite andb_true_iff. intros [Hx Hl]. constructor; auto.
Qed.

(** [l1] occurs as a contiguous piece of [l2]: Python's [s1 in s2] on
    strings. *)
Definition infix_of {A} (l1 l2 : list A) : Prop := exists k1 k2, l2 = k1 ++ l1 ++ k2.

Lemma infix_of_refl {A} (l : list A) : infix_of l l.
Proof. exists [], []. by rewrite app_nil_r. Qed.

Lemma infix_of_app_l {A} (l1 l2 k : list A) : infix_of l1 l2 -> infix_of l1 (k ++ l2).
Proof. intros (k1 & k2 & ->). exists (k ++ k1), k2. by rewrite app_assoc. Qed.

Lemma infix_of_app_r {A} (l1 l2 k : list A) : infix_of l1 l2 -> infix_of l1 (l2 ++ k).
Proof. intros (k1 & k2 & ->). exists k1, (k2 ++ k). by rewrite <-!app_assoc. Qed.

Lemma infix_of_trans {A} (l1 l2 l3 : list A) :
  infix_of l1 l2 -> infix_of l2 l3 -> infix_of l1 l3.
Proof.
  intros (a & b & ->) (c & d & ->). exists (c ++ a), (b ++ d).
  by rewrite <-!app_assoc.
Qed.

Lemma infix_concat_map {A B} (f : A -> list B) (x : A) (l : list A) :
  x ∈ l -> infix_of (f x) (concat (map f l)).
Proof.
  intros Hx. apply list_elem_of_split in Hx as (l1 & l2 & ->).
  rewrite map_app, concat_app. simpl.
  exists (concat (map f l1)), (concat (map f l2)). done.
Qed.

#[export] Hint Resolve infix_of_refl infix_of_app_l infix_of_app_r : apichk.
