(* ===== verification/PyStr.v ===== *)
(** * Python [str] semantics used by the script

    Python strings are lists of code points ([pystr]). This file models the
    operations of the Python 3 standard library that
    [breaking-api-check.py] applies to them:
    - [str.isspace] and [str.strip()] (line 169);
    - [str.startswith] / [str.endswith] (lines 172, 221-224, 132);
    - slicing with negative bounds, [line[3:-4]] (line 173);
    - the strict UTF-8 codec that [open()] uses in text mode, with its
      inverse used when the script writes text;
    - universal-newline translation and [readlines] (line 168).
    None of these lines are code of the repository: they are the library
    semantics the repository's code relies on, written from CPython. *)

From S2P Require Import Prelude.

Open Scope Z_scope.

(** Python's truth value of a string: false exactly for the empty string. *)
Definition truthy (s : pystr) : bool := match s with [] => false | _ => true end.

(** The longest prefix of [s] whose characters differ from [c]. *)
Fixpoint take_until (c : Z) (s : pystr) : pystr :=
  match s with
  | [] => []
  | d :: s' => if d =? c then [] else d :: take_until c s'
  end.

(** [os.path.basename(p)]: what follows the last ['/']. *)
Definition basename (p : pystr) : pystr := rev (take_until 47 (rev p)).

(** ** Whitespace and [strip] *)

(** The code points for which CPython's [str.isspace] holds: the
    characters [str.strip()] removes. *)
Definition space_points : list Z :=
  [9; 10; 11; 12; 13; 28; 29; 30; 31; 32; 133; 160; 5760;
   8192; 8193; 8194; 8195; 8196; 8197; 8198; 8199; 8200; 8201; 8202;
   8232; 8233; 8239; 8287; 12288].

Definition is_space (c : Z) : bool := existsb (Z.eqb c) space_points.

Fixpoint lstrip (s : pystr) : pystr :=
  match s with
  | [] => []
  | c :: s' => if is_space c then lstrip s' else s
  end.

(** [s.strip()]: leading and trailing whitespace removed. *)
Definition strip (s : pystr) : pystr := rev (lstrip (rev (lstrip s))).

(** [s.startswith(p)]. *)
Fixpoint startswith (s p : pystr) : bool :=
  match p, s with
  | [], _ => true
  | c :: p', d :: s' => (c =? d) && startswith s' p'
  | _ :: _, [] => false
  end.

(** [s.endswith(p)]. *)
Definition endswith (s p : pystr) : bool := startswith (rev s) (rev p).

(** Slice bounds are normalised as CPython's [PySlice_AdjustIndices] does
    for step 1: a negative bound counts from the end, then the bound is
    clamped to [[0, len]]. *)
Definition slice_index (n i : Z) : Z :=
  if i <? 0 then Z.max 0 (i + n) else Z.min i n.

(** [s[i:j]]. *)
Definition py_slice (s : pystr) (i j : Z) : pystr :=
  let n := Z.of_nat (length s) in
  let a := slice_index n i in
  let b := slice_index n j in
  take (Z.to_nat (b - a)) (drop (Z.to_nat a) s).

(** ** Lemmas *)

Lemma lstrip_nil_iff s : lstrip s = [] <-> Forall (fun c => is_space c = true) s.
Proof.
  induction s as [|c s IH]; simpl; [split; auto|].
  destruct (is_space c) eqn:E.
  - rewrite IH. split; [intros; by constructor|by inversion 1].
  - split; [done|]. inversion 1; congruence.
Qed.

Lemma lstrip_head s :
  match lstrip s with [] => True | c :: _ => is_space c = false end.
Proof. induction s as [|c s IH]; simpl; [done|]. by destruct (is_space c) eqn:E. Qed.

Lemma lstrip_Forall_nil s :
  Forall (fun c => is_space c = true) (lstrip s) -> lstrip s = [].
Proof.
  pose proof (lstrip_head s) as Hh.
  destruct (lstrip s); [done|]. inversion 1; congruence.
Qed.

Lemma strip_nil_iff s : strip s = [] <-> Forall (fun c => is_space c = true) s.
Proof.
  unfold strip. rewrite <-lstrip_nil_iff.
  split; intros H.
  - apply (f_equal (@rev Z)) in H. rewrite rev_involutive in H.
    apply lstrip_nil_iff, Forall_rev in H. rewrite rev_involutive in H.
    by apply lstrip_Forall_nil.
  - rewrite H. reflexivity.
Qed.

Lemma startswith_spec s p : startswith s p = true <-> exists r, s = p ++ r.
Proof.
  revert s. induction p as [|c p IH]; intros [|d s]; simpl.
  - split; eauto.
  - split; eauto.
  - split; [done|]. intros [r Hr]. discriminate.
  - rewrite andb_true_iff, Z.eqb_eq, IH. split.
    + intros [-> [r ->]]. eauto.
    + intros [r Hr]. injection Hr as -> ->. eauto.
Qed.

Lemma startswith_app s r : startswith (s ++ r) s = true.
Proof. apply startswith_spec. eauto. Qed.

Lemma endswith_spec s p : endswith s p = true <-> exists r, s = r ++ p.
Proof.
  unfold endswith. rewrite startswith_spec. split.
  - intros [r Hr]. exists (rev r).
    rewrite <-(rev_involutive s), Hr, rev_app_distr, rev_involutive. done.
  - intros [r ->]. exists (rev r). by rewrite rev_app_distr.
Qed.

Lemma endswith_app s r : endswith (r ++ s) s = true.
Proof. apply endswith_spec. eauto. Qed.

(** Slicing off a known prefix and suffix: the shape of [line[3:-4]]. *)
Lemma py_slice_middle (p m q : pystr) :
  q <> [] ->
  py_slice (p ++ m ++ q) (Z.of_nat (length p)) (- Z.of_nat (length q)) = m.
Proof.
  intros Hq. unfold py_slice, slice_index.
  rewrite !length_app.
  destruct q as [|c q]; [done|]. simpl length.
  destruct (Z.ltb_spec (Z.of_nat (length p)) 0); [lia|].
  destruct (Z.ltb_spec (- Z.of_nat (S (length q))) 0); [|lia].
  replace (Z.min (Z.of_nat (length p))
             (Z.of_nat (length p + (length m + S (length q)))))
    with (Z.of_nat (length p)) by lia.
  replace (Z.max 0 (- Z.of_nat (S (length q))
                    + Z.of_nat (length p + (length m + S (length q)))))
    with (Z.of_nat (length p + length m)) by lia.
  rewrite Nat2Z.id, drop_app_length.
  replace (Z.to_nat (Z.of_nat (length p + length m) - Z.of_nat (length p)))
    with (length m) by lia.
  by rewrite take_app_length.
Qed.

Lemma py_slice_short (s : pystr) (i j : Z) :
  0 <= i -> j < 0 -> Z.of_nat (length s) <= i - j -> py_slice s i j = [].
Proof.
  intros Hi Hj Hlen. unfold py_slice, slice_index.
  destruct (Z.ltb_spec i 0); [lia|].
  destruct (Z.ltb_spec j 0); [|lia].
  replace (Z.to_nat (Z.max 0 (j + Z.of_nat (length s))
                     - Z.min i (Z.of_nat (length s)))) with 0%nat by lia.
  done.
Qed.

(** ** The strict UTF-8 codec *)

Definition is_cont (b : Z) : bool := (128 <=? b) && (b <=? 191).

Definition in_range (lo hi b : Z) : bool := (lo <=? b) && (b <=? hi).

(** The allowed range of the second byte of a multi-byte sequence, which
    rules out overlong forms, surrogates and code points above U+10FFFF. *)
Definition second_ok (b1 b2 : Z) : bool :=
  if b1 =? 224 then in_range 160 191 b2
  else if b1 =? 237 then in_range 128 159 b2
  else if b1 =? 240 then in_range 144 191 b2
  else if b1 =? 244 then in_range 128 143 b2
  else is_cont b2.

(** [bytes.decode('utf-8')]: [None] is a [UnicodeDecodeError]. *)
Fixpoint utf8_decode (bs : pybytes) : option pystr :=
  match bs with
  | [] => Some []
  | b1 :: r1 =>
    if b1 <? 128 then cons b1 <$> utf8_decode r1
    else if in_range 194 223 b1 then
      match r1 with
      | b2 :: r2 =>
        if is_cont b2
        then cons ((b1 - 192) * 64 + (b2 - 128)) <$> utf8_decode r2
        else None
      | [] => None
      end
    else if in_range 224 239 b1 then
      match r1 with
      | b2 :: b3 :: r3 =>
        if second_ok b1 b2 && is_cont b3
        then cons ((b1 - 224) * 4096 + (b2 - 128) * 64 + (b3 - 128))
               <$> utf8_decode r3
        else None
      | _ => None
      end
    else if in_range 240 244 b1 then
      match r1 with
      | b2 :: b3 :: b4 :: r4 =>
        if second_ok b1 b2 && is_cont b3 && is_cont b4
        then cons ((b1 - 240) * 262144 + (b2 - 128) * 4096
                   + (b3 - 128) * 64 + (b4 - 128)) <$> utf8_decode r4
        else None
      | _ => None
      end
    else None
  end.

(** The UTF-8 form of one code point. *)
Definition utf8_encode_char (c : Z) : pybytes :=
  if c <? 128 then [c]
  else if c <? 2048 then [192 + c / 64; 128 + c mod 64]
  else if c <? 65536 then
    [224 + c / 4096; 128 + (c / 64) mod 64; 128 + c mod 64]
  else [240 + c / 262144; 128 + (c / 4096) mod 64;
        128 + (c / 64) mod 64; 128 + c mod 64].

(** [str.encode('utf-8')] on a string of Unicode scalar values. *)
Definition utf8_encode (s : pystr) : pybytes := flat_map utf8_encode_char s.

(** A Unicode scalar value: a code point that is not a surrogate. *)
Definition scalar (c : Z) : bool :=
  ((0 <=? c) && (c <? 55296)) || ((57344 <=? c) && (c <=? 1114111)).

Lemma in_range_true lo hi b : lo <= b <= hi -> in_range lo hi b = true.
Proof. intros. unfold in_range. apply andb_true_iff; split; apply Z.leb_le; lia. Qed.

Lemma in_range_false lo hi b : b < lo \/ hi < b -> in_range lo hi b = false.
Proof.
  intros. unfold in_range. apply andb_false_iff.
  destruct H; [left; apply Z.leb_gt|right; apply Z.leb_gt]; lia.
Qed.

Lemma is_cont_true b : 128 <= b <= 191 -> is_cont b = true.
Proof. apply in_range_true. Qed.

Lemma decode_2 b1 b2 r :
  194 <= b1 <= 223 -> 128 <= b2 <= 191 ->
  utf8_decode (b1 :: b2 :: r) = cons ((b1 - 192) * 64 + (b2 - 128)) <$> utf8_decode r.
Proof.
  intros H1 H2. cbn -[in_range is_cont].
  rewrite (proj2 (Z.ltb_ge b1 128)), in_range_true, is_cont_true by lia. done.
Qed.

Lemma decode_3 b1 b2 b3 r :
  224 <= b1 <= 239 -> second_ok b1 b2 = true -> 128 <= b3 <= 191 ->
  utf8_decode (b1 :: b2 :: b3 :: r) =
  cons ((b1 - 224) * 4096 + (b2 - 128) * 64 + (b3 - 128)) <$> utf8_decode r.
Proof.
  intros H1 H2 H3. cbn -[in_range is_cont second_ok].
  rewrite (proj2 (Z.ltb_ge b1 128)), (in_range_false 194 223), (in_range_true 224 239),
    H2, is_cont_true by lia. done.
Qed.

Lemma decode_4 b1 b2 b3 b4 r :
  240 <= b1 <= 244 -> second_ok b1 b2 = true -> 128 <= b3 <= 191 -> 128 <= b4 <= 191 ->
  utf8_decode (b1 :: b2 :: b3 :: b4 :: r) =
  cons ((b1 - 240) * 262144 + (b2 - 128) * 4096 + (b3 - 128) * 64 + (b4 - 128))
    <$> utf8_decode r.
Proof.
  intros H1 H2 H3 H4. cbn -[in_range is_cont second_ok].
  rewrite (proj2 (Z.ltb_ge b1 128)), (in_range_false 194 223), (in_range_false 224 239),
    (in_range_true 240 244), H2, !is_cont_true by lia. done.
Qed.

Lemma second_ok_cont b1 b2 :
  b1 <> 224 -> b1 <> 237 -> b1 <> 240 -> b1 <> 244 -> 128 <= b2 <= 191 -> second_ok b1 b2 = true.
Proof.
  intros. unfold second_ok, is_cont.
  rewrite (proj2 (Z.eqb_neq b1 224)), (proj2 (Z.eqb_neq b1 237)),
    (proj2 (Z.eqb_neq b1 240)), (proj2 (Z.eqb_neq b1 244)) by done.
  apply andb_true_iff; split; apply Z.leb_le; lia.
Qed.

Lemma second_ok_range b1 b2 lo hi :
  in_range lo hi b2 = true -> (b1 = 224 /\ lo = 160 \/ b1 = 237 /\ hi = 159 \/ b1 = 240 /\ lo = 144 \/ b1 = 244 /\ hi = 143) ->
  128 <= lo -> hi <= 191 -> second_ok b1 b2 = true.
Proof.
  unfold second_ok, in_range. rewrite andb_true_iff, !Z.leb_le. intros Hb Hcase Hlo Hhi.
  destruct Hcase as [[-> ->]|[[-> ->]|[[-> ->]|[-> ->]]]]; simpl;
    apply andb_true_iff; split; apply Z.leb_le; lia.
Qed.

Lemma utf8_decode_char c rest :
  scalar c = true ->
  utf8_decode (utf8_encode_char c ++ rest) = cons c <$> utf8_decode rest.
Proof.
  unfold scalar, utf8_encode_char. intros Hc.
  apply orb_true_iff in Hc. rewrite !andb_true_iff, !Z.leb_le, !Z.ltb_lt in Hc.
  pose proof (Z.div_mod c 64 ltac:(lia)) as E0.
  pose proof (Z.mod_pos_bound c 64 ltac:(lia)) as B0.
  pose proof (Z.div_mod (c / 64) 64 ltac:(lia)) as E1.
  pose proof (Z.mod_pos_bound (c / 64) 64 ltac:(lia)) as B1.
  pose proof (Z.div_mod (c / 4096) 64 ltac:(lia)) as E2.
  pose proof (Z.mod_pos_bound (c / 4096) 64 ltac:(lia)) as B2.
  assert (D1 : c / 4096 = c / 64 / 64) by (rewrite Z.div_div by lia; reflexivity).
  assert (D2 : c / 262144 = c / 4096 / 64) by (rewrite Z.div_div by lia; reflexivity).
  rewrite D2. rewrite D1 in E2, B2 |- *.
  set (a := c / 64) in *. set (r0 := c mod 64) in *. set (b := a / 64) in *.
  set (r1 := a mod 64) in *. set (d := b / 64) in *. set (r2 := b mod 64) in *.
  clearbody a r0 b r1 d r2.
  destruct (Z.ltb_spec c 128).
  { simpl. destruct (Z.ltb_spec c 128); [done|lia]. }
  destruct (Z.ltb_spec c 2048).
  { cbn [app]. rewrite decode_2 by lia. do 2 f_equal. lia. }
  destruct (Z.ltb_spec c 65536).
  { cbn [app]. rewrite decode_3; [do 2 f_equal; lia|lia| |lia].
    destruct (Z.eqb_spec b 0); [apply (second_ok_range _ _ 160 191)|];
    [apply in_range_true; lia|lia|lia|lia|].
    destruct (Z.eqb_spec b 13); [apply (second_ok_range _ _ 128 159)|];
    [apply in_range_true; lia|lia|lia|lia|].
    apply second_ok_cont; lia. }
  cbn [app]. rewrite decode_4; [do 2 f_equal; lia|lia| |lia|lia].
  destruct (Z.eqb_spec d 0); [apply (second_ok_range _ _ 144 191)|];
  [apply in_range_true; lia|lia|lia|lia|].
  destruct (Z.eqb_spec d 4); [apply (second_ok_range _ _ 128 143)|];
  [apply in_range_true; lia|lia|lia|lia|].
  apply second_ok_cont; lia.
Qed.

(** Round trip: decoding the UTF-8 form of a string of scalar values gives
    the string back. *)
Lemma utf8_roundtrip s :
  Forall (fun c => scalar c = true) s -> utf8_decode (utf8_encode s) = Some s.
Proof.
  induction 1 as [|c s Hc _ IH]; [done|]. simpl.
  rewrite utf8_decode_char by done. by rewrite IH.
Qed.

(** ** Text files: universal newlines and [readlines] *)

(** The newline translation of a text-mode read ([newline=None]): ["\r\n"]
    and a lone ["\r"] both become ["\n"]. *)
Fixpoint translate_newlines (s : pystr) : pystr :=
  match s with
  | [] => []
  | c :: r =>
    if c =? 13 then
      match r with
      | d :: r' => if d =? 10 then 10 :: translate_newlines r'
                   else 10 :: translate_newlines r
      | [] => [10]
      end
    else c :: translate_newlines r
  end.

(** [readlines()] on translated text: the lines, each keeping its final
    ["\n"]; the last line has none when the text does not end in one.
    [cur] is the current line, reversed. *)
Fixpoint split_lines_from (cur : pystr) (s : pystr) : list pystr :=
  match s with
  | [] => match cur with [] => [] | _ => [rev cur] end
  | c :: r =>
    if c =? 10 then rev (c :: cur) :: split_lines_from [] r
    else split_lines_from (c :: cur) r
  end.

Definition readlines (s : pystr) : list pystr := split_lines_from [] s.

(** The contents of a file read in text mode: decode, then translate. *)
Definition read_text (bs : pybytes) : option pystr :=
  translate_newlines <$> utf8_decode bs.

(** A well-formed line: it ends in ["\n"] and has no other newline or
    carriage return. *)
Definition line_ok (l : pystr) : Prop :=
  exists body, l = body ++ [10] /\ Forall (fun c => c <> 10 /\ c <> 13) body.

Lemma split_lines_from_body cur body r :
  Forall (fun c => c <> 10) body ->
  split_lines_from cur (body ++ 10 :: r) =
  (rev cur ++ body ++ [10]) :: split_lines_from [] r.
Proof.
  revert cur. induction body as [|c body IH]; intros cur Hb; simpl.
  - done.
  - inversion Hb as [|? ? Hc Hb']; subst.
    rewrite (proj2 (Z.eqb_neq c 10)) by done. rewrite IH by done.
    simpl. by rewrite <-app_assoc.
Qed.

(** [readlines] splits a concatenation of well-formed lines back into
    those lines. *)
Lemma readlines_concat ls :
  Forall line_ok ls -> readlines (concat ls) = ls.
Proof.
  unfold readlines. induction 1 as [|l ls [body [-> Hb]] _ IH]; [done|].
  simpl. rewrite <-app_assoc. simpl.
  rewrite split_lines_from_body by (eapply Forall_impl; [done|]; naive_solver).
  by rewrite IH.
Qed.

Lemma translate_newlines_id s :
  Forall (fun c => c <> 13) s -> translate_newlines s = s.
Proof.
  induction 1 as [|c s Hc _ IH]; simpl; [done|].
  rewrite (proj2 (Z.eqb_neq c 13)) by done. by rewrite IH.
Qed.

Lemma concat_lines_no_cr ls :
  Forall line_ok ls -> Forall (fun c => c <> 13) (concat ls).
Proof.
  induction 1 as [|l ls [body [-> Hb]] _ IH]; simpl; [done|].
  rewrite !Forall_app. split; [split|done].
  - eapply Forall_impl; [done|]. naive_solver.
  - by constructor.
Qed.

Lemma take_until_app c a r :
  Forall (fun x => x <> c) a -> take_until c (a ++ c :: r) = a.
Proof.
  induction 1 as [|x a Hx _ IH]; cbn; [by rewrite Z.eqb_refl|].
  rewrite (proj2 (Z.eqb_neq x c)) by done. by rewrite IH.
Qed.

(** [os.path.basename] of a path whose last component is [x]. *)
Lemma basename_app d x :
  Forall (fun c => c <> 47) x -> basename (d ++ 47 :: x) = x.
Proof.
  intros Hx. unfold basename. rewrite rev_app_distr. cbn [rev].
  rewrite <-app_assoc. cbn [app]. rewrite take_until_app; [apply rev_involutive|].
  by apply Forall_rev.
Qed.
