(* ===== verification/PyRuntime.v ===== *)
(** * The Python runtime the script runs in

    The effects of [breaking-api-check.py] as a state-and-exception monad
    [PyM] over a [world]:
    - the file system: regular files as a [gmap] from path to bytes, and
      the directories as a [gmap] from path to the names [os.listdir]
      returns, in its order;
    - the transcripts of stdout and stderr, one entry per [print];
    - the log of spawned commands, in order.
    An exception aborts the rest of the computation. The side effects done
    before it are kept, as in Python.

    The external programs ([xcrun swift-api-digester], [gh], [xcrun otool]),
    [plistlib]'s parser and [repr()] of a plist value are not part of the
    repository. They are interfaces: the typeclasses [Toolchain],
    [PlistLib] and [PyRepr]. Theorems about the script hold for every
    instance. The witnesses use concrete instances.

    [reads_only m] says that [m] leaves the world as it is and gives the
    same outcome in every world with the same files, directories and
    working directory ([same_view]). The [readonly] hint database and the
    tactic [ro_solve] prove it for the script's reading functions.
    [log_grows m] says that [m] only appends to the log of commands
    ([loggrows], [lg_solve]). [exits_in ok m] says that every [SystemExit]
    escaping [m] has a code with [ok] ([exits], [ei_solve]).

    Paths are the strings the script builds. A relative path is resolved
    against the working directory by plain concatenation ([resolve]). Paths
    are not normalised, so two spellings of one file are two keys. *)

From S2P Require Import Prelude PyStr.

Open Scope Z_scope.

(** ** Exceptions *)

Inductive exc :=
| Exception (msg : pystr)            (** [raise Exception(msg)] *)
| IndexError                         (** [l[0]] on an empty list *)
| KeyError (key : pystr)             (** [d[key]] on a missing key *)
| TypeError                          (** an operation on a value of the wrong type *)
| UnboundLocalError (name : pystr)   (** a local read before assignment *)
| FileNotFoundError (path : pystr)
| UnicodeDecodeError (path : pystr)  (** text read of non-UTF-8 bytes *)
| InvalidFileException (path : pystr) (** [plistlib] cannot parse *)
| SystemExit (code : Z).             (** [exit(code)] *)

(** ** Property-list values, as [plistlib] returns them *)

Inductive pval :=
| PStr (s : pystr)
| PArr (l : list pval)
| PDict (kv : list (pystr * pval)).

(** ** The world *)

Record world := mkWorld {
  w_fs : gmap pystr pybytes;
  w_dirs : gmap pystr (list pystr);
  w_cwd : pystr;
  w_stdout : list pystr;
  w_stderr : list pystr;
  w_spawned : list (list pystr);
}.

Definition set_fs (fs : gmap pystr pybytes) (w : world) : world :=
  mkWorld fs (w_dirs w) (w_cwd w) (w_stdout w) (w_stderr w) (w_spawned w).
Definition add_stdout (s : pystr) (w : world) : world :=
  mkWorld (w_fs w) (w_dirs w) (w_cwd w) (w_stdout w ++ [s]) (w_stderr w) (w_spawned w).
Definition add_stderr (s : pystr) (w : world) : world :=
  mkWorld (w_fs w) (w_dirs w) (w_cwd w) (w_stdout w) (w_stderr w ++ [s]) (w_spawned w).
Definition add_spawned (argv : list pystr) (w : world) : world :=
  mkWorld (w_fs w) (w_dirs w) (w_cwd w) (w_stdout w) (w_stderr w) (w_spawned w ++ [argv]).

(** A new, empty directory. *)
Definition add_dir (d : pystr) (w : world) : world :=
  mkWorld (w_fs w) (<[d := []]> (w_dirs w)) (w_cwd w) (w_stdout w) (w_stderr w) (w_spawned w).

(** A path as the OS resolves it: relative paths are under the working
    directory. *)
Definition resolve (w : world) (p : pystr) : pystr :=
  if startswith p [47] then p else w_cwd w ++ [47] ++ p.

(** [os.path.isdir(p)] and [os.listdir(p)] for a path made absolute. *)
Definition isdir (w : world) (p : pystr) : bool := bool_decide (is_Some (w_dirs w !! resolve w p)).

(** ** The monad *)

Definition PyM (A : Type) : Type := world -> (exc + A) * world.

Definition ret {A} (a : A) : PyM A := fun w => (inr a, w).

Definition bind {A B} (m : PyM A) (f : A -> PyM B) : PyM B :=
  fun w => match m w with
           | (inl e, w') => (inl e, w')
           | (inr a, w') => f a w'
           end.

Definition raise {A} (e : exc) : PyM A := fun w => (inl e, w).

Definition modify (f : world -> world) : PyM unit := fun w => (inr tt, f w).

(** [os.getcwd()] and [os.path.isdir(p)]. *)
Definition getcwd : PyM pystr := fun w => (inr (w_cwd w), w).
Definition path_isdir (p : pystr) : PyM bool := fun w => (inr (isdir w p), w).

Notation "x <- m ;; k" := (bind m (fun x => k))
  (at level 100, m at next level, right associativity) : py_scope.
Notation "m ;; k" := (bind m (fun _ => k))
  (at level 100, right associativity) : py_scope.

Open Scope py_scope.

(** [for x in l: body(x)]. *)
Fixpoint for_each {A} (l : list A) (body : A -> PyM unit) : PyM unit :=
  match l with
  | [] => ret tt
  | x :: l' => body x ;; for_each l' body
  end.

(** [list(map(f, l))] with an [f] that may raise: applied in order, the
    first exception stops the loop. *)
Fixpoint map_m {A B} (f : A -> PyM B) (l : list A) : PyM (list B) :=
  match l with
  | [] => ret []
  | x :: l' => y <- f x ;; ys <- map_m f l' ;; ret (y :: ys)
  end.

(** [list(filter(p, l))] with a predicate that may raise. *)
Fixpoint filter_m {A} (p : A -> PyM bool) (l : list A) : PyM (list A) :=
  match l with
  | [] => ret []
  | x :: l' => b <- p x ;; ys <- filter_m p l' ;; ret (if b then x :: ys else ys)
  end.

(** [for x in l: b = f(b, x)]: a loop that threads a value. *)
Fixpoint fold_m {A B} (f : B -> A -> PyM B) (l : list A) (b : B) : PyM B :=
  match l with
  | [] => ret b
  | x :: l' => b' <- f b x ;; fold_m f l' b'
  end.

Lemma bind_ret_l {A B} (a : A) (f : A -> PyM B) w : bind (ret a) f w = f a w.
Proof. reflexivity. Qed.

Lemma bind_ret_r {A} (m : PyM A) w : bind m ret w = m w.
Proof. unfold bind. by destruct (m w) as [[] ?]. Qed.

Lemma bind_assoc {A B C} (m : PyM A) (f : A -> PyM B) (g : B -> PyM C) w :
  bind (bind m f) g w = bind m (fun a => bind (f a) g) w.
Proof. unfold bind. by destruct (m w) as [[] ?]. Qed.

Lemma bind_raise {A B} (e : exc) (f : A -> PyM B) w :
  bind (raise e) f w = (inl e, w).
Proof. reflexivity. Qed.

#[export] Hint Rewrite @bind_ret_l @bind_assoc @bind_raise : apichk_rw.

(** ** Builtins *)

(** [print(s)] and [print(s, file=sys.stderr)]. *)
Definition print (s : pystr) : PyM unit := modify (add_stdout (s ++ [10])).
Definition print_err (s : pystr) : PyM unit := modify (add_stderr (s ++ [10])).

(** [open(p, "rb").read()]. *)
Definition read_bytes (p : pystr) : PyM pybytes :=
  fun w => match w_fs w !! resolve w p with
           | Some bs => (inr bs, w)
           | None => (inl (FileNotFoundError p), w)
           end.

(** [open(p).read()] and [open(p).readlines()] in text mode: strict UTF-8,
    universal newlines. *)
Definition read_text (p : pystr) : PyM pystr :=
  bs <- read_bytes p ;;
  match PyStr.read_text bs with
  | Some t => ret t
  | None => raise (UnicodeDecodeError p)
  end.

Definition read_lines (p : pystr) : PyM (list pystr) :=
  t <- read_text p ;; ret (readlines t).

(** [open(p, "w").write(s)]: the file is created or truncated. *)
Definition write_text (p : pystr) (s : pystr) : PyM unit :=
  modify (fun w => set_fs (<[resolve w p := utf8_encode s]> (w_fs w)) w).

(** [os.remove(p)]. *)
Definition remove (p : pystr) : PyM unit :=
  fun w => let k := resolve w p in
           match w_fs w !! k with
           | Some _ => (inr tt, set_fs (delete k (w_fs w)) w)
           | None => (inl (FileNotFoundError p), w)
           end.

(** [os.listdir(p)]. *)
Definition listdir (p : pystr) : PyM (list pystr) :=
  fun w => match w_dirs w !! resolve w p with
           | Some names => (inr names, w)
           | None => (inl (FileNotFoundError p), w)
           end.

(** [exit(code)]. *)
Definition sys_exit {A} (code : Z) : PyM A := raise (SystemExit code).

(** ** External programs *)

(** What [subprocess.run] returns, or the exception it raises when the
    program cannot be started. *)
Inductive proc_outcome :=
| Completed (returncode : Z) (stdout stderr : pystr)
| LaunchFailed (e : exc).

Record completed := { returncode : Z; proc_stdout : pystr; proc_stderr : pystr }.

(** The toolchain: given an argument vector and the world it runs in, the
    outcome and the file system the program leaves. *)
Class Toolchain := {
  run_tool : list pystr -> world -> proc_outcome * gmap pystr pybytes
}.

(** [plistlib.load]/[plistlib.loads]: the parse of a byte string. *)
Class PlistLib := {
  plist_loads : pybytes -> option pval
}.

(** [repr(v)] of a property-list value (a quoted string, or the text of
    a list or a dict) is the runtime's and is left to the instance. *)
Class PyRepr := {
  py_repr : pval -> pystr
}.

(** [str(v)]: a string is itself, a list or a dict is its [repr]. *)
Definition py_str `{PyRepr} (v : pval) : pystr :=
  match v with
  | PStr s => s
  | _ => py_repr v
  end.

Section Subprocess.
Context `{Toolchain}.

(** [subprocess.run(argv, capture_output=capture, text=True)]. The
      command is logged. Without capture, its output goes to the script's
      own stdout and stderr. *)
Definition subprocess_run (argv : list pystr) (capture : bool) : PyM completed :=
    fun w =>
      let w1 := add_spawned argv w in
      match run_tool argv w1 with
      | (LaunchFailed e, fs) => (inl e, set_fs fs w1)
      | (Completed rc out err, fs) =>
        let w2 := set_fs fs w1 in
        let w3 := if capture then w2
                  else add_stderr err (add_stdout out w2) in
        (inr {| returncode := rc; proc_stdout := out; proc_stderr := err |}, w3)
      end.
End Subprocess.

(** ** Paths do not depend on what the script prints, spawns or writes *)

Lemma resolve_set_fs fs w p : resolve (set_fs fs w) p = resolve w p.
Proof. reflexivity. Qed.
Lemma resolve_add_stdout s w p : resolve (add_stdout s w) p = resolve w p.
Proof. reflexivity. Qed.
Lemma resolve_add_stderr s w p : resolve (add_stderr s w) p = resolve w p.
Proof. reflexivity. Qed.
Lemma resolve_add_spawned a w p : resolve (add_spawned a w) p = resolve w p.
Proof. reflexivity. Qed.

#[export] Hint Rewrite resolve_set_fs resolve_add_stdout resolve_add_stderr
  resolve_add_spawned : apichk_rw.

Lemma read_text_run p w bs t :
  w_fs w !! resolve w p = Some bs -> PyStr.read_text bs = Some t ->
  read_text p w = (inr t, w).
Proof. intros Hf Ht. unfold read_text, read_bytes, bind. rewrite Hf. simpl. by rewrite Ht. Qed.

Lemma resolve_cwd w w' p : w_cwd w = w_cwd w' -> resolve w p = resolve w' p.
Proof. intros E. unfold resolve. by rewrite E. Qed.

(** ** Loops whose body does not touch the world *)

Lemma map_m_pure {A B} (f : A -> PyM B) (g : A -> B) l w :
  (forall x, x ∈ l -> f x w = (inr (g x), w)) ->
  map_m f l w = (inr (map g l), w).
Proof.
  induction l as [|x l IH]; intros Hf; [done|]. cbn [map_m map].
  unfold bind. rewrite Hf by set_solver. rewrite IH by (intros; apply Hf; set_solver).
  reflexivity.
Qed.

Lemma filter_m_pure {A} (p : A -> PyM bool) (b : A -> bool) l w :
  (forall x, x ∈ l -> p x w = (inr (b x), w)) ->
  filter_m p l w = (inr (List.filter b l), w).
Proof.
  induction l as [|x l IH]; intros Hp; [done|]. cbn [filter_m List.filter].
  unfold bind. rewrite Hp by set_solver. rewrite IH by (intros; apply Hp; set_solver).
  reflexivity.
Qed.

(** The first element whose test raises stops the filter. *)
Lemma filter_m_raise {A} (p : A -> PyM bool) (b : A -> bool) pre x post e w :
  (forall y, y ∈ pre -> forall w, p y w = (inr (b y), w)) ->
  (forall w, p x w = (inl e, w)) ->
  filter_m p (pre ++ x :: post) w = (inl e, w).
Proof.
  revert w. induction pre as [|y pre IH]; intros w Hpre Hx; cbn [filter_m app].
  - unfold bind. by rewrite Hx.
  - unfold bind at 1. rewrite Hpre by set_solver. fold (@bind bool).
    unfold bind at 1. rewrite IH; [done| |done]. intros; apply Hpre; set_solver.
Qed.

(** ** Computations that only read *)

(** Two worlds with the same files, directories and working directory:
    what a read sees. *)
Definition same_view (w w' : world) : Prop :=
  w_fs w = w_fs w' /\ w_dirs w = w_dirs w' /\ w_cwd w = w_cwd w'.

#[export] Instance same_view_equiv : Equivalence same_view.
Proof.
  split.
  - intros w. by repeat split.
  - intros w w' (? & ? & ?). by repeat split.
  - intros w1 w2 w3 (? & ? & ?) (? & ? & ?). repeat split; congruence.
Qed.

(** [m] leaves the world as it is, and gives the same outcome in every
    world with the same view. *)
Definition reads_only {A} (m : PyM A) : Prop :=
  forall w, (m w).2 = w /\ forall w', same_view w w' -> m w' = ((m w).1, w').

Lemma reads_only_run {A} (m : PyM A) w r :
  reads_only m -> m w = (r, w) -> forall w', same_view w w' -> m w' = (r, w').
Proof. intros Hm Hw w' Hv. destruct (Hm w) as [_ H]. rewrite H, Hw by done. done. Qed.

Lemma ro_ret {A} (a : A) : reads_only (ret a).
Proof. intros w. split; [done|]. by intros. Qed.

Lemma ro_raise {A} e : reads_only (@raise A e).
Proof. intros w. split; [done|]. by intros. Qed.

Lemma ro_bind {A B} (m : PyM A) (f : A -> PyM B) :
  reads_only m -> (forall a, reads_only (f a)) -> reads_only (bind m f).
Proof.
  intros Hm Hf w. unfold bind. destruct (Hm w) as [H1 H2].
  destruct (m w) as [[e|a] w1] eqn:E; cbn in H1; subst w1.
  - split; [done|]. intros w' Hv. by rewrite (H2 w' Hv).
  - destruct (Hf a w) as [H3 H4]. split; [done|]. intros w' Hv.
    rewrite (H2 w' Hv). cbn. by apply H4.
Qed.

Lemma ro_read_bytes p : reads_only (read_bytes p).
Proof.
  intros w. unfold read_bytes, resolve. split; [by destruct (_ !! _)|].
  intros w' (Hf & _ & Hc). rewrite <-Hf, <-Hc. by destruct (_ !! _).
Qed.

Lemma ro_getcwd : reads_only getcwd.
Proof. intros w. split; [done|]. intros w' (_ & _ & Hc). unfold getcwd. by rewrite Hc. Qed.

Lemma ro_path_isdir p : reads_only (path_isdir p).
Proof.
  intros w. split; [done|]. intros w' (_ & Hd & Hc). unfold path_isdir, isdir, resolve.
  by rewrite Hd, Hc.
Qed.

Lemma ro_listdir p : reads_only (listdir p).
Proof.
  intros w. unfold listdir, resolve. split; [by destruct (_ !! _)|].
  intros w' (_ & Hd & Hc). rewrite <-Hd, <-Hc. by destruct (_ !! _).
Qed.

Create HintDb readonly discriminated.
#[export] Hint Resolve ro_ret ro_raise ro_read_bytes ro_getcwd ro_path_isdir ro_listdir : readonly.

(** Splits a computation into binds and branches until every piece is a
    read the hint database knows. *)
Lemma ro_map_m {A B} (f : A -> PyM B) l :
  (forall x, reads_only (f x)) -> reads_only (map_m f l).
Proof.
  intros Hf. induction l as [|x l IH]; cbn; [apply ro_ret|].
  apply ro_bind; [done|]. intros. apply ro_bind; [done|]. intros. apply ro_ret.
Qed.

Lemma ro_filter_m {A} (p : A -> PyM bool) l :
  (forall x, reads_only (p x)) -> reads_only (filter_m p l).
Proof.
  intros Hp. induction l as [|x l IH]; cbn; [apply ro_ret|].
  apply ro_bind; [done|]. intros. apply ro_bind; [done|]. intros. apply ro_ret.
Qed.

Ltac ro_solve :=
  repeat first
    [ progress intros
    | apply ro_bind
    | apply ro_map_m
    | apply ro_filter_m
    | solve [eauto with readonly]
    | case_match ].

Lemma ro_read_text p : reads_only (read_text p).
Proof. unfold read_text. ro_solve. Qed.

#[export] Hint Resolve ro_read_text : readonly.

Lemma isdir_view w w' p : same_view w w' -> isdir w' p = isdir w p.
Proof. destruct w, w'. intros (? & ? & ?). cbn in *. by subst. Qed.

Lemma same_view_add_spawned a w : same_view w (add_spawned a w).
Proof. done. Qed.
Lemma same_view_add_stdout s w : same_view w (add_stdout s w).
Proof. done. Qed.
Lemma same_view_add_stderr s w : same_view w (add_stderr s w).
Proof. done. Qed.
Lemma same_view_set_fs w : same_view w (set_fs (w_fs w) w).
Proof. done. Qed.

(** ** The log of spawned commands only grows *)

(** [m] keeps every command already logged, in order, and may append. *)
Definition log_grows {A} (m : PyM A) : Prop :=
  forall w, w_spawned w `prefix_of` w_spawned (m w).2.

(** [m] logs [argv] before anything else it runs. *)
Definition spawns_first {A} (argv : list pystr) (m : PyM A) : Prop :=
  forall w, (w_spawned w ++ [argv]) `prefix_of` w_spawned (m w).2.

Lemma lg_reads_only {A} (m : PyM A) : reads_only m -> log_grows m.
Proof. intros Hm w. destruct (Hm w) as [-> _]. done. Qed.

Lemma lg_bind {A B} (m : PyM A) (f : A -> PyM B) :
  log_grows m -> (forall a, log_grows (f a)) -> log_grows (bind m f).
Proof.
  intros Hm Hf w. unfold bind. specialize (Hm w).
  destruct (m w) as [[e|a] w1]; [done|]. etrans; [exact Hm|apply Hf].
Qed.

Lemma lg_modify f : (forall w, w_spawned (f w) = w_spawned w) -> log_grows (modify f).
Proof. intros Hf w. cbn. by rewrite Hf. Qed.

Lemma lg_print s : log_grows (print s).
Proof. by apply lg_modify. Qed.
Lemma lg_print_err s : log_grows (print_err s).
Proof. by apply lg_modify. Qed.
Lemma lg_write_text p s : log_grows (write_text p s).
Proof. by apply lg_modify. Qed.
Lemma lg_remove p : log_grows (remove p).
Proof. intros w. unfold remove. by destruct (_ !! _). Qed.

Lemma lg_subprocess_run `{Toolchain} argv cap : log_grows (subprocess_run argv cap).
Proof.
  intros w. unfold subprocess_run. destruct (run_tool _ _) as [[rc out err|e] fs];
    [destruct cap|]; cbn; by apply prefix_app_r.
Qed.

Lemma spawns_first_run `{Toolchain} argv cap : spawns_first argv (subprocess_run argv cap).
Proof.
  intros w. unfold subprocess_run. destruct (run_tool _ _) as [[rc out err|e] fs];
    [destruct cap|]; done.
Qed.

Lemma spawns_first_bind {A B} argv (m : PyM A) (f : A -> PyM B) :
  spawns_first argv m -> (forall a, log_grows (f a)) -> spawns_first argv (bind m f).
Proof.
  intros Hm Hf w. unfold bind. specialize (Hm w).
  destruct (m w) as [[e|a] w1]; [done|]. etrans; [exact Hm|apply Hf].
Qed.

Lemma lg_fold_m {A B} (f : B -> A -> PyM B) l b :
  (forall b x, log_grows (f b x)) -> log_grows (fold_m f l b).
Proof.
  intros Hf. revert b. induction l as [|x l IH]; intros b; cbn.
  - apply lg_reads_only, ro_ret.
  - apply lg_bind; [apply Hf|done].
Qed.

Create HintDb loggrows discriminated.
#[export] Hint Resolve lg_print lg_print_err lg_write_text lg_remove lg_subprocess_run : loggrows.

(** Splits a computation into binds and branches until every piece keeps
    the log or only reads. *)
Ltac lg_solve :=
  repeat first
    [ progress intros
    | apply lg_bind
    | solve [eauto with loggrows]
    | solve [apply lg_reads_only; ro_solve]
    | case_match ].

(** ** Which [SystemExit] a computation can raise *)

(** Every [SystemExit] that escapes [m] carries a code with [ok]. Other
    exceptions and normal returns are unconstrained. *)
Record exits_in {A} (ok : Z -> Prop) (m : PyM A) : Prop := ExitsIn {
  exits_in_spec : forall w c, (m w).1 = inl (SystemExit c) -> ok c
}.

(** [subprocess.run] raises [OSError]s when a program cannot be started,
    never [SystemExit]. *)
Definition launches_cleanly `{Toolchain} : Prop :=
  forall argv w e fs, run_tool argv w = (LaunchFailed e, fs) -> forall c, e <> SystemExit c.

Section Exits.
Context (ok : Z -> Prop).

Lemma ei_ret {A} (a : A) : exits_in ok (ret a).
Proof. by constructor. Qed.

Lemma ei_raise {A} e : (forall c, e = SystemExit c -> ok c) -> exits_in ok (@raise A e).
Proof. intros He. constructor. intros w c [= ->]. by apply He. Qed.

Lemma ei_bind {A B} (m : PyM A) (f : A -> PyM B) :
  exits_in ok m -> (forall a, exits_in ok (f a)) -> exits_in ok (bind m f).
Proof.
  intros [Hm] Hf. constructor. intros w c. unfold bind.
  destruct (m w) as [[e|a] w'] eqn:E; [|apply Hf].
  intros [= ->]. apply (Hm w c). by rewrite E.
Qed.

Lemma ei_modify f : exits_in ok (modify f).
Proof. by constructor. Qed.
Lemma ei_print s : exits_in ok (print s).
Proof. by constructor. Qed.
Lemma ei_print_err s : exits_in ok (print_err s).
Proof. by constructor. Qed.
Lemma ei_write_text p s : exits_in ok (write_text p s).
Proof. by constructor. Qed.
Lemma ei_getcwd : exits_in ok getcwd.
Proof. by constructor. Qed.
Lemma ei_path_isdir p : exits_in ok (path_isdir p).
Proof. by constructor. Qed.
Lemma ei_read_bytes p : exits_in ok (read_bytes p).
Proof. constructor. intros w c. unfold read_bytes. by case_match. Qed.
Lemma ei_listdir p : exits_in ok (listdir p).
Proof. constructor. intros w c. unfold listdir. by case_match. Qed.
Lemma ei_remove p : exits_in ok (remove p).
Proof. constructor. intros w c. unfold remove. by case_match. Qed.

Lemma ei_subprocess_run `{Toolchain} argv cap :
  launches_cleanly -> exits_in ok (subprocess_run argv cap).
Proof.
  intros Hl. constructor. intros w c. unfold subprocess_run.
  destruct (run_tool argv (add_spawned argv w)) as [[rc out err|e] fs] eqn:E; [done|].
  intros [= ->]. by destruct (Hl _ _ _ _ E c).
Qed.

Lemma ei_map_m {A B} (f : A -> PyM B) l :
  (forall x, exits_in ok (f x)) -> exits_in ok (map_m f l).
Proof.
  intros Hf. induction l as [|x l IH]; cbn; [apply ei_ret|].
  apply ei_bind; [done|]. intros. apply ei_bind; [done|]. intros. apply ei_ret.
Qed.

Lemma ei_filter_m {A} (p : A -> PyM bool) l :
  (forall x, exits_in ok (p x)) -> exits_in ok (filter_m p l).
Proof.
  intros Hp. induction l as [|x l IH]; cbn; [apply ei_ret|].
  apply ei_bind; [done|]. intros. apply ei_bind; [done|]. intros. apply ei_ret.
Qed.

Lemma ei_fold_m {A B} (f : B -> A -> PyM B) l b :
  (forall b x, exits_in ok (f b x)) -> exits_in ok (fold_m f l b).
Proof.
  intros Hf. revert b. induction l as [|x l IH]; intros b; cbn; [apply ei_ret|].
  apply ei_bind; [done|]. intros. apply IH.
Qed.

End Exits.

Lemma ei_weaken {A} (ok ok' : Z -> Prop) (m : PyM A) :
  (forall c, ok c -> ok' c) -> exits_in ok m -> exits_in ok' m.
Proof. intros Hw [Hm]. constructor. intros w c Hc. by apply Hw, (Hm w). Qed.

Create HintDb exits discriminated.
#[export] Hint Resolve ei_ret ei_modify ei_print ei_print_err ei_write_text ei_getcwd
  ei_path_isdir ei_read_bytes ei_listdir ei_remove ei_subprocess_run : exits.

(** Splits a computation into binds, loops and branches until every piece
    is a primitive, a raise of another exception than [SystemExit], or a
    lemma of the [exits] database. *)
Ltac ei_solve :=
  repeat first
    [ progress intros
    | solve [eauto with exits]
    | apply ei_bind
    | apply ei_map_m
    | apply ei_filter_m
    | apply ei_fold_m
    | apply ei_raise; by intros ? [=]
    | case_match ].
