(* ===== verification/PyPath.v ===== *)
(** * [str.split] and [os.path]

    The remaining Python library semantics the script relies on:
    - [s.split(sep)] with a non-empty separator;
    - [s.split()] on runs of whitespace;
    - [os.path.join], [os.path.dirname], [os.path.normpath],
      [os.path.abspath] and [os.path.splitext] of [posixpath].
    All are written from CPython 3; none is code of the repository. *)

From S2P Require Import Prelude PyStr.

Open Scope Z_scope.

(** ** [s.split(sep)] *)

(** [skip] counts the characters of a separator still to be passed over,
    and [cur] is the current piece, reversed. *)
Fixpoint split_from (sep : pystr) (skip : nat) (cur : pystr) (s : pystr) : list pystr :=
  match s with
  | [] => [rev cur]
  | c :: s' =>
    match skip with
    | S k => split_from sep k cur s'
    | O => if startswith s sep then rev cur :: split_from sep (pred (length sep)) [] s'
           else split_from sep 0 (c :: cur) s'
    end
  end.

(** [s.split(sep)] for [sep <> '']. *)
Definition split_sep (s sep : pystr) : list pystr := split_from sep 0 [] s.

(** ** [s.split()] *)

Fixpoint split_ws_from (cur : pystr) (s : pystr) : list pystr :=
  match s with
  | [] => match cur with [] => [] | _ => [rev cur] end
  | c :: s' =>
    if is_space c
    then match cur with
         | [] => split_ws_from [] s'
         | _ => rev cur :: split_ws_from [] s'
         end
    else split_ws_from (c :: cur) s'
  end.

(** [s.split()]: the maximal runs of non-whitespace characters. *)
Definition split_ws (s : pystr) : list pystr := split_ws_from [] s.

(** ** [os.path] *)

Definition slash : Z := 47.

(** [os.path.join(a, b)]. *)
Definition path_join (a b : pystr) : pystr :=
  if startswith b [slash] then b
  else match a with
       | [] => b
       | _ => if endswith a [slash] then a ++ b else a ++ [slash] ++ b
       end.

(** [os.path.join(a, b, c, ...)]. *)
Definition path_join_all (a : pystr) (bs : list pystr) : pystr := fold_left path_join bs a.

Fixpoint drop_trailing (c : Z) (rs : pystr) : pystr :=
  match rs with
  | d :: rs' => if d =? c then drop_trailing c rs' else rs
  | [] => []
  end.

(** [s] from the first [c] on. *)
Fixpoint drop_until (c : Z) (s : pystr) : pystr :=
  match s with
  | [] => []
  | d :: s' => if d =? c then s else drop_until c s'
  end.

(** [os.path.dirname(p)]: [p[:p.rfind('/') + 1]], with its trailing
    slashes removed unless it is made of slashes only. *)
Definition dirname (p : pystr) : pystr :=
  let head_rev := drop_until slash (rev p) in
  if forallb (fun c => c =? slash) head_rev then rev head_rev
  else rev (drop_trailing slash head_rev).

(** ['sep'.join(l)]. *)
Fixpoint join_with (sep : pystr) (l : list pystr) : pystr :=
  match l with
  | [] => []
  | [x] => x
  | x :: l' => x ++ sep ++ join_with sep l'
  end.

Definition dot : pystr := [46].
Definition dotdot : pystr := [46; 46].

(** One step of the loop of [posixpath.normpath]; [acc] is [new_comps]
    reversed. *)
Definition normpath_step (initial : nat) (acc : list pystr) (comp : pystr) : list pystr :=
  if bool_decide (comp = []) || bool_decide (comp = dot) then acc
  else if negb (bool_decide (comp = dotdot))
          || ((initial =? 0)%nat && bool_decide (acc = []))
          || bool_decide (head acc = Some dotdot)
  then comp :: acc
  else match acc with
       | _ :: acc' => acc'
       | [] => []
       end.

(** [os.path.normpath(p)]. *)
Definition normpath (p : pystr) : pystr :=
  match p with
  | [] => dot
  | _ =>
    let initial :=
      if startswith p [slash] then
        if startswith p [slash; slash] && negb (startswith p [slash; slash; slash]) then 2%nat
        else 1%nat
      else 0%nat in
    let comps := fold_left (normpath_step initial) (split_sep p [slash]) [] in
    let res := repeat slash initial ++ join_with [slash] (rev comps) in
    match res with [] => dot | _ => res end
  end.

(** [os.path.abspath(p)] with working directory [cwd]. *)
Definition abspath (cwd p : pystr) : pystr :=
  if startswith p [slash] then normpath p else normpath (path_join cwd p).

(** [os.path.splitext(p)]: the extension is the last dot of the last
    component and what follows it, unless only dots precede that dot. *)
Definition splitext (p : pystr) : pystr * pystr :=
  let b := basename p in
  let after := rev (take_until 46 (rev b)) in
  if (length after =? length b)%nat then (p, [])
  else
    let before := take (length b - length after - 1) b in
    if forallb (fun c => c =? 46) before then (p, [])
    else (take (length p - length after - 1) p, 46 :: after).

(** [a] immediately followed by [b] somewhere in [x]. *)
Fixpoint occurs2 (a b : Z) (x : pystr) : bool :=
  match x with
  | c :: ((d :: _) as x') => ((c =? a) && (d =? b)) || occurs2 a b x'
  | _ => false
  end.

(** ** Lemmas *)

Lemma occurs2_cons a b c x : occurs2 a b (c :: x) = false -> occurs2 a b x = false.
Proof. destruct x as [|d x]; [done|]. cbn [occurs2]. intros H. apply orb_false_iff in H as [_ H]. exact H. Qed.

Lemma startswith_nil s : startswith s [] = true.
Proof. by destruct s. Qed.

Lemma split_from_skip sep x cur rest :
  split_from sep (length x) cur (x ++ rest) = split_from sep 0 cur rest.
Proof. induction x as [|c x IH]; [done|]. exact IH. Qed.

(** No separator [[a; b]] starts inside [c :: x] when the separator
    follows it. *)
Lemma startswith_pair_false a b c x rest :
  a <> b -> occurs2 a b (c :: x) = false ->
  startswith (c :: x ++ a :: b :: rest) [a; b] = false.
Proof.
  intros Hab Hx. cbn [startswith app]. destruct x as [|d x]; cbn [app startswith].
  - destruct (Z.eqb_spec b a); [congruence|]. by rewrite andb_false_l, andb_false_r.
  - cbn [occurs2] in Hx. apply orb_false_iff in Hx as [Hx _].
    rewrite startswith_nil, andb_true_r, (Z.eqb_sym a c), (Z.eqb_sym b d). exact Hx.
Qed.

Lemma split_pair_piece a b x rest cur :
  a <> b -> occurs2 a b x = false ->
  split_from [a; b] 0 cur (x ++ a :: b :: rest) = (rev cur ++ x) :: split_from [a; b] 0 [] rest.
Proof.
  intros Hab. revert cur. induction x as [|c x IH]; intros cur Hx.
  - cbn [app split_from startswith]. rewrite !Z.eqb_refl, startswith_nil, app_nil_r. reflexivity.
  - cbn [app split_from]. rewrite (startswith_pair_false _ _ _ _ _ Hab Hx).
    rewrite (IH (c :: cur) (occurs2_cons _ _ _ _ Hx)). cbn [rev]. by rewrite <-app_assoc.
Qed.

Lemma split_pair_last a b x cur :
  occurs2 a b x = false -> split_from [a; b] 0 cur x = [rev cur ++ x].
Proof.
  revert cur. induction x as [|c x IH]; intros cur Hx; [by rewrite app_nil_r|].
  cbn [split_from]. replace (startswith (c :: x) [a; b]) with false.
  - rewrite (IH (c :: cur) (occurs2_cons _ _ _ _ Hx)). cbn [rev]. by rewrite <-app_assoc.
  - destruct x as [|d x]; cbn [startswith]; [by rewrite andb_false_r|].
    cbn [occurs2] in Hx. apply orb_false_iff in Hx as [Hx _].
    rewrite startswith_nil, andb_true_r, (Z.eqb_sym a c), (Z.eqb_sym b d). by rewrite Hx.
Qed.

(** [s.split(sep)] inverts [sep.join] for a two-character separator of
    distinct characters when no piece contains it. *)
Lemma split_sep_pieces a b x0 xs :
  a <> b -> Forall (fun x => occurs2 a b x = false) (x0 :: xs) ->
  split_sep (x0 ++ concat (map (fun x => [a; b] ++ x) xs)) [a; b] = x0 :: xs.
Proof.
  intros Hab. unfold split_sep. revert x0. induction xs as [|x xs IH]; intros x0 Hall;
    apply Forall_cons in Hall as [H0 Hall]; cbn [map concat].
  - by rewrite app_nil_r, split_pair_last.
  - rewrite <-app_assoc. cbn [app]. rewrite split_pair_piece by done.
    by rewrite IH.
Qed.

(** The first piece of [s.split(c)] is the prefix of [s] before the
    first [c]. *)
Lemma split_single_head c cur s :
  head (split_from [c] 0 cur s) = Some (rev cur ++ take_until c s).
Proof.
  revert cur. induction s as [|d s IH]; intros cur; cbn [split_from take_until].
  - by rewrite app_nil_r.
  - cbn [startswith]. rewrite startswith_nil, andb_true_r, (Z.eqb_sym c d).
    destruct (d =? c); cbn; [by rewrite app_nil_r|].
    rewrite IH. cbn [rev]. by rewrite <-app_assoc.
Qed.

(** [s.split()] starts with a leading word that a whitespace ends. *)
Lemma split_ws_word_from cur d c rest :
  cur ++ d <> [] -> forallb (fun x => negb (is_space x)) d = true -> is_space c = true ->
  split_ws_from cur (d ++ c :: rest) = (rev cur ++ d) :: split_ws_from [] rest.
Proof.
  revert cur. induction d as [|x d IH]; intros cur Hne Hd Hc; cbn [app split_ws_from].
  - rewrite Hc, app_nil_r. rewrite app_nil_r in Hne. by destruct cur.
  - cbn [forallb] in Hd. apply andb_true_iff in Hd as [Hx Hd].
    apply negb_true_iff in Hx. rewrite Hx, IH; [|by destruct cur|done|done].
    cbn [rev]. by rewrite <-app_assoc.
Qed.

Lemma split_ws_word d c rest :
  d <> [] -> forallb (fun x => negb (is_space x)) d = true -> is_space c = true ->
  split_ws (d ++ c :: rest) = d :: split_ws rest.
Proof. intros. unfold split_ws. by rewrite split_ws_word_from. Qed.

(** [s.strip()] of a text with one trailing newline and no other
    whitespace at its ends. *)
Lemma strip_newline s c l :
  head s = Some c -> last s = Some l -> is_space c = false -> is_space l = false ->
  strip (s ++ [10]) = s.
Proof.
  intros Hc Hl Hsc Hsl. unfold strip.
  destruct s as [|c' s']; [done|]. injection Hc as ->.
  change ((c :: s') ++ [10]) with (c :: (s' ++ [10])). cbn [lstrip]. rewrite Hsc.
  change (c :: (s' ++ [10])) with ((c :: s') ++ [10]). rewrite rev_app_distr.
  change (rev [10] ++ rev (c :: s')) with (10 :: rev (c :: s')). cbn [lstrip].
  assert (H10 : is_space 10 = true) by reflexivity. rewrite H10.
  rewrite <-head_rev_last in Hl. destruct (rev (c :: s')) as [|l' r] eqn:E; [done|].
  injection Hl as ->. cbn [lstrip]. rewrite Hsl, <-E. apply rev_involutive.
Qed.

(** ** Absolute paths *)

Lemma startswith_app_r s t p : startswith s p = true -> startswith (s ++ t) p = true.
Proof.
  intros (r & ->)%startswith_spec. apply startswith_spec. exists (r ++ t).
  by rewrite app_assoc.
Qed.

Lemma path_join_abs a b :
  startswith a [slash] = true -> startswith (path_join a b) [slash] = true.
Proof.
  intros Ha. unfold path_join. destruct (startswith b [slash]) eqn:Eb; [done|].
  destruct a as [|z a]; [discriminate|].
  destruct (endswith _ _); by apply startswith_app_r.
Qed.

Lemma path_join_all_abs a bs :
  startswith a [slash] = true -> startswith (path_join_all a bs) [slash] = true.
Proof.
  unfold path_join_all. revert a. induction bs as [|b bs IH]; intros a Ha; [done|].
  cbn. by apply IH, path_join_abs.
Qed.

Lemma normpath_abs p : startswith p [slash] = true -> startswith (normpath p) [slash] = true.
Proof.
  intros Hp. destruct p as [|c p']; [discriminate|]. unfold normpath. cbv zeta.
  rewrite Hp. destruct (_ && _); cbn [repeat app]; apply (startswith_app [slash]).
Qed.

(** [os.path.abspath] gives an absolute path when the working directory is
    absolute. *)
Lemma abspath_abs cwd p :
  startswith cwd [slash] = true -> startswith (abspath cwd p) [slash] = true.
Proof.
  intros Hc. unfold abspath. destruct (startswith p [slash]) eqn:E; apply normpath_abs;
    [done|by apply path_join_abs].
Qed.
