(* ===== verification/XCFramework.v ===== *)
(** * [XCFramework], [XCFramework.Library] and [SDKModule] (lines 189-284)

    The bundle locator and the dependency resolver of the spec.
    - [Library] wraps one entry of the bundle's [AvailableLibraries]; its
      accessors are dict lookups that raise [KeyError].
    - [XCFramework.init] makes the path absolute, rejects a non-directory
      whose name ends in [.xcframework], takes the name before the first
      dot, and reads [Info.plist] as text, re-encodes it and parses it.
    - [XCFramework.iOSDeviceModule] selects the first library that is iOS
      and has no platform variant, and builds its [SDKModule].
    - [SDKModule.init] joins the library's directory and reads the
      module's own [Info.plist] as bytes.
    - [SDKModule.list_all_dependencies] runs [xcrun otool -L] on the
      executable and keeps the first word of every line after the first;
      [list_dependencies] drops the system libraries.
    - The three [__repr__] methods, as [repr] in each Module.
    [plistlib] is the [PlistLib] interface, [repr()] of a plist value is
    the [PyRepr] interface, and [otool] is reached through [Toolchain]. *)

From S2P Require Import Prelude PyStr PyRuntime PyPath.

Open Scope Z_scope.
Open Scope py_scope.

(** ** Python operations on property-list values *)

(** The value bound to [k] in a dict's entries. *)
Fixpoint assoc (k : pystr) (kv : list (pystr * pval)) : option pval :=
  match kv with
  | [] => None
  | (k', v) :: kv' => if bool_decide (k' = k) then Some v else assoc k kv'
  end.

(** [v[k]] for a string key [k]. Indexing a list or a string with a
    string raises [TypeError]. *)
Definition getitem (v : pval) (k : pystr) : PyM pval :=
  match v with
  | PDict kv => match assoc k kv with Some x => ret x | None => raise (KeyError k) end
  | _ => raise TypeError
  end.

(** [v[0]]. A dict's keys are strings, so the integer key is missing. *)
Definition getitem0 (v : pval) : PyM pval :=
  match v with
  | PArr (x :: _) => ret x
  | PStr (c :: _) => ret (PStr [c])
  | PArr [] | PStr [] => raise IndexError
  | PDict _ => raise (KeyError (py "0"))
  end.

(** [k in s] for strings: [k] occurs in [s]. *)
Fixpoint str_contains (s k : pystr) : bool :=
  startswith s k || match s with [] => false | _ :: s' => str_contains s' k end.

(** [v == k] for a string [k]. *)
Definition eq_str (v : pval) (k : pystr) : bool :=
  match v with PStr s => bool_decide (s = k) | _ => false end.

(** [k in v] for a string [k]: a key of a dict, an element of a list, a
    substring of a string. *)
Definition contains (v : pval) (k : pystr) : bool :=
  match v with
  | PDict kv => existsb (fun kv1 => bool_decide (kv1.1 = k)) kv
  | PArr l => existsb (fun x => eq_str x k) l
  | PStr s => str_contains s k
  end.

(** [for x in v]: the elements of a list, the keys of a dict, the
    characters of a string. *)
Definition iter (v : pval) : list pval :=
  match v with
  | PArr l => l
  | PDict kv => map (fun kv1 => PStr kv1.1) kv
  | PStr s => map (fun c => PStr [c]) s
  end.

(** [os.path.join(root, *vs)]: every part must be a string. *)
Definition join_values (root : pystr) (vs : list pval) : PyM pystr :=
  match mapM (fun v => match v with PStr s => Some s | _ => None end) vs with
  | Some ss => ret (path_join_all root ss)
  | None => raise TypeError
  end.

Lemma ro_getitem v k : reads_only (getitem v k).
Proof. unfold getitem. ro_solve. Qed.

Lemma ro_getitem0 v : reads_only (getitem0 v).
Proof. unfold getitem0. ro_solve. Qed.

Lemma ro_join_values root vs : reads_only (join_values root vs).
Proof. unfold join_values. ro_solve. Qed.

#[export] Hint Resolve ro_getitem ro_getitem0 ro_join_values : readonly.

(** ** [XCFramework.Library] (lines 229-262) *)

Module Library.

Record t := mk { library : pval; root_path : pystr }.

Definition path (l : t) : PyM pval := getitem (library l) (py "LibraryPath").
Definition libraryIdentifier (l : t) : PyM pval := getitem (library l) (py "LibraryIdentifier").
Definition supported_platform (l : t) : PyM pval := getitem (library l) (py "SupportedPlatform").
Definition supported_platform_variant (l : t) : PyM pval :=
  getitem (library l) (py "SupportedPlatformVariant").
Definition supported_architectures (l : t) : PyM pval :=
  getitem (library l) (py "SupportedArchitectures").

Definition is_simulator (l : t) : PyM bool :=
  v <- supported_platform_variant l ;; ret (eq_str v (py "simulator")).

Definition is_device (l : t) : bool := negb (contains (library l) (py "SupportedPlatformVariant")).

Definition is_ios (l : t) : PyM bool := v <- supported_platform l ;; ret (eq_str v (py "ios")).

Definition is_macos (l : t) : PyM bool := v <- supported_platform l ;; ret (eq_str v (py "macos")).

(** [__repr__]: [f"XCFramework.Library({self.library})"] formats the dict
    with [str()]. *)
Definition repr `{PyRepr} (l : t) : pystr := py "XCFramework.Library(" ++ py_str (library l) ++ py ")".

End Library.

(** ** [SDKModule] (lines 189-226) *)

Module SDKModule.

Record t := mk { library : Library.t; path : pystr; plist : pval }.

Definition info_plist (p : pystr) : pystr := path_join p (py "Info.plist").

(** [__repr__]: in [f"SDKModule({self.path, self.plist})"] the expression
    between the braces is the tuple [(self.path, self.plist)], whose [str()]
    is the [repr] of each item between parentheses. *)
Definition repr `{PyRepr} (m : t) : pystr :=
  py "SDKModule(" ++ (py "(" ++ py_repr (PStr (path m)) ++ py ", " ++ py_repr (plist m) ++ py ")") ++
  py ")".

Section Ops.
Context `{Toolchain} `{PlistLib} `{PyRepr}.

(** [__parse_info_plist]: [plistlib.load] of the bytes of [Info.plist]. *)
Definition parse_info_plist (p : pystr) : PyM pval :=
  bs <- read_bytes (info_plist p) ;;
  match plist_loads bs with
  | Some v => ret v
  | None => raise (InvalidFileException (info_plist p))
  end.

Definition init (root : pystr) (library : Library.t) : PyM t :=
  ident <- Library.libraryIdentifier library ;;
  lp <- Library.path library ;;
  p <- join_values root [ident; lp] ;;
  pl <- parse_info_plist p ;;
  ret (mk library p pl).

Definition minimum_os_version (m : t) : PyM pval := getitem (plist m) (py "MinimumOSVersion").

(** [f"{archs[0]}-apple-{platform}{minimum_os_version}"]. *)
Definition triplet_target (m : t) : PyM pystr :=
  archs <- Library.supported_architectures (library m) ;;
  arch <- getitem0 archs ;;
  platform <- Library.supported_platform (library m) ;;
  version <- minimum_os_version m ;;
  ret (py_str arch ++ py "-apple-" ++ py_str platform ++ py_str version).

Definition executable_path (m : t) : PyM pval := getitem (plist m) (py "CFBundleExecutable").

Definition executable (m : t) : PyM pystr :=
  e <- executable_path m ;; join_values (path m) [e].

Definition otool_command (exe : pystr) : list pystr := [py "xcrun"; py "otool"; py "-L"; exe].

(** [x.split()[0]]. *)
Definition first_word (x : pystr) : PyM pystr :=
  match split_ws x with
  | w :: _ => ret w
  | [] => raise IndexError
  end.

(** The lines of [otool -L]'s output after the first, each cut at its
    first whitespace. The return code is not looked at. *)
Definition list_all_dependencies (m : t) : PyM (list pystr) :=
  exe <- executable m ;;
  proc <- subprocess_run (otool_command exe) true ;;
  map_m first_word (drop 1 (split_sep (strip (proc_stdout proc)) [10; 9])).

End Ops.

Definition filter_system_dependencies (dependency : pystr) : bool :=
  negb (startswith dependency (py "/usr/lib"))
  && negb (startswith dependency (py "/System"))
  && negb (endswith dependency (py ".dylib"))
  && negb (endswith dependency (py "MapboxMaps.framework/MapboxMaps")).

Section Deps.
Context `{Toolchain} `{PlistLib} `{PyRepr}.

Definition list_dependencies (m : t) : PyM (list pystr) :=
  deps <- list_all_dependencies m ;; ret (List.filter filter_system_dependencies deps).

End Deps.

(** ** The output of [otool -L] *)

(** One line of [otool -L] after its tab: the install name, then the
    versions in parentheses. *)
Definition otool_entry (dep info : pystr) : pystr := dep ++ py " (" ++ info ++ py ")".

(** What [otool -L exe] prints: a header naming the file, then one
    tab-indented line per linked library. *)
Definition otool_body (exe : pystr) (deps : list (pystr * pystr)) : pystr :=
  exe ++ py ":" ++ concat (map (fun d => [10; 9] ++ otool_entry d.1 d.2) deps).

Definition otool_output (exe : pystr) (deps : list (pystr * pystr)) : pystr :=
  otool_body exe deps ++ [10].

(** The header starts with a non-space and holds no newline followed by a
    tab. *)
Definition header_ok (exe : pystr) : bool :=
  match exe with c :: _ => negb (is_space c) | [] => true end
  && negb (occurs2 10 9 (exe ++ py ":")).

(** An install name is a non-empty word and its line holds no newline
    followed by a tab. *)
Definition entry_ok (d : pystr * pystr) : bool :=
  bool_decide (d.1 <> []) && forallb (fun x => negb (is_space x)) d.1
  && negb (occurs2 10 9 (otool_entry d.1 d.2)).

Lemma otool_body_last exe deps :
  last (otool_body exe deps) = Some 58 \/ last (otool_body exe deps) = Some 41.
Proof.
  unfold otool_body. destruct deps as [|d deps] using rev_ind.
  - left. cbn [map concat]. rewrite app_nil_r. apply last_snoc.
  - right. rewrite map_app, concat_app. cbn [map concat]. unfold otool_entry.
    rewrite app_nil_r, !app_assoc. apply last_snoc.
Qed.


Lemma strip_otool_output exe deps :
  header_ok exe = true -> strip (otool_output exe deps) = otool_body exe deps.
Proof.
  intros Hh. unfold header_ok in Hh. apply andb_true_iff in Hh as [Hh _].
  assert (Hc : exists c, head (otool_body exe deps) = Some c /\ is_space c = false).
  { destruct exe as [|c exe]; [by exists 58|]. exists c. split; [done|].
    by apply negb_true_iff in Hh. }
  destruct Hc as (c & Hc & Hsc).
  destruct (otool_body_last exe deps) as [Hl|Hl]; by eapply strip_newline.
Qed.

Lemma split_otool_body exe deps :
  header_ok exe = true -> forallb entry_ok deps = true ->
  split_sep (otool_body exe deps) [10; 9] =
    (exe ++ py ":") :: map (fun d => otool_entry d.1 d.2) deps.
Proof.
  intros Hh Hd. unfold otool_body. rewrite app_assoc.
  rewrite <-(map_map (fun d => otool_entry d.1 d.2) (fun x => [10; 9] ++ x)).
  apply split_sep_pieces; [lia|]. constructor.
  - unfold header_ok in Hh. apply andb_true_iff in Hh as [_ Hh]. by apply negb_true_iff.
  - apply Forall_forall. intros x ([a b] & -> & Hin)%list_elem_of_fmap.
    apply forallb_Forall in Hd. rewrite Forall_forall in Hd. apply Hd in Hin.
    apply andb_true_iff in Hin as [_ Hin]. by apply negb_true_iff.
Qed.

Lemma first_word_entry d w :
  entry_ok d = true -> first_word (otool_entry d.1 d.2) w = (inr d.1, w).
Proof.
  intros Hd. unfold entry_ok in Hd. apply andb_true_iff in Hd as [Hd _].
  apply andb_true_iff in Hd as [Hne Hw]. apply bool_decide_eq_true in Hne.
  unfold first_word, otool_entry. change (py " (") with [32; 40]. cbn [app].
  rewrite (split_ws_word _ 32); done.
Qed.

Lemma first_words_entries deps w :
  forallb entry_ok deps = true ->
  map_m first_word (map (fun d => otool_entry d.1 d.2) deps) w = (inr (map fst deps), w).
Proof.
  intros Hd. apply forallb_Forall in Hd. rewrite Forall_forall in Hd.
  rewrite (map_m_pure _ (fun x => default [] (head (split_ws x)))).
  - rewrite map_map. do 2 f_equal. apply map_ext_in. intros d Hin.
    apply list_elem_of_In in Hin.
    pose proof (first_word_entry d w (Hd d Hin)) as E. unfold first_word in E.
    destruct (split_ws _); cbv [ret raise] in E; [discriminate|]. by injection E as ->.
  - intros x ([a b] & -> & Hin)%list_elem_of_fmap.
    pose proof (first_word_entry _ w (Hd _ Hin)) as E. rewrite E.
    unfold first_word in E.
    destruct (split_ws _); cbv [ret raise] in E; [discriminate|]. by injection E as ->.
Qed.

(** Building a module and reading its metadata only read files. *)
Section ReadOnly.
Context `{PlistLib} `{PyRepr}.

Lemma ro_module_init root l : reads_only (init root l).
Proof.
  unfold init, parse_info_plist, Library.libraryIdentifier, Library.path. ro_solve.
Qed.

Lemma ro_triplet_target m : reads_only (triplet_target m).
Proof.
  unfold triplet_target, minimum_os_version, Library.supported_architectures,
    Library.supported_platform. ro_solve.
Qed.

Lemma ro_executable m : reads_only (executable m).
Proof. unfold executable, executable_path. ro_solve. Qed.

End ReadOnly.

#[export] Hint Resolve ro_module_init ro_triplet_target ro_executable : readonly.

Section OtoolTheorems.
Context `{Toolchain}.

Lemma list_all_dependencies_run m w exe rc out err fs :
  executable m w = (inr exe, w) ->
  run_tool (otool_command exe) (add_spawned (otool_command exe) w) = (Completed rc out err, fs) ->
  list_all_dependencies m w =
    map_m first_word (drop 1 (split_sep (strip out) [10; 9]))
      (set_fs fs (add_spawned (otool_command exe) w)).
Proof. intros He Hr. cbv [list_all_dependencies bind subprocess_run]. by rewrite He, Hr. Qed.

(** C19. Dependency resolution (spec 4.2). Suppose [otool -L] prints its
    header, then one tab-indented line per linked library. Then
    [list_dependencies] returns the install names of these lines in the
    order printed, duplicates kept, minus the system ones: names starting
    with [/usr/lib] or [/System], names ending in [.dylib], and the
    MapboxMaps binary itself. It runs [xcrun otool -L] on the module's
    executable and nothing else. *)
Theorem list_dependencies_otool m w exe deps rc err fs :
  executable m w = (inr exe, w) ->
  run_tool (otool_command exe) (add_spawned (otool_command exe) w)
    = (Completed rc (otool_output exe deps) err, fs) ->
  header_ok exe = true -> forallb entry_ok deps = true ->
  list_dependencies m w =
    (inr (List.filter filter_system_dependencies (map fst deps)),
     set_fs fs (add_spawned (otool_command exe) w)).
Proof.
  intros He Hr Hh Hd. unfold list_dependencies, bind at 1.
  rewrite (list_all_dependencies_run _ _ _ _ _ _ _ He Hr), strip_otool_output,
    split_otool_body by done.
  unfold skipn. by rewrite first_words_entries.
Qed.

(** C20. A failing [otool] is not noticed. Whatever [otool]'s exit
    status, if its output has no line break followed by a tab (for
    instance it printed nothing because the executable is missing),
    [list_dependencies] returns no dependency and raises nothing. The spec
    says a failure of the inspection call is fatal. *)
Theorem otool_failure_ignored m w exe rc out err fs :
  executable m w = (inr exe, w) ->
  run_tool (otool_command exe) (add_spawned (otool_command exe) w) = (Completed rc out err, fs) ->
  occurs2 10 9 (strip out) = false ->
  list_dependencies m w = (inr [], set_fs fs (add_spawned (otool_command exe) w)).
Proof.
  intros He Hr Hs. unfold list_dependencies, bind at 1.
  rewrite (list_all_dependencies_run _ _ _ _ _ _ _ He Hr).
  unfold split_sep. by rewrite split_pair_last.
Qed.

Lemma ro_first_word x : reads_only (first_word x).
Proof. unfold first_word. ro_solve. Qed.

(** When [otool] leaves the files alone, resolving the dependencies
    changes nothing a read can see. *)
Lemma list_dependencies_view m w r w1 :
  (forall exe w', (run_tool (otool_command exe) w').2 = w_fs w') ->
  list_dependencies m w = (r, w1) -> same_view w w1.
Proof.
  intros Hot. unfold list_dependencies, list_all_dependencies, bind.
  destruct (ro_executable m w) as [He _].
  destruct (executable m w) as [[e|exe] w0] eqn:E; cbn in He; subst w0; [by intros [= _ <-]|].
  unfold subprocess_run. pose proof (Hot exe (add_spawned (otool_command exe) w)) as Hfs.
  destruct (run_tool _ _) as [[rc out err|e] fs]; cbn in Hfs; subst fs; [|by intros [= _ <-]].
  cbn. pose proof (ro_map_m first_word (drop 1 (split_sep (strip out) [10; 9])) ro_first_word)
    as Hro.
  destruct (Hro (set_fs (w_fs w) (add_spawned (otool_command exe) w))) as [Hw _].
  destruct (map_m _ _ _) as [[e|ds] w2]; cbn in Hw; subst w2; intros [= _ <-]; done.
Qed.

End OtoolTheorems.

(** C21. The target triple (line 204). When the library's first
    architecture, its platform and the module's minimum OS version are
    strings, [triplet_target] is [<arch>-apple-<platform><version>], for
    instance [arm64-apple-ios11.0]. *)
Theorem triplet_target_spec `{PyRepr} m kv pkv archs arch platform version w :
  Library.library (library m) = PDict kv -> plist m = PDict pkv ->
  assoc (py "SupportedArchitectures") kv = Some (PArr (PStr arch :: archs)) ->
  assoc (py "SupportedPlatform") kv = Some (PStr platform) ->
  assoc (py "MinimumOSVersion") pkv = Some (PStr version) ->
  triplet_target m w = (inr (arch ++ py "-apple-" ++ platform ++ version), w).
Proof.
  intros Hl Hp Ha Hpl Hv.
  cbv [triplet_target Library.supported_architectures Library.supported_platform
    minimum_os_version getitem bind].
  by rewrite Hl, Ha, Hpl, Hp, Hv.
Qed.

End SDKModule.

(** ** [XCFramework] (lines 228-284) *)

Module XCFramework.

Record t := mk { path : pystr; name : pystr; libraries : list Library.t }.

Definition not_valid (p : pystr) : exc := Exception (p ++ py " is not a valid XCFramework").

(** [__repr__]: [f"XCFramework({self.path})"]. *)
Definition repr (x : t) : pystr := py "XCFramework(" ++ path x ++ py ")".

(** [os.path.basename(p).split(".")[0]]. *)
Definition name_of (p : pystr) : pystr :=
  match split_sep (basename p) (py ".") with
  | x :: _ => x
  | [] => []
  end.

Section Ops.
Context `{Toolchain} `{PlistLib} `{PyRepr}.

(** [__parse_libraries]: [Info.plist] read as text, encoded back to UTF-8
    and parsed; one [Library] per element of [AvailableLibraries]. *)
Definition parse_libraries (p : pystr) : PyM (list Library.t) :=
  txt <- read_text (SDKModule.info_plist p) ;;
  match plist_loads (utf8_encode txt) with
  | None => raise (InvalidFileException (SDKModule.info_plist p))
  | Some plist =>
    libs <- getitem plist (py "AvailableLibraries") ;;
    ret (map (fun x => Library.mk x p) (iter libs))
  end.

Definition init (p : pystr) : PyM t :=
  cwd <- getcwd ;;
  let ap := abspath cwd p in
  is_dir <- path_isdir ap ;;
  if negb is_dir && endswith ap (py ".xcframework") then raise (not_valid ap)
  else
    libs <- parse_libraries ap ;;
    ret (mk ap (name_of ap) libs).

(** [x.is_ios() and x.is_device()]. *)
Definition is_ios_device (l : Library.t) : PyM bool :=
  ios <- Library.is_ios l ;; ret (ios && Library.is_device l).

Definition iOSDeviceModule (x : t) : PyM SDKModule.t :=
  devices <- filter_m is_ios_device (libraries x) ;;
  match devices with
  | [] => raise IndexError
  | d :: _ => SDKModule.init (path x) d
  end.

End Ops.

Section ReadOnly.
Context `{PlistLib}.

Lemma ro_framework_init p : reads_only (init p).
Proof. unfold init, parse_libraries. ro_solve. Qed.

Lemma ro_iOSDeviceModule x : reads_only (iOSDeviceModule x).
Proof. unfold iOSDeviceModule, is_ios_device, Library.is_ios, Library.supported_platform. ro_solve. Qed.

End ReadOnly.

#[export] Hint Resolve ro_framework_init ro_iOSDeviceModule : readonly.

(** ** Theorems *)

Lemma name_of_spec p : name_of p = take_until 46 (basename p).
Proof.
  unfold name_of, split_sep. pose proof (split_single_head 46 [] (basename p)) as E.
  destruct (split_from _ _ _ _) as [|x xs]; cbn in E; [discriminate|]. by injection E as ->.
Qed.

(** The outcome of [x.is_ios() and x.is_device()] when it raises nothing,
    and [None] when it raises: [SupportedPlatform] is missing or the
    library is not a dict. *)
Definition selectable (l : Library.t) : option bool :=
  match Library.library l with
  | PDict kv =>
    (fun v => eq_str v (py "ios") && Library.is_device l) <$> assoc (py "SupportedPlatform") kv
  | _ => None
  end.

Lemma is_ios_device_pure l b w : selectable l = Some b -> is_ios_device l w = (inr b, w).
Proof.
  unfold selectable, is_ios_device, Library.is_ios, Library.supported_platform, getitem, bind.
  destruct (Library.library l) as [| |kv]; try done.
  destruct (assoc _ kv); [|done]. by intros [= <-].
Qed.

Lemma filter_selectable ls w :
  Forall (fun l => is_Some (selectable l)) ls ->
  filter_m is_ios_device ls w = (inr (List.filter (fun l => default false (selectable l)) ls), w).
Proof.
  rewrite Forall_forall. intros Hs. apply filter_m_pure. intros l Hl.
  destruct (Hs l Hl) as [b Hb]. rewrite Hb. by apply is_ios_device_pure.
Qed.

Lemma filter_not_selected ls :
  Forall (fun l => selectable l = Some false) ls ->
  List.filter (fun l => default false (selectable l)) ls = [].
Proof. induction 1 as [|l ls Hl _ IH]; [done|]. cbn. by rewrite Hl. Qed.

Lemma selected_is_Some ls :
  Forall (fun l => selectable l = Some false) ls -> Forall (fun l => is_Some (selectable l)) ls.
Proof. intros H. eapply Forall_impl; [exact H|]. intros l ->. eauto. Qed.

Section DeviceTheorems.
Context `{PlistLib}.

(** C22. Variant selection (spec 4.1 and 8). If the first library that
    is iOS and has no [SupportedPlatformVariant] is [d], and every library
    has a platform, [iOSDeviceModule] builds the module of [d]. Libraries
    after [d] do not matter, so when several device libraries exist the
    first one wins. *)
Theorem iOSDeviceModule_first x pre d post w :
  libraries x = pre ++ d :: post ->
  Forall (fun l => selectable l = Some false) pre -> selectable d = Some true ->
  Forall (fun l => is_Some (selectable l)) post ->
  iOSDeviceModule x w = SDKModule.init (path x) d w.
Proof.
  intros Hx Hpre Hd Hpost. unfold iOSDeviceModule, bind at 1.
  rewrite filter_selectable.
  - rewrite Hx, List.filter_app, filter_not_selected by done. cbn. by rewrite Hd.
  - rewrite Hx. apply Forall_app. split; [by apply selected_is_Some|]. constructor; [|done].
    by rewrite Hd.
Qed.

(** C23. No device library (spec 4.1 and 8). If every library has a
    platform and none is an iOS device library (for instance they are all
    simulator libraries), [iOSDeviceModule] raises [IndexError]: the
    [[0]] of an empty list. *)
Theorem iOSDeviceModule_none x w :
  Forall (fun l => selectable l = Some false) (libraries x) ->
  iOSDeviceModule x w = (inl IndexError, w).
Proof.
  intros Hl. unfold iOSDeviceModule, bind at 1.
  by rewrite filter_selectable, filter_not_selected by (done || by apply selected_is_Some).
Qed.

(** C24. A library without a platform stops the selection. [filter] is
    forced over the whole list, so a library dict that lacks
    [SupportedPlatform] makes [iOSDeviceModule] raise [KeyError], even
    when an iOS device library comes before it. *)
Theorem iOSDeviceModule_missing_platform x pre l post kv w :
  libraries x = pre ++ l :: post ->
  Forall (fun l => is_Some (selectable l)) pre ->
  Library.library l = PDict kv -> assoc (py "SupportedPlatform") kv = None ->
  iOSDeviceModule x w = (inl (KeyError (py "SupportedPlatform")), w).
Proof.
  intros Hx Hpre Hl Hk. unfold iOSDeviceModule, bind at 1. rewrite Hx.
  rewrite (filter_m_raise _ (fun l => default false (selectable l)) _ _ _ (KeyError (py "SupportedPlatform"))); [done| |].
  - rewrite Forall_forall in Hpre. intros y Hy w'. destruct (Hpre y Hy) as [b Hb].
    rewrite Hb. by apply is_ios_device_pure.
  - intros w'. unfold is_ios_device, Library.is_ios, Library.supported_platform, getitem, bind.
    by rewrite Hl, Hk.
Qed.

Lemma init_dir p w :
  isdir w (abspath (w_cwd w) p) = true ->
  init p w = (libs <- parse_libraries (abspath (w_cwd w) p) ;;
              ret (mk (abspath (w_cwd w) p) (name_of (abspath (w_cwd w) p)) libs)) w.
Proof. intros Hd. unfold init, bind at 1 2. cbn [getcwd path_isdir]. by rewrite Hd. Qed.

(** C25. Loading a bundle. When the absolute path of [p] is a directory
    whose [Info.plist] is UTF-8 text that [plistlib] parses to a dict with
    a list [AvailableLibraries], [XCFramework(p)] has that absolute path,
    the name of its last component up to the first dot, and one library
    per element of the list, in order. *)
Theorem init_spec p w bs t kv ls :
  let ap := abspath (w_cwd w) p in
  isdir w ap = true ->
  w_fs w !! resolve w (SDKModule.info_plist ap) = Some bs -> PyStr.read_text bs = Some t ->
  plist_loads (utf8_encode t) = Some (PDict kv) ->
  assoc (py "AvailableLibraries") kv = Some (PArr ls) ->
  init p w = (inr (mk ap (take_until 46 (basename ap)) (map (fun x => Library.mk x ap) ls)), w).
Proof.
  intros ap Hd Hf Ht Hp Ha. subst ap. rewrite init_dir by done.
  cbv [parse_libraries bind]. rewrite (read_text_run _ _ _ _ Hf Ht).
  unfold bind, getitem. by rewrite Hp, Ha, name_of_spec.
Qed.

(** C26. What the guard of line 267 rejects. For a path that is not a
    directory and has no [Info.plist] below it, [XCFramework(p)] raises
    "is not a valid XCFramework" only when the path ends in
    [.xcframework]. Any other such path passes the guard, and the read of
    [Info.plist] then raises [FileNotFoundError]. *)
Theorem init_not_directory p w :
  let ap := abspath (w_cwd w) p in
  isdir w ap = false -> w_fs w !! resolve w (SDKModule.info_plist ap) = None ->
  init p w = (inl (if endswith ap (py ".xcframework") then not_valid ap
                   else FileNotFoundError (SDKModule.info_plist ap)), w).
Proof.
  intros ap Hd Hf. unfold init, bind at 1 2. cbn [getcwd path_isdir]. fold ap. rewrite Hd.
  destruct (endswith ap _); [done|]. cbn [negb andb].
  unfold parse_libraries, read_text, read_bytes, bind. by rewrite Hf.
Qed.

Lemma module_init_path root l w m w' :
  startswith root [slash] = true -> SDKModule.init root l w = (inr m, w') ->
  startswith (SDKModule.path m) [slash] = true.
Proof.
  intros Hr. unfold SDKModule.init, bind.
  destruct (Library.libraryIdentifier l w) as [[e|i] w1]; [discriminate|].
  destruct (Library.path l w1) as [[e|lp] w2]; [discriminate|].
  unfold join_values. destruct (mapM _ _) as [ss|]; [|discriminate]. cbn [ret].
  destruct (SDKModule.parse_info_plist _ _) as [[e|pl] w3]; [discriminate|].
  intros [= <- _]. cbn. by apply path_join_all_abs.
Qed.

(** C32. Bundle and module paths are absolute. When the working
    directory is absolute, every [XCFramework] that [__init__] returns has
    an absolute path. So does every [SDKModule] its [iOSDeviceModule]
    returns, and with it the [-iframework] directories of the dump. *)
Theorem paths_absolute p w x w' :
  startswith (w_cwd w) [slash] = true -> init p w = (inr x, w') ->
  startswith (path x) [slash] = true /\
  forall m w'', iOSDeviceModule x w' = (inr m, w'') -> startswith (SDKModule.path m) [slash] = true.
Proof.
  intros Hc. unfold init, bind at 1 2. cbn [getcwd path_isdir].
  destruct (negb _ && _); [discriminate|]. unfold bind.
  destruct (parse_libraries _ _) as [[e|libs] w1]; [discriminate|]. intros [= <- _].
  assert (Hx : startswith (abspath (w_cwd w) p) [slash] = true) by by apply abspath_abs.
  split; [done|]. intros m w''. unfold iOSDeviceModule, bind.
  destruct (filter_m _ _ _) as [[e|[|d ds]] w2]; [discriminate..|].
  by apply module_init_path.
Qed.

(** C33. Loading a bundle only reads. [XCFramework(p)],
    [iOSDeviceModule()] and [SDKModule.triplet_target()] leave the world
    unchanged, and their outcome, error or value, is the same in every
    world with the same files, directories and working directory: nothing
    they do is logged, printed or written. *)
Theorem bundle_loading_reads_only `{PyRepr} p x m :
  reads_only (init p) /\ reads_only (iOSDeviceModule x) /\
  reads_only (SDKModule.triplet_target m).
Proof.
  split; [apply ro_framework_init|].
  split; [apply ro_iOSDeviceModule|apply SDKModule.ro_triplet_target].
Qed.

End DeviceTheorems.

(** C31. The bundle name round trip. A bundle at [dir/n.rest] is named
    [n] when [n] has no dot and [rest] no slash. So [MapboxMaps.xcframework]
    is named [MapboxMaps]. [Foo.Bar.xcframework] is named [Foo], the same
    name as [Foo.xcframework]. *)
Theorem name_roundtrip dir n rest :
  Forall (fun c => c <> 46 /\ c <> 47) n -> Forall (fun c => c <> 47) rest ->
  name_of (dir ++ 47 :: n ++ 46 :: rest) = n.
Proof.
  intros Hn Hr. rewrite name_of_spec, basename_app.
  - apply take_until_app. eapply Forall_impl; [exact Hn|]. naive_solver.
  - apply Forall_app. split; [eapply Forall_impl; [exact Hn|]; naive_solver|].
    constructor; [done|exact Hr].
Qed.


End XCFramework.

(** ** Witnesses *)

Import SDKModule XCFramework.

Definition sdk_root : pystr := py "/sdk/MapboxMaps.xcframework".

Definition device_library : pval :=
  PDict [(py "LibraryIdentifier", PStr (py "ios-arm64"));
         (py "LibraryPath", PStr (py "MapboxMaps.framework"));
         (py "SupportedArchitectures", PArr [PStr (py "arm64")]);
         (py "SupportedPlatform", PStr (py "ios"))].

Definition simulator_library : pval :=
  PDict [(py "LibraryIdentifier", PStr (py "ios-arm64_x86_64-simulator"));
         (py "LibraryPath", PStr (py "MapboxMaps.framework"));
         (py "SupportedArchitectures", PArr [PStr (py "arm64"); PStr (py "x86_64")]);
         (py "SupportedPlatform", PStr (py "ios"));
         (py "SupportedPlatformVariant", PStr (py "simulator"))].

(** A library entry without [SupportedPlatform]. *)
Definition unnamed_library : pval := PDict [(py "LibraryIdentifier", PStr (py "watchos-arm64"))].

Definition bundle (libs : list pval) : XCFramework.t :=
  XCFramework.mk sdk_root (py "MapboxMaps") (map (fun x => Library.mk x sdk_root) libs).

Definition module_plist : pval :=
  PDict [(py "CFBundleExecutable", PStr (py "MapboxMaps"));
         (py "MinimumOSVersion", PStr (py "11.0"))].

Definition framework_plist : pval :=
  PDict [(py "AvailableLibraries", PArr [simulator_library; device_library])].

(** A stand-in for [plistlib]: it knows the two files of the sample
    bundle by their contents. *)
Definition sample_plistlib : PlistLib :=
  {| plist_loads := fun bs =>
       if bool_decide (bs = py "framework") then Some framework_plist
       else if bool_decide (bs = py "module") then Some module_plist else None |}.

Definition sample_repr : PyRepr := {| py_repr := fun _ => py "[...]" |}.

Definition sdk_world : world :=
  mkWorld {[ py "/sdk/MapboxMaps.xcframework/Info.plist" := py "framework" ]}
    {[ sdk_root := [py "Info.plist"; py "ios-arm64"] ]} (py "/sdk") [] [] [].

Definition device_module : SDKModule.t :=
  SDKModule.mk (Library.mk device_library sdk_root)
    (py "/sdk/MapboxMaps.xcframework/ios-arm64/MapboxMaps.framework") module_plist.

(** The dependency list of spec section 8, with the sibling twice. *)
Definition spec_deps : list (pystr * pystr) :=
  [(py "/usr/lib/libX.dylib", py "compatibility version 1.0.0");
   (py "/System/Library/Foo", py "compatibility version 1.0.0");
   (py "/path/to/MapboxMaps.framework/MapboxMaps", py "compatibility version 1.0.0");
   (py "/path/to/Sibling.framework/Sibling", py "compatibility version 1.0.0");
   (py "/path/to/Sibling.framework/Sibling", py "compatibility version 1.0.0")].

(** [otool] printing [deps] for the file it is given. *)
Definition otool_tool (deps : list (pystr * pystr)) : Toolchain :=
  {| run_tool := fun argv w => (Completed 0 (otool_output (default [] (last argv)) deps) [], w_fs w) |}.

(** [otool] failing on a missing file. *)
Definition failing_otool : Toolchain :=
  {| run_tool := fun _ w => (Completed 1 [] (py "error: can't open file"), w_fs w) |}.

Definition module_exe : pystr := py "/sdk/MapboxMaps.xcframework/ios-arm64/MapboxMaps.framework/MapboxMaps".

Lemma list_dependencies_otool_witness :
  @list_dependencies (otool_tool spec_deps) device_module sdk_world =
    (inr [py "/path/to/Sibling.framework/Sibling"; py "/path/to/Sibling.framework/Sibling"],
     set_fs (w_fs sdk_world) (add_spawned (otool_command module_exe) sdk_world)).
Proof.
  rewrite (@list_dependencies_otool (otool_tool spec_deps) _ _ module_exe spec_deps 0 []
             (w_fs sdk_world)).
  - reflexivity.
  - vm_compute. reflexivity.
  - reflexivity.
  - vm_compute. reflexivity.
  - vm_compute. reflexivity.
Defined.

Lemma otool_failure_ignored_witness :
  @list_dependencies failing_otool device_module sdk_world =
    (inr [], set_fs (w_fs sdk_world) (add_spawned (otool_command module_exe) sdk_world)).
Proof.
  apply (@otool_failure_ignored failing_otool _ _ module_exe 1 [] (py "error: can't open file")).
  - vm_compute. reflexivity.
  - reflexivity.
  - vm_compute. reflexivity.
Defined.

Lemma triplet_target_spec_witness :
  @triplet_target sample_repr device_module sdk_world = (inr (py "arm64-apple-ios11.0"), sdk_world).
Proof.
  apply (@triplet_target_spec sample_repr device_module
           [(py "LibraryIdentifier", PStr (py "ios-arm64"));
            (py "LibraryPath", PStr (py "MapboxMaps.framework"));
            (py "SupportedArchitectures", PArr [PStr (py "arm64")]);
            (py "SupportedPlatform", PStr (py "ios"))]
           [(py "CFBundleExecutable", PStr (py "MapboxMaps"));
            (py "MinimumOSVersion", PStr (py "11.0"))] [] (py "arm64") (py "ios") (py "11.0"));
    vm_compute; reflexivity.
Defined.

Lemma iOSDeviceModule_first_witness :
  @iOSDeviceModule sample_plistlib (bundle [simulator_library; device_library]) sdk_world =
    @SDKModule.init sample_plistlib sdk_root (Library.mk device_library sdk_root) sdk_world.
Proof.
  apply (@iOSDeviceModule_first sample_plistlib (bundle [simulator_library; device_library])
           [Library.mk simulator_library sdk_root] _ []);
    [reflexivity|decide_lit|reflexivity|decide_lit].
Defined.

Lemma iOSDeviceModule_none_witness :
  @iOSDeviceModule sample_plistlib (bundle [simulator_library]) sdk_world = (inl IndexError, sdk_world).
Proof. apply iOSDeviceModule_none. decide_lit. Defined.

Lemma iOSDeviceModule_missing_platform_witness :
  @iOSDeviceModule sample_plistlib (bundle [device_library; unnamed_library]) sdk_world =
    (inl (KeyError (py "SupportedPlatform")), sdk_world).
Proof.
  apply (@iOSDeviceModule_missing_platform sample_plistlib _ [Library.mk device_library sdk_root]
           (Library.mk unnamed_library sdk_root) [] [(py "LibraryIdentifier", PStr (py "watchos-arm64"))]);
    [reflexivity|decide_lit|reflexivity|reflexivity].
Defined.

Lemma init_spec_witness :
  @XCFramework.init sample_plistlib (py "MapboxMaps.xcframework") sdk_world =
    (inr (XCFramework.mk sdk_root (py "MapboxMaps")
            [Library.mk simulator_library sdk_root; Library.mk device_library sdk_root]), sdk_world).
Proof.
  rewrite (@init_spec sample_plistlib _ _ (py "framework") (py "framework")
             [(py "AvailableLibraries", PArr [simulator_library; device_library])]
             [simulator_library; device_library]).
  all: vm_compute; reflexivity.
Defined.

Lemma init_not_directory_witness :
  @XCFramework.init sample_plistlib (py "sdk.zip") sdk_world =
    (inl (FileNotFoundError (py "/sdk/sdk.zip/Info.plist")), sdk_world).
Proof.
  rewrite (@init_not_directory sample_plistlib (py "sdk.zip") sdk_world).
  all: vm_compute; reflexivity.
Defined.

Lemma name_roundtrip_witness :
  name_of (py "/sdk" ++ 47 :: py "Foo" ++ 46 :: py "Bar.xcframework") = py "Foo".
Proof. apply name_roundtrip; decide_lit. Defined.

Lemma paths_absolute_witness :
  startswith (path (XCFramework.mk sdk_root (py "MapboxMaps")
      [Library.mk simulator_library sdk_root; Library.mk device_library sdk_root])) [slash] = true /\
  forall m w'', @iOSDeviceModule sample_plistlib (XCFramework.mk sdk_root (py "MapboxMaps")
      [Library.mk simulator_library sdk_root; Library.mk device_library sdk_root]) sdk_world
      = (inr m, w'') -> startswith (SDKModule.path m) [slash] = true.
Proof.
  apply (@paths_absolute sample_plistlib (py "MapboxMaps.xcframework") sdk_world);
    vm_compute; reflexivity.
Defined.
