(* ===== verification/Sha1.v ===== *)
(** * [hashlib.sha1]

    SHA-1 (FIPS 180-4, section 6.1) as the incremental object [hashlib]
    provides. A context holds the five chaining words, the pending bytes of
    an incomplete block, and the number of bytes hashed. [update] appends
    data and compresses every complete 64-byte block. [hexdigest] pads a
    copy and returns 40 lowercase hex digits. Words are [Z] kept in
    [[0, 2^32)], with the wrap-around of addition and rotation written out.

    The main lemma, [update_app], is that updating with [a] then [b] is
    updating with [a ++ b]. With it, the block-wise read loop of
    [BreakageReport.__hashsum] hashes exactly the file's contents. *)

From S2P Require Import Prelude.

Open Scope Z_scope.

Module Sha1.

(** ** 32-bit words *)

Definition mask32 : Z := Z.ones 32.

Definition add32 (x y : Z) : Z := (x + y) mod 2 ^ 32.

Definition rotl32 (x n : Z) : Z :=
  Z.lor (Z.land (Z.shiftl x n) mask32) (Z.shiftr x (32 - n)).

Definition not32 (x : Z) : Z := Z.lxor x mask32.

(** The round function and constant of round [t]. *)
Definition f (t : nat) (b c d : Z) : Z :=
  if (t <? 20)%nat then Z.lor (Z.land b c) (Z.land (not32 b) d)
  else if (t <? 40)%nat then Z.lxor (Z.lxor b c) d
  else if (t <? 60)%nat then Z.lor (Z.lor (Z.land b c) (Z.land b d)) (Z.land c d)
  else Z.lxor (Z.lxor b c) d.

Definition K (t : nat) : Z :=
  if (t <? 20)%nat then 1518500249
  else if (t <? 40)%nat then 1859775393
  else if (t <? 60)%nat then 2400959708
  else 3395469782.

(** ** One block *)

(** Big-endian words of a block. *)
Fixpoint words (bs : list Z) : list Z :=
  match bs with
  | b0 :: b1 :: b2 :: b3 :: r =>
    Z.lor (Z.lor (Z.shiftl b0 24) (Z.shiftl b1 16)) (Z.lor (Z.shiftl b2 8) b3)
      :: words r
  | _ => []
  end.

(** The message schedule from word 16 on. [win] holds the last 16 words,
    oldest first: W(t) = ROTL1(W(t-3) xor W(t-8) xor W(t-14) xor W(t-16)). *)
Fixpoint expand (n : nat) (win : list Z) : list Z :=
  match n with
  | O => []
  | S n' =>
    let wt := rotl32 (Z.lxor (Z.lxor (nth 13 win 0) (nth 8 win 0))
                             (Z.lxor (nth 2 win 0) (nth 0 win 0))) 1 in
    wt :: expand n' (tail win ++ [wt])
  end.

Definition schedule (blk : list Z) : list Z :=
  let m := words blk in m ++ expand 64 m.

Definition hash5 : Type := Z * Z * Z * Z * Z.

Definition round (st : hash5) (t : nat) (wt : Z) : hash5 :=
  let '(a, b, c, d, e) := st in
  let tmp := add32 (add32 (add32 (add32 (rotl32 a 5) (f t b c d)) e) (K t)) wt in
  (tmp, a, rotl32 b 30, c, d).

Fixpoint rounds (t : nat) (ws : list Z) (st : hash5) : hash5 :=
  match ws with
  | [] => st
  | wt :: ws' => rounds (S t) ws' (round st t wt)
  end.

Definition compress (h : hash5) (blk : list Z) : hash5 :=
  let '(h0, h1, h2, h3, h4) := h in
  let '(a, b, c, d, e) := rounds 0 (schedule blk) h in
  (add32 h0 a, add32 h1 b, add32 h2 c, add32 h3 d, add32 h4 e).

(** [n] complete blocks from the front of [bs]. *)
Fixpoint blocks (n : nat) (h : hash5) (bs : list Z) : hash5 :=
  match n with
  | O => h
  | S n' => blocks n' (compress h (take 64 bs)) (drop 64 bs)
  end.

(** ** The hash object *)

Record ctx := mkCtx { c_h : hash5; c_buf : list Z; c_len : nat }.

(** [hashlib.sha1()]. *)
Definition init : ctx :=
  mkCtx (1732584193, 4023233417, 2562383102, 271733878, 3285377520) [] 0.

(** [h.update(data)]. *)
Definition update (c : ctx) (data : list Z) : ctx :=
  let buf := c_buf c ++ data in
  let n := (length buf / 64)%nat in
  mkCtx (blocks n (c_h c) buf) (drop (64 * n) buf) (c_len c + length data).

(** Big-endian bytes of a number. *)
Fixpoint be_bytes (n : nat) (x : Z) : list Z :=
  match n with
  | O => []
  | S n' => be_bytes n' (Z.shiftr x 8) ++ [Z.land x 255]
  end.

(** The padding: [0x80], zeros, and the bit length on 64 bits. *)
Definition padding (buflen : nat) (len : nat) : list Z :=
  [128] ++ repeat 0 ((119 - buflen) mod 64)
        ++ be_bytes 8 ((Z.of_nat len * 8) mod 2 ^ 64).

(** [h.digest()]: the context is not changed. *)
Definition digest (c : ctx) : list Z :=
  let m := c_buf c ++ padding (length (c_buf c)) (c_len c) in
  let '(h0, h1, h2, h3, h4) := blocks (length m / 64) (c_h c) m in
  be_bytes 4 h0 ++ be_bytes 4 h1 ++ be_bytes 4 h2 ++ be_bytes 4 h3 ++ be_bytes 4 h4.

(** A lowercase hex digit, as a code point. *)
Definition hex_digit (n : Z) : Z := if n <? 10 then 48 + n else 87 + n.

Definition hex (bs : list Z) : pystr :=
  flat_map (fun b => [hex_digit (b / 16); hex_digit (b mod 16)]) bs.

(** [h.hexdigest()]. *)
Definition hexdigest (c : ctx) : pystr := hex (digest c).

(** [hashlib.sha1(data).hexdigest()]. *)
Definition sha1_hex (data : list Z) : pystr := hexdigest (update init data).

(** ** Lemmas *)

Lemma blocks_add n1 n2 h bs :
  blocks (n1 + n2) h bs = blocks n2 (blocks n1 h bs) (drop (64 * n1) bs).
Proof.
  revert h bs. induction n1 as [|n1 IH]; intros h bs; simpl.
  - by rewrite drop_0.
  - rewrite IH, drop_drop. do 2 f_equal. lia.
Qed.

(** [blocks n] only reads the first [64 * n] bytes. *)
Lemma blocks_app n h bs r :
  (64 * n <= length bs)%nat -> blocks n h (bs ++ r) = blocks n h bs.
Proof.
  revert h bs. induction n as [|n IH]; intros h bs Hlen; simpl; [done|].
  rewrite take_app_le by lia. rewrite drop_app_le by lia.
  apply IH. rewrite length_drop. lia.
Qed.

Lemma div64_split a b :
  ((a + b) / 64 = a / 64 + (a - 64 * (a / 64) + b) / 64)%nat.
Proof.
  pose proof (Nat.div_mod_eq a 64) as E.
  replace (a + b)%nat with ((a mod 64 + b) + (a / 64) * 64)%nat at 1 by lia.
  rewrite Nat.div_add by lia.
  replace (a - 64 * (a / 64))%nat with (a mod 64)%nat by lia.
  lia.
Qed.

(** Compressing the complete blocks of [buf1], then those of what is left
    followed by [b], is compressing the complete blocks of [buf1 ++ b]. *)
Lemma blocks_resume h buf1 b :
  let n1 := (length buf1 / 64)%nat in
  let n2 := ((length buf1 - 64 * n1 + length b) / 64)%nat in
  blocks n2 (blocks n1 h buf1) (drop (64 * n1) buf1 ++ b)
    = blocks ((length buf1 + length b) / 64) h (buf1 ++ b) /\
  drop (64 * n2) (drop (64 * n1) buf1 ++ b)
    = drop (64 * ((length buf1 + length b) / 64)) (buf1 ++ b).
Proof.
  intros n1 n2.
  assert (Hn1 : (64 * n1 <= length buf1)%nat) by (apply Nat.mul_div_le; lia).
  rewrite div64_split. fold n1 n2.
  rewrite <-(blocks_app n1 h buf1 b) by done.
  rewrite <-drop_app_le by done.
  split; [by rewrite blocks_add|].
  rewrite drop_drop. f_equal. lia.
Qed.

(** Updating with [a] then [b] is updating with [a ++ b]: how the data is
    cut into [update] calls does not matter. *)
Lemma update_app c a b : update (update c a) b = update c (a ++ b).
Proof.
  destruct c as [h buf len]. unfold update; cbn [c_buf c_h c_len].
  destruct (blocks_resume h (buf ++ a) b) as [E1 E2].
  rewrite (length_app (drop _ _) b), length_drop, E1, E2, <-app_assoc, !length_app.
  by rewrite !Nat.add_assoc.
Qed.

Lemma fold_update_from c a chunks :
  fold_left update chunks (update c a) = update c (a ++ concat chunks).
Proof.
  revert a. induction chunks as [|x chunks IH]; intros a; simpl.
  - by rewrite app_nil_r.
  - by rewrite update_app, IH, app_assoc.
Qed.

(** Feeding [hashlib.sha1()] a list of chunks hashes their concatenation. *)
Lemma fold_update_init chunks :
  fold_left update chunks init = update init (concat chunks).
Proof. change init with (update init []) at 1. apply fold_update_from. Qed.

(** ** Shape of the hex digest *)

Lemma length_be_bytes n x : length (be_bytes n x) = n.
Proof.
  revert x. induction n as [|n IH]; intros x; simpl; [done|].
  rewrite length_app, IH. simpl. lia.
Qed.

Lemma be_bytes_range n x : Forall (fun b => 0 <= b < 256) (be_bytes n x).
Proof.
  revert x. induction n as [|n IH]; intros x; simpl; [done|].
  apply Forall_app; split; [done|]. constructor; [|done].
  change 255 with (Z.ones 8). rewrite Z.land_ones by lia.
  apply Z.mod_pos_bound. lia.
Qed.

Lemma length_digest c : length (digest c) = 20%nat.
Proof.
  unfold digest. destruct (blocks _ _ _) as [[[[h0 h1] h2] h3] h4].
  rewrite !length_app, !length_be_bytes. reflexivity.
Qed.

Lemma digest_range c : Forall (fun b => 0 <= b < 256) (digest c).
Proof.
  unfold digest. destruct (blocks _ _ _) as [[[[h0 h1] h2] h3] h4].
  rewrite !Forall_app. repeat split; apply be_bytes_range.
Qed.

(** A lowercase hexadecimal digit: [0-9a-f]. *)
Definition is_hex_lower (c : Z) : Prop := 48 <= c <= 57 \/ 97 <= c <= 102.

Lemma hex_digit_lower n : 0 <= n < 16 -> is_hex_lower (hex_digit n).
Proof.
  intros Hn. unfold hex_digit, is_hex_lower.
  destruct (Z.ltb_spec n 10); lia.
Qed.

Lemma hex_shape bs :
  Forall (fun b => 0 <= b < 256) bs ->
  length (hex bs) = (2 * length bs)%nat /\ Forall is_hex_lower (hex bs).
Proof.
  induction 1 as [|b bs Hb _ [IHl IHf]]; simpl; [done|].
  split; [lia|].
  constructor; [|constructor; [|done]]; apply hex_digit_lower.
  - split; [apply Z.div_pos|apply Z.div_lt_upper_bound]; lia.
  - apply Z.mod_pos_bound. lia.
Qed.

(** Every [hexdigest] is 40 lowercase hexadecimal digits. *)
Lemma hexdigest_shape c :
  length (hexdigest c) = 40%nat /\ Forall is_hex_lower (hexdigest c).
Proof.
  unfold hexdigest. destruct (hex_shape (digest c) (digest_range c)) as [Hl Hf].
  rewrite length_digest in Hl. by split.
Qed.

End Sha1.
