(* ===== verification/Report.v ===== *)
(** * [APIDigester.BreakageReport] (lines 159-187)

    The report object built from the digester's text output:
    - [parseReport] ([__parseReport], lines 167-175) folds [parse_line] over
      the lines of the file. The local [category] has three states:
      unbound before its first assignment, [None], or a string.
    - [breakage] is a Python dict. Its iteration order (insertion order) is
      the order of the PR comment, so it is an association list with
      [dict_get]/[dict_set] that keep it.
    - [hashsum] ([__hashsum], lines 177-183) reads the file in 4096-byte
      blocks into [hashlib.sha1].
    - [is_good] compares the digest with [empty_report_hashsum]
      ([__empty_report_hashsum], lines 185-187).
    - [make] is the constructor [__init__] (lines 160-165).

    The pure core [report_of_bytes] gives the outcome of [make] for given
    file contents ([make_spec]). The theorems are about it.

    The Module [ReportSpec] gives a declarative reference for what the loop
    of [__parseReport] computes on every input, and proves the loop equal
    to it ([parse_reference]). *)

From S2P Require Import Prelude PyStr PyRuntime Sha1.

Open Scope Z_scope.
Open Scope py_scope.

Module BreakageReport.

(** ** Data *)

(** The local variable [category] of [__parseReport]. *)
Inductive category_var :=
| Unbound
| CatNone
| Cat (name : pystr).

(** A dict keyed by strings, in insertion order. *)
Abbreviation dict V := (list (pystr * V)).

Fixpoint dict_get {V} (d : dict V) (k : pystr) : option V :=
  match d with
  | [] => None
  | (k', v) :: d' => if decide (k = k') then Some v else dict_get d' k
  end.

(** [d[k] = v]: an existing key keeps its place, a new key goes last. *)
Fixpoint dict_set {V} (d : dict V) (k : pystr) (v : V) : dict V :=
  match d with
  | [] => [(k, v)]
  | (k', v') :: d' => if decide (k = k') then (k, v) :: d' else (k', v') :: dict_set d' k v
  end.

Record report := mkReport {
  path : pystr;
  breakage : dict (list pystr);
  hashsum : pystr;
  is_good : bool;
}.

(** ** [__parseReport] *)

Definition header_prefix : pystr := py "/* ".

(** The body of the loop, lines 169-175, for one line. *)
Definition parse_line (st : category_var * dict (list pystr)) (line : pystr)
    : exc + (category_var * dict (list pystr)) :=
  let '(category, br) := st in
  if Nat.eqb (length (strip line)) 0 then inr (CatNone, br)
  else if startswith line header_prefix then inr (Cat (py_slice line 3 (-4)), br)
  else match category with
       | Unbound => inl (UnboundLocalError (py "category"))
       | CatNone => inr (category, br)
       | Cat c =>
         if truthy c
         then inr (category, dict_set br c (default [] (dict_get br c) ++ [line]))
         else inr (category, br)
       end.

Fixpoint parse_lines (st : category_var * dict (list pystr)) (lines : list pystr)
    : exc + (category_var * dict (list pystr)) :=
  match lines with
  | [] => inr st
  | line :: lines' =>
    match parse_line st line with
    | inl e => inl e
    | inr st' => parse_lines st' lines'
    end
  end.

(** The dict the loop leaves, starting from an unbound [category] and an
    empty dict. *)
Definition parse (lines : list pystr) : exc + dict (list pystr) :=
  match parse_lines (Unbound, []) lines with
  | inl e => inl e
  | inr (_, br) => inr br
  end.

Definition parseReport (p : pystr) : PyM (dict (list pystr)) :=
  lines <- read_lines p ;;
  match parse lines with
  | inl e => raise e
  | inr br => ret br
  end.

(** ** [__hashsum] *)

(** [iter(lambda: f.read(4096), b"")]: the blocks the loop sees, with one
    unit of fuel per read. [None] means the fuel ran out. *)
Fixpoint read_blocks (fuel : nat) (data : pybytes) : option (list pybytes) :=
  match fuel with
  | O => None
  | S fuel' =>
    match take 4096 data with
    | [] => Some []
    | blk => cons blk <$> read_blocks fuel' (drop 4096 data)
    end
  end.

(** [length data + 1] reads always suffice ([read_blocks_enough]); the
    [None] branch is never taken. *)
Definition hashsum_of (data : pybytes) : pystr :=
  match read_blocks (S (length data)) data with
  | Some blks => Sha1.hexdigest (fold_left Sha1.update blks Sha1.init)
  | None => Sha1.hexdigest Sha1.init
  end.

Definition hashsum_m (p : pystr) : PyM pystr :=
  data <- read_bytes p ;; ret (hashsum_of data).

(** [__empty_report_hashsum]. *)
Definition empty_report_hashsum : pystr :=
  py "afd2a1b542b33273920d65821deddc653063c700".

(** ** [__init__] *)

Definition make (p : pystr) : PyM report :=
  br <- parseReport p ;;
  h <- hashsum_m p ;;
  ret (mkReport p br h (bool_decide (h = empty_report_hashsum))).

(** The outcome of [make p] when the file at [p] holds [bs]. *)
Definition report_of_bytes (p : pystr) (bs : pybytes) : exc + report :=
  match PyStr.read_text bs with
  | None => inl (UnicodeDecodeError p)
  | Some t =>
    match parse (readlines t) with
    | inl e => inl e
    | inr br =>
      let h := hashsum_of bs in
      inr (mkReport p br h (bool_decide (h = empty_report_hashsum)))
    end
  end.

(** ** Lemmas *)

Lemma make_spec p w bs :
  w_fs w !! resolve w p = Some bs -> make p w = (report_of_bytes p bs, w).
Proof.
  intros Hf. unfold make, parseReport, hashsum_m, read_lines, read_text,
    read_bytes, report_of_bytes, bind, ret, raise. rewrite Hf.
  destruct (PyStr.read_text bs) as [t|]; [|done].
  destruct (parse (readlines t)) as [e|br]; [done|]. by rewrite Hf.
Qed.

Lemma make_missing p w :
  w_fs w !! resolve w p = None -> make p w = (inl (FileNotFoundError p), w).
Proof. intros Hf. unfold make, parseReport, read_lines, read_text, read_bytes, bind. by rewrite Hf. Qed.

(** Building a report only reads its file. *)
Lemma ro_make p : reads_only (make p).
Proof. unfold make, parseReport, read_lines, hashsum_m. ro_solve. Qed.

#[export] Hint Resolve ro_make : readonly.

(** ** The dict *)

Definition keys {V} (d : dict V) : list pystr := map fst d.

Lemma dict_get_set_eq {V} (d : dict V) k v : dict_get (dict_set d k v) k = Some v.
Proof.
  induction d as [|[k' v'] d IH]; simpl; [by rewrite decide_True|].
  destruct (decide (k = k')); simpl; [by rewrite decide_True|].
  by rewrite decide_False.
Qed.

Lemma dict_set_set {V} (d : dict V) k v v' :
  dict_set (dict_set d k v) k v' = dict_set d k v'.
Proof.
  induction d as [|[k' w] d IH]; simpl; [by rewrite decide_True|].
  destruct (decide (k = k')); simpl.
  - by rewrite decide_True.
  - rewrite decide_False by done. by rewrite IH.
Qed.

Lemma dict_get_absent {V} (d : dict V) k : k ∉ keys d -> dict_get d k = None.
Proof.
  induction d as [|[k' v] d IH]; simpl; [done|].
  rewrite elem_of_cons. intros Hk. rewrite decide_False by naive_solver. naive_solver.
Qed.

Lemma dict_set_absent {V} (d : dict V) k v : k ∉ keys d -> dict_set d k v = d ++ [(k, v)].
Proof.
  induction d as [|[k' w] d IH]; simpl; [done|].
  rewrite elem_of_cons. intros Hk. rewrite decide_False by naive_solver.
  f_equal. naive_solver.
Qed.

Lemma keys_dict_set {V} (d : dict V) k v : k ∈ keys (dict_set d k v).
Proof.
  induction d as [|[k' w] d IH]; simpl; [set_solver|].
  destruct (decide (k = k')); simpl; set_solver.
Qed.

(** ** Well-formed report text *)

(** The digester's section marker [/* name */]. *)
Definition header_line (name : pystr) : pystr := header_prefix ++ name ++ py " */" ++ [10].

(** A block as the digester prints it: a blank line, the marker, the
    findings. *)
Definition block_lines (b : pystr * list pystr) : list pystr :=
  [10] :: header_line b.1 :: b.2.

Definition report_lines (bs : list (pystr * list pystr)) : list pystr :=
  concat (map block_lines bs).

Definition report_text (bs : list (pystr * list pystr)) : pystr :=
  concat (report_lines bs).

Definition no_newline (s : pystr) : Prop := Forall (fun c => c <> 10 /\ c <> 13) s.

(** A finding line: one line, not blank, not a marker. *)
Definition finding_ok (l : pystr) : Prop :=
  line_ok l /\ strip l <> [] /\ startswith l header_prefix = false /\
  Forall (fun c => scalar c = true) l.

Definition name_ok (n : pystr) : Prop :=
  n <> [] /\ no_newline n /\ Forall (fun c => scalar c = true) n.

Definition block_ok (b : pystr * list pystr) : Prop :=
  name_ok b.1 /\ Forall finding_ok b.2.

(** What [__parseReport] should produce from blocks: the non-empty ones. *)
Definition nonempty_blocks (bs : list (pystr * list pystr)) : dict (list pystr) :=
  filter (fun b => b.2 <> []) bs.

(** ** The loop on well-formed lines *)

Lemma parse_line_blank st : parse_line st [10] = inr (CatNone, st.2).
Proof. by destruct st. Qed.

Lemma strip_nonblank_head c s : is_space c = false -> length (strip (c :: s)) <> 0%nat.
Proof.
  intros Hc Hl. apply nil_length_inv, strip_nil_iff in Hl.
  inversion Hl; congruence.
Qed.

Lemma parse_line_header cat br n :
  parse_line (cat, br) (header_line n) = inr (Cat n, br).
Proof.
  unfold parse_line, header_line.
  rewrite (proj2 (Nat.eqb_neq _ _)) by (apply strip_nonblank_head; done).
  rewrite startswith_app.
  change (py " */" ++ [10]) with [32; 42; 47; 10].
  change 3 with (Z.of_nat (length header_prefix)).
  change (-4) with (- Z.of_nat (length [32; 42; 47; 10])).
  by rewrite (py_slice_middle header_prefix n [32; 42; 47; 10]).
Qed.

Lemma parse_line_finding n br l :
  truthy n = true -> finding_ok l ->
  parse_line (Cat n, br) l = inr (Cat n, dict_set br n (default [] (dict_get br n) ++ [l])).
Proof.
  intros Hn (_ & Hs & Hh & _). unfold parse_line.
  rewrite (proj2 (Nat.eqb_neq _ _)) by (intros E; apply Hs, nil_length_inv, E).
  by rewrite Hh, Hn.
Qed.

(** Adding the findings [ls] of category [n] to the dict. *)
Definition add_findings (br : dict (list pystr)) (n : pystr) (ls : list pystr) :=
  match ls with
  | [] => br
  | _ => dict_set br n (default [] (dict_get br n) ++ ls)
  end.

Lemma parse_findings n br ls rest :
  truthy n = true -> Forall finding_ok ls ->
  parse_lines (Cat n, br) (ls ++ rest) = parse_lines (Cat n, add_findings br n ls) rest.
Proof.
  intros Hn Hls. revert br. induction Hls as [|l ls Hl Hls IH]; intros br; [done|].
  cbn [app parse_lines]. rewrite parse_line_finding by done. rewrite IH.
  destruct ls as [|l' ls']; [done|]. unfold add_findings.
  rewrite dict_get_set_eq, dict_set_set. simpl. by rewrite <-app_assoc.
Qed.

Lemma name_truthy n : name_ok n -> truthy n = true.
Proof. by intros [Hn _]; destruct n. Qed.

Lemma parse_block st b rest :
  block_ok b ->
  parse_lines st (block_lines b ++ rest) = parse_lines (Cat b.1, add_findings st.2 b.1 b.2) rest.
Proof.
  destruct st as [cat br], b as [n ls]. intros [Hn Hls].
  unfold block_lines. cbn [app parse_lines fst snd].
  rewrite parse_line_blank. cbn [snd]. rewrite parse_line_header. apply parse_findings; [by apply name_truthy|done].
Qed.

Lemma add_findings_absent br n ls :
  n ∉ keys br -> add_findings br n ls = br ++ nonempty_blocks [(n, ls)].
Proof.
  intros Hn. destruct ls as [|l ls]; simpl.
  - by rewrite app_nil_r.
  - rewrite dict_get_absent, dict_set_absent by done. done.
Qed.

Lemma keys_nonempty_blocks bs : keys (nonempty_blocks bs) ⊆ map fst bs.
Proof.
  induction bs as [|[n ls] bs IH]; simpl; [done|].
  unfold nonempty_blocks in *. rewrite filter_cons.
  case_decide; simpl; set_solver.
Qed.

(** Distinct well-formed blocks, parsed from any state whose dict has none
    of their names, append their non-empty blocks to the dict. *)
Lemma parse_blocks_from st bs :
  Forall block_ok bs -> NoDup (map fst bs) ->
  (forall n, n ∈ map fst bs -> n ∉ keys st.2) ->
  exists cat, parse_lines st (report_lines bs) = inr (cat, st.2 ++ nonempty_blocks bs).
Proof.
  revert st. induction bs as [|b bs IH]; intros [cat br] Hok Hnd Hfresh.
  - exists cat. simpl. by rewrite app_nil_r.
  - inversion Hok as [|? ? Hb Hbs]; subst. inversion Hnd as [|? ? Hnb Hnd']; subst.
    unfold report_lines. rewrite map_cons, concat_cons, parse_block by done. cbn [snd].
    change (concat (map block_lines bs)) with (report_lines bs).
    rewrite add_findings_absent by (apply Hfresh; simpl; set_solver).
    destruct IH with (st := (Cat b.1, br ++ nonempty_blocks [(b.1, b.2)]))
      as [cat' Hcat']; [done|done| |].
    + intros n Hn. simpl. unfold keys. rewrite map_app, elem_of_app.
      intros [Hin|Hin]; [by apply (Hfresh n); simpl; set_solver|].
      apply keys_nonempty_blocks in Hin. set_solver.
    + exists cat'. rewrite Hcat'. cbn [fst snd]. rewrite <-app_assoc. unfold nonempty_blocks.
      rewrite <-filter_app. by destruct b.
Qed.

Lemma header_line_ok n : name_ok n -> line_ok (header_line n).
Proof.
  intros (_ & Hn & _). exists (header_prefix ++ n ++ py " */").
  unfold header_line. rewrite <-!app_assoc. split; [done|].
  rewrite !Forall_app. split; [unfold header_prefix; decide_lit|split; [done|decide_lit]].
Qed.

Lemma report_lines_ok bs : Forall block_ok bs -> Forall line_ok (report_lines bs).
Proof.
  induction 1 as [|[n ls] bs [Hn Hls] _ IH]; [done|].
  unfold report_lines. rewrite map_cons, concat_cons. apply Forall_app. split; [|done].
  constructor; [exists []; split; [done|constructor]|].
  constructor; [by apply header_line_ok|].
  eapply Forall_impl; [done|]. by intros l [Hl _].
Qed.

Lemma findings_scalar ls :
  Forall finding_ok ls -> Forall (fun c => scalar c = true) (concat ls).
Proof.
  induction 1 as [|l ls (_ & _ & _ & Hl) _ IH]; simpl; [constructor|].
  by apply Forall_app.
Qed.

Lemma report_text_scalar bs :
  Forall block_ok bs -> Forall (fun c => scalar c = true) (report_text bs).
Proof.
  unfold report_text. induction 1 as [|[n ls] bs Hb _ IH]; [constructor|].
  destruct Hb as [(_ & _ & Hn) Hls].
  unfold report_lines in *. rewrite map_cons, concat_cons, concat_app. apply Forall_app.
  split; [|done]. unfold block_lines. cbn [concat fst snd].
  unfold header_line. rewrite !Forall_app.
  split; [decide_lit|split; [split; [unfold header_prefix; decide_lit|split; [done|decide_lit]]|]].
  by apply findings_scalar.
Qed.

(** The report file, read back in text mode, gives its lines. *)
(** A report file decodes back to its text. *)
Lemma read_text_report bs :
  Forall block_ok bs -> PyStr.read_text (utf8_encode (report_text bs)) = Some (report_text bs).
Proof.
  intros Hok. unfold PyStr.read_text.
  rewrite utf8_roundtrip by (by apply report_text_scalar). cbn [fmap option_fmap option_map].
  unfold report_text. rewrite translate_newlines_id; [done|].
  apply concat_lines_no_cr, report_lines_ok; done.
Qed.

Lemma read_report_text bs :
  Forall block_ok bs ->
  (readlines <$> PyStr.read_text (utf8_encode (report_text bs))) = Some (report_lines bs).
Proof.
  intros Hok. rewrite read_text_report by done. cbn.
  unfold report_text. rewrite readlines_concat by (apply report_lines_ok; done). done.
Qed.

(** ** The read loop of [__hashsum] *)

Lemma read_blocks_enough_aux fuel data :
  (length data < fuel)%nat ->
  exists blks, read_blocks fuel data = Some blks /\ concat blks = data /\
               Forall (fun b => 0 < length b <= 4096)%nat blks.
Proof.
  revert data. induction fuel as [|fuel IH]; intros data Hlen; [lia|].
  simpl. destruct (take 4096 data) as [|x xs] eqn:Ht.
  - exists []. split; [done|]. split; [|constructor].
    destruct data; [done|]. simpl in Ht. discriminate.
  - assert (Hne : (0 < length data)%nat) by (destruct data; [discriminate|simpl; lia]).
    destruct (IH (drop 4096 data)) as (blks & Hr & Hc & Hf).
    { rewrite length_drop. lia. }
    rewrite Hr. exists ((x :: xs) :: blks). split; [done|]. split.
    + rewrite concat_cons, Hc, <-Ht. apply take_drop.
    + constructor; [|done]. rewrite <-Ht, length_take. lia.
Qed.

(** C7. The loop [for byte_block in iter(lambda: f.read(4096), b"")]
    terminates within [length data + 1] reads. The blocks it reads are
    non-empty, at most 4096 bytes each, and together form the whole file. *)
Theorem read_blocks_enough data :
  exists blks, read_blocks (S (length data)) data = Some blks /\ concat blks = data /\
               Forall (fun b => 0 < length b <= 4096)%nat blks.
Proof. apply read_blocks_enough_aux. lia. Qed.

Lemma hashsum_of_sha1 data : hashsum_of data = Sha1.sha1_hex data.
Proof.
  unfold hashsum_of. destruct (read_blocks_enough_aux (S (length data)) data)
    as (blks & -> & Hc & _); [lia|].
  by rewrite Sha1.fold_update_init, Hc.
Qed.

(** ** Theorems *)

Lemma report_hashsum p bs r :
  report_of_bytes p bs = inr r ->
  hashsum r = Sha1.sha1_hex bs /\ is_good r = bool_decide (Sha1.sha1_hex bs = empty_report_hashsum).
Proof.
  unfold report_of_bytes. destruct (PyStr.read_text bs); [|done].
  destruct (parse _); [done|]. intros [= <-]. simpl. by rewrite hashsum_of_sha1.
Qed.

(** C3. The verdict is the fingerprint. When [BreakageReport] is built
    from a file, [hashsum] is the SHA-1 hex digest of the file's bytes,
    and [is_good] holds exactly when that digest equals the hard-coded
    [empty_report_hashsum]. The parsed [breakage] plays no part. *)
Theorem verdict_is_fingerprint p bs r :
  report_of_bytes p bs = inr r ->
  hashsum r = Sha1.sha1_hex bs /\
  (is_good r = true <-> Sha1.sha1_hex bs = empty_report_hashsum).
Proof.
  intros Hr. destruct (report_hashsum _ _ _ Hr) as [-> ->].
  split; [done|]. apply bool_decide_eq_true.
Qed.

(** The report of a file of well-formed blocks. *)
Lemma report_of_blocks p bs :
  Forall block_ok bs -> NoDup (map fst bs) ->
  exists r, report_of_bytes p (utf8_encode (report_text bs)) = inr r /\
            breakage r = nonempty_blocks bs.
Proof.
  intros Hok Hnd. unfold report_of_bytes.
  pose proof (read_report_text bs Hok) as Ht.
  destruct (PyStr.read_text _) as [t|]; [|done]. simpl in Ht. injection Ht as Ht.
  rewrite Ht. unfold parse.
  destruct (parse_blocks_from (Unbound, []) bs Hok Hnd) as [cat Hcat];
    [intros; simpl; set_solver|].
  rewrite Hcat. eexists. split; [reflexivity|done].
Qed.

(** C1. Parsing well-formed blocks. Take a report file that is a
    sequence of blocks as the digester prints them: a blank line, a marker
    [/* name */], then finding lines. The names are distinct and
    non-empty, and the findings are non-blank lines that are not markers.
    Then [BreakageReport(path)] succeeds, leaves the world unchanged, and
    its [breakage] is exactly the blocks with at least one finding, in
    file order, each with its lines in order. *)
Theorem make_blocks p w bs :
  Forall block_ok bs -> NoDup (map fst bs) ->
  w_fs w !! resolve w p = Some (utf8_encode (report_text bs)) ->
  exists r, make p w = (inr r, w) /\ breakage r = nonempty_blocks bs.
Proof.
  intros Hok Hnd Hf. rewrite (make_spec _ _ _ Hf).
  destruct (report_of_blocks p bs Hok Hnd) as (r & -> & Hbr). eauto.
Qed.

(** ** The canonical empty report *)

(** The section markers [swift-api-digester -diagnose-sdk] prints, in its
    order. *)
Definition digester_categories : list pystr :=
  map py ["Generic Signature Changes"; "RawRepresentable Changes"; "Removed Decls";
          "Moved Decls"; "Renamed Decls"; "Type Changes"; "Decl Attribute changes";
          "Fixed-layout Type Changes"; "Protocol Conformance Change";
          "Protocol Requirement Change"; "Class Inheritance Change"; "Others"]%string.

(** The report with every section and no finding: the file whose SHA-1 is
    [empty_report_hashsum] (the comment of line 186). *)
Definition empty_report_bytes : pybytes :=
  utf8_encode (report_text (map (fun n => (n, [])) digester_categories)).

Definition canonical_report (p : pystr) : report :=
  mkReport p [] empty_report_hashsum true.

Lemma report_of_empty_report p :
  report_of_bytes p empty_report_bytes = inr (canonical_report p).
Proof. vm_compute. reflexivity. Qed.

(** C2. The canonical empty report is good. Building [BreakageReport]
    twice from the file holding the canonical empty report succeeds both
    times, leaves the world unchanged, and gives two equal reports. Each
    has no category, the fingerprint [empty_report_hashsum], and
    [is_good = True]. *)
Theorem make_empty_report_twice p w :
  w_fs w !! resolve w p = Some empty_report_bytes ->
  (r1 <- make p ;; r2 <- make p ;; ret (r1, r2)) w
    = (inr (canonical_report p, canonical_report p), w) /\
  breakage (canonical_report p) = [] /\ is_good (canonical_report p) = true.
Proof.
  intros Hf. split; [|done]. unfold bind at 1.
  rewrite (make_spec _ _ _ Hf), report_of_empty_report.
  unfold bind. rewrite (make_spec _ _ _ Hf), report_of_empty_report. done.
Qed.

(** A parsed report with no category that is judged breaking. *)
Definition breaking_but_empty (res : exc + report) : bool :=
  match res with
  | inr r => bool_decide (breakage r = []) && negb (is_good r)
  | inl _ => false
  end.

Lemma breaking_but_empty_spec res :
  breaking_but_empty res = true ->
  exists r, res = inr r /\ breakage r = [] /\ is_good r = false.
Proof.
  destruct res as [e|r]; simpl; [done|].
  rewrite andb_true_iff, negb_true_iff, bool_decide_eq_true. naive_solver.
Qed.

(** The ASCII characters [str.isspace] accepts. *)
Definition ascii_space_bytes : list Z := [9; 10; 11; 12; 13; 28; 29; 30; 31; 32].

(** The canonical report with Windows line endings. *)
Definition crlf (bs : pybytes) : pybytes :=
  flat_map (fun b => if b =? 10 then [13; 10] else [b]) bs.

Lemma forall_lt_seq (P : nat -> Prop) (f : nat -> bool) n :
  (forall i, f i = true -> P i) -> forallb f (seq 0 n) = true ->
  forall i, (i < n)%nat -> P i.
Proof.
  intros Hf Hall i Hi. apply Hf. rewrite forallb_forall in Hall.
  apply Hall, in_seq. lia.
Qed.

(** C4. The verdict is byte-sensitive. Each of these edits of the
    canonical empty report still parses to a report with no category, but
    is judged breaking:
    - deleting any one byte;
    - appending any ASCII whitespace character;
    - converting its line endings to CRLF.
    The verdict is taken from the bytes alone, never from the parsed
    categories (spec 4.4 and the open question of 9). *)
Theorem verdict_byte_sensitive p :
  (forall i, (i < length empty_report_bytes)%nat ->
     exists r, report_of_bytes p (delete i empty_report_bytes) = inr r /\
               breakage r = [] /\ is_good r = false) /\
  (forall c, c ∈ ascii_space_bytes ->
     exists r, report_of_bytes p (empty_report_bytes ++ [c]) = inr r /\
               breakage r = [] /\ is_good r = false) /\
  (exists r, report_of_bytes p (crlf empty_report_bytes) = inr r /\
             breakage r = [] /\ is_good r = false).
Proof.
  split; [|split].
  - apply (forall_lt_seq _
      (fun i => breaking_but_empty (report_of_bytes p (delete i empty_report_bytes)))).
    + intros i. apply breaking_but_empty_spec.
    + vm_compute. reflexivity.
  - intros c Hc. apply breaking_but_empty_spec.
    assert (Hall : Forall (fun c => breaking_but_empty
                     (report_of_bytes p (empty_report_bytes ++ [c])) = true)
                     ascii_space_bytes) by (repeat constructor; vm_compute; reflexivity).
    rewrite Forall_forall in Hall. by apply Hall.
  - apply breaking_but_empty_spec. vm_compute. reflexivity.
Qed.

(** ** Errors and the invariant of the dict *)

(** C5. A report that does not start with a marker or a blank line
    crashes. If the first line of the file is neither blank nor a marker,
    [__parseReport] reads [category] before assigning it, and
    [BreakageReport] raises [UnboundLocalError]. The spec says such lines
    are discarded. *)
Theorem make_unbound_category p w bs l rest :
  w_fs w !! resolve w p = Some bs ->
  (readlines <$> PyStr.read_text bs) = Some (l :: rest) ->
  strip l <> [] -> startswith l header_prefix = false ->
  make p w = (inl (UnboundLocalError (py "category")), w).
Proof.
  intros Hf Ht Hs Hh. rewrite (make_spec _ _ _ Hf). unfold report_of_bytes.
  destruct (PyStr.read_text bs) as [t|]; [|done]. injection Ht as ->.
  unfold parse. simpl. rewrite (proj2 (Nat.eqb_neq _ _)) by (intros E; apply Hs, nil_length_inv, E).
  by rewrite Hh.
Qed.

(** A finding as it can be stored: not blank, not a marker. *)
Definition stored_finding (l : pystr) : Prop :=
  strip l <> [] /\ startswith l header_prefix = false.

(** The invariant of [breakage]: distinct non-empty category names, each
    with a non-empty list of stored findings. *)
Definition breakage_wf (br : dict (list pystr)) : Prop :=
  NoDup (keys br) /\
  Forall (fun kv => truthy kv.1 = true /\ kv.2 <> [] /\ Forall stored_finding kv.2) br.

Lemma keys_dict_set_cases {V} (d : dict V) k v :
  keys (dict_set d k v) = keys d \/ keys (dict_set d k v) = keys d ++ [k] /\ k ∉ keys d.
Proof.
  induction d as [|[k' w] d IH]; simpl; [right; set_solver|].
  destruct (decide (k = k')) as [->|Hne]; simpl; [by left|].
  destruct IH as [-> | [-> Hk]]; [by left|right]. set_solver.
Qed.

Lemma dict_set_nodup {V} (d : dict V) k v : NoDup (keys d) -> NoDup (keys (dict_set d k v)).
Proof.
  intros Hnd. destruct (keys_dict_set_cases d k v) as [-> | [-> Hk]]; [done|].
  apply NoDup_app. split; [done|]. split; [set_solver|]. apply NoDup_singleton.
Qed.

Lemma dict_set_Forall {V} (P : pystr * V -> Prop) (d : dict V) k v :
  Forall P d -> P (k, v) -> Forall P (dict_set d k v).
Proof.
  induction 1 as [|[k' w] d Hkw Hd IH]; intros Hkv; simpl; [by repeat constructor|].
  destruct (decide (k = k')); constructor; auto.
Qed.

Lemma dict_get_Forall {V} (P : pystr * V -> Prop) (d : dict V) k v :
  Forall P d -> dict_get d k = Some v -> P (k, v).
Proof.
  induction 1 as [|[k' w] d Hkw _ IH]; simpl; [done|].
  destruct (decide (k = k')) as [->|]; [by intros [= <-]|done].
Qed.

Lemma parse_line_wf cat br l st' :
  breakage_wf br -> parse_line (cat, br) l = inr st' -> breakage_wf st'.2.
Proof.
  intros [Hnd Hall]. unfold parse_line.
  destruct (Nat.eqb_spec (length (strip l)) 0) as [Hz|Hz]; [by intros [= <-]|].
  destruct (startswith l header_prefix) eqn:Hh; [by intros [= <-]|].
  destruct cat as [| |c]; [done|by intros [= <-]|].
  destruct (truthy c) eqn:Hc; [|by intros [= <-]].
  intros [= <-]. simpl. split; [by apply dict_set_nodup|].
  apply dict_set_Forall; [done|]. simpl. split; [done|]. split; [intros E; apply app_eq_nil in E; by destruct E|].
  apply Forall_app. split; [|constructor; [split; [intros E; apply Hz; by rewrite E|done]|done]].
  destruct (dict_get br c) as [v|] eqn:Hg; simpl; [|done].
  by destruct (dict_get_Forall _ _ _ _ Hall Hg) as (_ & _ & ?).
Qed.

Lemma parse_lines_wf st lines st' :
  breakage_wf st.2 -> parse_lines st lines = inr st' -> breakage_wf st'.2.
Proof.
  revert st. induction lines as [|l lines IH]; intros [cat br] Hwf; cbn [parse_lines].
  - intros [= <-]. exact Hwf.
  - intros H. destruct (parse_line (cat, br) l) as [e|st''] eqn:E; [discriminate H|].
    eapply IH; [|exact H]. by eapply parse_line_wf.
Qed.

(** C6. Invariant of the parsed dict. Every [breakage] that
    [__parseReport] builds has distinct category names, none empty. Each
    category has at least one finding, and no finding is blank or a
    marker. *)
Theorem breakage_invariant p bs r :
  report_of_bytes p bs = inr r -> breakage_wf (breakage r).
Proof.
  unfold report_of_bytes. destruct (PyStr.read_text bs); [|done].
  unfold parse. destruct (parse_lines (Unbound, []) _) as [e|[cat br]] eqn:E; [done|].
  intros [= <-]. simpl. apply (parse_lines_wf (Unbound, []) _ _ (conj NoDup_nil_2 (Forall_nil_2 _)) E).
Qed.

(** ** Deciding well-formedness *)

Definition not_newline (c : Z) : bool := negb (c =? 10) && negb (c =? 13).

Definition line_okb (l : pystr) : bool :=
  match rev l with
  | c :: rb => (c =? 10) && forallb not_newline rb
  | [] => false
  end.

Definition finding_okb (l : pystr) : bool :=
  line_okb l && negb (bool_decide (strip l = [])) &&
  negb (startswith l header_prefix) && forallb scalar l.

Definition block_okb (b : pystr * list pystr) : bool :=
  truthy b.1 && forallb not_newline b.1 && forallb scalar b.1 && forallb finding_okb b.2.

Lemma not_newline_Forall s :
  forallb not_newline s = true -> no_newline s.
Proof.
  intros H. apply forallb_Forall in H. eapply Forall_impl; [exact H|].
  intros c. unfold not_newline. rewrite andb_true_iff, !negb_true_iff, !Z.eqb_neq. done.
Qed.

Lemma line_okb_sound l : line_okb l = true -> line_ok l.
Proof.
  unfold line_okb. rewrite <-(rev_involutive l) at 2.
  destruct (rev l) as [|c rb]; [done|]. rewrite andb_true_iff, Z.eqb_eq.
  intros [-> Hrb]. exists (rev rb). split; [done|].
  apply Forall_rev. by apply not_newline_Forall.
Qed.

Lemma block_okb_sound b : block_okb b = true -> block_ok b.
Proof.
  destruct b as [n ls]. unfold block_okb. cbn [fst snd].
  rewrite !andb_true_iff. intros [[[Hn Hnl] Hsc] Hls]. split.
  - split; [by destruct n|]. split; [by apply not_newline_Forall|by apply forallb_Forall].
  - apply forallb_Forall in Hls. eapply Forall_impl; [exact Hls|]. intros l.
    unfold finding_okb. rewrite !andb_true_iff, !negb_true_iff.
    intros [[[Hl Hs] Hh] Hsc']. split; [by apply line_okb_sound|].
    split; [intros E; rewrite E in Hs; done|]. split; [done|by apply forallb_Forall].
Qed.

End BreakageReport.

(** ** A reference definition of [__parseReport] (lines 167-175)

    [BreakageReport.parse] runs the loop of [__parseReport]: one local
    [category] threaded through the lines, and a dict updated in place.
    This Module gives a second, declarative definition of what the loop
    computes on every input, and proves the two equal ([parse_reference]).

    The reference reads the report as a whole:
    - each line is blank, a header [/* name */] or a finding, tested in the
      order of the code ([kind]);
    - a finding belongs to the name of the nearest header above it, unless
      a blank line comes in between ([owner]); findings owned by an empty
      name, or by nothing, are dropped ([owned]);
    - the dict has one entry per owning name, in the order the names first
      own a finding, holding that name's findings in file order ([group]);
    - a first line that is a finding reads [category] before any
      assignment: [UnboundLocalError]. *)

Module ReportSpec.

Import BreakageReport.

(** ** The reference *)

Inductive line_kind := Blank | Header (name : pystr) | Finding.

(** The tests of lines 169 and 172, and the slice of line 173. *)
Definition kind (l : pystr) : line_kind :=
  if Nat.eqb (length (strip l)) 0 then Blank
  else if startswith l header_prefix then Header (py_slice l 3 (-4))
  else Finding.

Definition is_marker (l : pystr) : Prop := kind l <> Finding.

#[local] Instance is_marker_dec l : Decision (is_marker l).
Proof. unfold is_marker. destruct (kind l); [left|left|right]; congruence. Qed.

(** The name a line belongs to, given the lines above it. *)
Definition owner (above : list pystr) : option pystr :=
  match last (filter is_marker above) with
  | Some l => match kind l with Header n => Some n | _ => None end
  | None => None
  end.

Definition owned_at (above : list pystr) (l : pystr) : list (pystr * pystr) :=
  match kind l, owner above with
  | Finding, Some c => if truthy c then [(c, l)] else []
  | _, _ => []
  end.

(** The findings with their names, in file order. *)
Definition owned (lines : list pystr) : list (pystr * pystr) :=
  concat (imap (fun i l => owned_at (take i lines) l) lines).

(** The keys in the order of their first occurrence. *)
Fixpoint first_keys (ks : list pystr) : list pystr :=
  match ks with
  | [] => []
  | k :: ks' => k :: filter (fun k' => k' <> k) (first_keys ks')
  end.

Definition group (prs : list (pystr * pystr)) : dict (list pystr) :=
  map (fun k => (k, map snd (filter (fun p => p.1 = k) prs))) (first_keys (map fst prs)).

Definition spec_parse (lines : list pystr) : exc + dict (list pystr) :=
  match lines with
  | [] => inr []
  | l :: _ =>
    if bool_decide (is_marker l) then inr (group (owned lines))
    else inl (UnboundLocalError (py "category"))
  end.

(** ** Grouping pairs in first-occurrence order *)

Lemma elem_of_first_keys k ks : k ∈ first_keys ks <-> k ∈ ks.
Proof.
  induction ks as [|k' ks IH]; cbn; [done|].
  rewrite !elem_of_cons, list_elem_of_filter, IH. destruct (decide (k = k')); tauto.
Qed.

Lemma first_keys_nodup ks : NoDup (first_keys ks).
Proof.
  induction ks as [|k ks IH]; cbn; constructor.
  - rewrite list_elem_of_filter. by intros [].
  - by apply NoDup_filter.
Qed.

Lemma first_keys_snoc ks k :
  first_keys (ks ++ [k]) = if decide (k ∈ ks) then first_keys ks else first_keys ks ++ [k].
Proof.
  induction ks as [|k' ks IH]; cbn; [done|]. rewrite IH.
  destruct (decide (k ∈ ks)) as [Hin|Hin].
  - by rewrite decide_True by (apply elem_of_cons; by right).
  - rewrite filter_app. destruct (decide (k = k')) as [->|Hne].
    + rewrite decide_True by (apply elem_of_cons; by left).
      rewrite filter_cons_False by tauto. by rewrite app_nil_r.
    + rewrite decide_False by (rewrite elem_of_cons; tauto).
      by rewrite filter_cons_True.
Qed.

Lemma dict_get_map {V} (F : pystr -> V) ks c :
  dict_get (map (fun k => (k, F k)) ks) c = if decide (c ∈ ks) then Some (F c) else None.
Proof.
  induction ks as [|k ks IH]; cbn; [done|].
  destruct (decide (c = k)) as [->|Hne]; [by rewrite decide_True by set_solver|].
  rewrite IH. destruct (decide (c ∈ ks)), (decide (c ∈ k :: ks)); set_solver.
Qed.

Lemma dict_set_map {V} (F : pystr -> V) ks c v :
  NoDup ks -> c ∈ ks ->
  dict_set (map (fun k => (k, F k)) ks) c v =
    map (fun k => (k, if decide (k = c) then v else F k)) ks.
Proof.
  induction ks as [|k ks IH]; intros Hnd Hc; cbn; [set_solver|].
  apply NoDup_cons in Hnd as [Hk Hnd].
  destruct (decide (c = k)) as [->|Hne].
  - rewrite decide_True by done. f_equal. apply map_ext_in. intros k' Hk'.
    rewrite <-list_elem_of_In in Hk'. by rewrite decide_False by set_solver.
  - rewrite decide_False by congruence. rewrite IH by set_solver. done.
Qed.

Lemma filter_key_snoc (prs : list (pystr * pystr)) c l k :
  map snd (filter (fun p => p.1 = k) (prs ++ [(c, l)])) =
    map snd (filter (fun p => p.1 = k) prs) ++ (if decide (k = c) then [l] else []).
Proof.
  rewrite filter_app, map_app. f_equal.
  destruct (decide (k = c)) as [->|Hne].
  - by rewrite filter_cons_True by done.
  - by rewrite filter_cons_False by (cbn; congruence).
Qed.

Lemma filter_key_absent (prs : list (pystr * pystr)) c :
  c ∉ map fst prs -> filter (fun p => p.1 = c) prs = [].
Proof.
  induction prs as [|[k v] prs IH]; intros Hc; [done|]. cbn in Hc.
  rewrite filter_cons_False by (cbn; set_solver). apply IH. set_solver.
Qed.

(** Appending one pair to the list is the dict update of line 175. *)
Lemma group_snoc prs c l :
  group (prs ++ [(c, l)]) = dict_set (group prs) c (default [] (dict_get (group prs) c) ++ [l]).
Proof.
  unfold group. rewrite map_app. cbn [map fst]. rewrite first_keys_snoc, dict_get_map.
  destruct (decide (c ∈ map fst prs)) as [Hc|Hc].
  - rewrite !decide_True by (done || by apply elem_of_first_keys). cbn [default].
    rewrite dict_set_map by (apply first_keys_nodup || by apply elem_of_first_keys).
    apply map_ext_in. intros k _. rewrite filter_key_snoc.
    by destruct (decide (k = c)) as [->|]; rewrite ?app_nil_r.
  - rewrite !decide_False by (done || by rewrite elem_of_first_keys). cbn [default].
    rewrite dict_set_absent.
    2:{ unfold keys. rewrite map_map. cbn. rewrite map_id. by rewrite elem_of_first_keys. }
    rewrite map_app. cbn [map]. f_equal.
    + apply map_ext_in. intros k Hk. rewrite <-list_elem_of_In, elem_of_first_keys in Hk.
      rewrite filter_key_snoc, decide_False by congruence. by rewrite app_nil_r.
    + by rewrite filter_key_snoc, decide_True, filter_key_absent.
Qed.

(** ** The loop against the reference *)

Definition cat_of (o : option pystr) : category_var :=
  match o with Some n => Cat n | None => CatNone end.

(** The body of the loop, by the kind of the line. *)
Lemma parse_line_kind cat br l :
  parse_line (cat, br) l =
    match kind l with
    | Blank => inr (CatNone, br)
    | Header n => inr (Cat n, br)
    | Finding =>
      match cat with
      | Unbound => inl (UnboundLocalError (py "category"))
      | CatNone => inr (cat, br)
      | Cat c =>
        if truthy c then inr (cat, dict_set br c (default [] (dict_get br c) ++ [l]))
        else inr (cat, br)
      end
    end.
Proof.
  unfold parse_line, kind.
  destruct (Nat.eqb _ _); [done|]. by destruct (startswith l header_prefix).
Qed.

Lemma parse_lines_app st l1 l2 :
  parse_lines st (l1 ++ l2) =
    match parse_lines st l1 with inl e => inl e | inr st' => parse_lines st' l2 end.
Proof.
  revert st. induction l1 as [|l l1 IH]; intros st; cbn [parse_lines app]; [done|].
  destruct (parse_line st l); [done|apply IH].
Qed.

Lemma owner_snoc above l :
  owner (above ++ [l]) = match kind l with Blank => None | Header n => Some n | Finding => owner above end.
Proof.
  unfold owner. rewrite filter_app. destruct (decide (is_marker l)) as [Hm|Hm].
  - rewrite filter_singleton_True, last_snoc by done. unfold is_marker in Hm.
    by destruct (kind l).
  - rewrite filter_singleton_False, app_nil_r by done. unfold is_marker in Hm.
    destruct (kind l); [exfalso; by apply Hm..|done].
Qed.

Lemma owned_snoc lines l : owned (lines ++ [l]) = owned lines ++ owned_at lines l.
Proof.
  unfold owned. rewrite imap_app, concat_app. f_equal.
  - f_equal. apply imap_ext. intros i x Hi. apply lookup_lt_Some in Hi.
    by rewrite take_app_le by lia.
  - cbn. by rewrite Nat.add_0_r, take_app_length, app_nil_r.
Qed.

(** The invariant of the loop: after the lines read so far, [category]
    is their owner and the dict is the grouping of their owned findings. *)
Lemma parse_lines_reference l0 rest :
  is_marker l0 ->
  parse_lines (Unbound, []) (l0 :: rest) =
    inr (cat_of (owner (l0 :: rest)), group (owned (l0 :: rest))).
Proof.
  intros Hm. induction rest as [|l rest IH] using rev_ind.
  - change [l0] with ([] ++ [l0]). rewrite owner_snoc, owned_snoc. cbn [parse_lines app].
    rewrite parse_line_kind. unfold owned_at, is_marker in *.
    destruct (kind l0); [done|done|by exfalso].
  - rewrite app_comm_cons, parse_lines_app, IH. cbn [parse_lines].
    rewrite parse_line_kind, owner_snoc, owned_snoc. unfold owned_at.
    destruct (kind l); [by rewrite app_nil_r..|].
    destruct (owner (l0 :: rest)) as [c|]; cbn [cat_of]; [|by rewrite app_nil_r].
    destruct (truthy c); [by rewrite group_snoc|by rewrite app_nil_r].
Qed.

(** C30. The loop of [__parseReport] is the reference, on every input.
    For every list of lines, [parse] (lines 167-175, run as a loop over
    one local and a dict updated in place) raises [UnboundLocalError]
    exactly when the first line is a finding, and otherwise returns the
    dict that has, for each name that owns a finding (the nearest header
    above it with no blank line in between, and a non-empty name), in the
    order the names first own one, that name's findings in file order. *)
Theorem parse_reference lines : parse lines = spec_parse lines.
Proof.
  destruct lines as [|l0 rest]; [done|]. unfold parse, spec_parse.
  case_bool_decide as Hm; [by rewrite parse_lines_reference|].
  cbn [parse_lines]. rewrite parse_line_kind. unfold is_marker in Hm.
  destruct (kind l0); [exfalso; by apply Hm..|done].
Qed.

End ReportSpec.

(** ** Witnesses *)

Import BreakageReport.

(** A world whose file system holds [bs] at [/r]. *)
Definition demo_world (bs : pybytes) : world :=
  mkWorld {[ py "/r" := bs ]} ∅ (py "/w") [] [] [].

Definition sample_blocks : list (pystr * list pystr) :=
  [(py "Removed Decls", [py "Func foo() has been removed" ++ [10]]);
   (py "Moved Decls", []);
   (py "Type Changes", [py "Var bar has declared type change" ++ [10];
                        py "Func baz() has return type change" ++ [10]])].

Definition sample_bytes : pybytes := utf8_encode (report_text sample_blocks).

Definition sample_report : report :=
  Eval vm_compute in
  match report_of_bytes (py "/r") sample_bytes with
  | inr r => r
  | inl _ => canonical_report []
  end.

Lemma report_of_sample : report_of_bytes (py "/r") sample_bytes = inr sample_report.
Proof. vm_compute. reflexivity. Qed.

Lemma make_blocks_witness :
  exists r, make (py "/r") (demo_world sample_bytes) = (inr r, demo_world sample_bytes) /\
  breakage r = nonempty_blocks sample_blocks.
Proof.
  apply make_blocks.
  - apply Forall_forall. intros b Hb. apply block_okb_sound.
    revert b Hb. apply Forall_forall, forallb_Forall. vm_compute. reflexivity.
  - decide_lit.
  - vm_compute. reflexivity.
Defined.

Lemma make_empty_report_twice_witness :
  (r1 <- make (py "/r") ;; r2 <- make (py "/r") ;; ret (r1, r2)) (demo_world empty_report_bytes)
    = (inr (canonical_report (py "/r"), canonical_report (py "/r")), demo_world empty_report_bytes) /\
  breakage (canonical_report (py "/r")) = [] /\ is_good (canonical_report (py "/r")) = true.
Proof. apply make_empty_report_twice. vm_compute. reflexivity. Defined.

Lemma verdict_is_fingerprint_witness :
  hashsum (canonical_report (py "/r")) = Sha1.sha1_hex empty_report_bytes /\
  (is_good (canonical_report (py "/r")) = true <-> Sha1.sha1_hex empty_report_bytes = empty_report_hashsum).
Proof. apply (verdict_is_fingerprint (py "/r")). apply report_of_empty_report. Defined.

Definition stray_line : pystr := py "Func foo() has been removed" ++ [10].

Lemma make_unbound_category_witness :
  make (py "/r") (demo_world (utf8_encode stray_line))
    = (inl (UnboundLocalError (py "category")), demo_world (utf8_encode stray_line)).
Proof.
  apply (make_unbound_category _ _ (utf8_encode stray_line) stray_line []).
  - vm_compute. reflexivity.
  - vm_compute. reflexivity.
  - decide_lit.
  - vm_compute. reflexivity.
Defined.

Lemma breakage_invariant_witness : breakage_wf (breakage sample_report).
Proof. apply (breakage_invariant (py "/r") sample_bytes). apply report_of_sample. Defined.
