(* ===== verification/Digester.v ===== *)
(** * [APIDigester] (lines 94-157)

    [compare] builds the command line of [swift-api-digester -diagnose-sdk]
    ([compare_arguments]) and runs it with captured output. On a non-zero
    exit it prints the tool's stderr and raises. Otherwise it builds
    [BreakageReport] from the file the tool wrote. The digester itself sits
    behind the [Toolchain] interface. Its contract, as far as the spec
    states one, is the class [DigesterContract]: two identical dumps with
    no allow-list give the canonical empty report.

    [dump_sdk] resolves the device module, appends a [-iframework] search
    path for every dependency that has a sibling bundle of the same name
    in the dependency directory, then the module's name, target triple and
    directory, and runs [swift-api-digester -dump-sdk]. Its theorem
    [dump_sdk_command] rests on [reads_only]: the bundle and module reads
    give the same results after [otool] has run. *)

From S2P Require Import Prelude PyStr PyRuntime PyPath XCFramework Sha1 Report.

Open Scope Z_scope.
Open Scope py_scope.

Module APIDigester.

Import BreakageReport.

(** The argument vector of lines 97-107. *)
Definition compare_arguments (baseline_path current_path output_path : pystr)
    (breakage_allow_list_path : option pystr) : list pystr :=
  let arguments :=
    [py "xcrun"; py "--sdk"; py "iphoneos"; py "swift-api-digester";
     py "-diagnose-sdk";
     py "-o"; output_path;
     py "-input-paths"; baseline_path;
     py "-input-paths"; current_path;
     py "-v"] in
  match breakage_allow_list_path with
  | Some p => if truthy p then arguments ++ [py "-breakage-allowlist-path"; p]
              else arguments
  | None => arguments
  end.

Definition digester_failed : exc := Exception (py "swift-api-digester failed").

Section Compare.
Context `{Toolchain}.

(** [APIDigester().compare(baseline, current, output, allow_list)]. *)
Definition compare (baseline_path current_path output_path : pystr)
    (breakage_allow_list_path : option pystr) : PyM report :=
  proc <- subprocess_run
            (compare_arguments baseline_path current_path output_path
               breakage_allow_list_path) true ;;
  if negb (returncode proc =? 0) then
    print (proc_stderr proc) ;;
    raise digester_failed
  else make output_path.

End Compare.

(** The spec's expectation of the external comparator: two identical dumps
    with no allow-list give the canonical empty report, written to the
    output path, with exit status 0. *)
Class DigesterContract `{Toolchain} := {
  digester_identical : forall w b o,
    run_tool (compare_arguments b b o None) w =
      (Completed 0 [] [], <[resolve w o := empty_report_bytes]> (w_fs w))
}.

(** ** [APIDigester.dump_sdk] (lines 116-157) *)

(** The argument vector of lines 118-127. *)
Definition dump_arguments (output_path : pystr) (abi : bool) : list pystr :=
  [py "xcrun"; py "--sdk"; py "iphoneos"; py "swift-api-digester";
   py "-dump-sdk";
   py "-o"; output_path;
   py "-abort-on-module-fail";
   py "-v";
   py "-avoid-tool-args"; py "-avoid-location"] ++
  (if abi then [py "-abi"] else []).

(** The first sibling bundle named [n] (the inner loop of lines 136-140,
    with its [break]). *)
Definition find_framework (n : pystr) (xcDeps : list XCFramework.t) : option XCFramework.t :=
  List.find (fun x => bool_decide (XCFramework.name x = n)) xcDeps.

Section Dump.
Context `{Toolchain} `{PlistLib} `{PyRepr}.

(** One turn of [for dependency in deps] (lines 135-140). *)
Definition append_dependency (xcDeps : list XCFramework.t) (arguments : list pystr)
    (dependency : pystr) : PyM (list pystr) :=
  match find_framework (basename dependency) xcDeps with
  | Some xcDep =>
    m <- XCFramework.iOSDeviceModule xcDep ;;
    ret (arguments ++ [py "-iframework"; dirname (SDKModule.path m)])
  | None => ret arguments
  end.

(** The condition of the comprehension of line 132. *)
Definition is_framework_dir (dependencies_path d : pystr) : PyM bool :=
  is_dir <- path_isdir (path_join dependencies_path d) ;;
  ret (is_dir && endswith d (py ".xcframework")).

(** [append_dependencies] (lines 129-140); [deps_names] is never used. *)
Definition append_dependencies (module : SDKModule.t) (dependencies_path : pystr)
    (arguments : list pystr) : PyM (list pystr) :=
  deps <- SDKModule.list_dependencies module ;;
  names <- listdir dependencies_path ;;
  dirs <- filter_m (is_framework_dir dependencies_path) names ;;
  xcDeps <- map_m (fun d => XCFramework.init (path_join dependencies_path d)) dirs ;;
  fold_m (append_dependency xcDeps) deps arguments.

(** [append_module] (lines 142-148): it resolves the device module again. *)
Definition append_module (xcframework : XCFramework.t) (arguments : list pystr)
    : PyM (list pystr) :=
  module <- XCFramework.iOSDeviceModule xcframework ;;
  target <- SDKModule.triplet_target module ;;
  ret (arguments ++ [py "-module"; XCFramework.name xcframework;
                     py "-target"; target;
                     py "-iframework"; dirname (SDKModule.path module)]).

(** Lines 117 and 151-152: the device module, then the two helpers extend
    [arguments]. The literal of lines 118-127 is pure, so building it
    before or after the module makes no difference. *)
Definition build_arguments (xcframework : XCFramework.t) (dependencies_path : pystr)
    (arguments : list pystr) : PyM (list pystr) :=
  module <- XCFramework.iOSDeviceModule xcframework ;;
  arguments1 <- append_dependencies module dependencies_path arguments ;;
  append_module xcframework arguments1.

Definition dump_sdk (xcframework : XCFramework.t) (dependencies_path output_path : pystr)
    (abi : bool) : PyM unit :=
  arguments <- build_arguments xcframework dependencies_path (dump_arguments output_path abi) ;;
  proc <- subprocess_run arguments true ;;
  if negb (returncode proc =? 0) then
    print (proc_stderr proc) ;;
    raise digester_failed
  else ret tt.

End Dump.

(** ** Theorems *)

Section CompareTheorems.
Context `{Toolchain}.

Definition allow_flag : pystr := py "-breakage-allowlist-path".

(** C11. The command line of [compare]. The output path follows [-o]. The
    baseline dump is the first [-input-paths] and the candidate the second.
    The allow-list flag and its path are appended exactly when an
    allow-list path is given and non-empty (Python's truth value). *)
Theorem compare_arguments_shape b c o a :
  compare_arguments b c o a !! 6%nat = Some o /\
  compare_arguments b c o a !! 8%nat = Some b /\
  compare_arguments b c o a !! 10%nat = Some c /\
  (forall p, a = Some p -> p <> [] ->
     drop 12 (compare_arguments b c o a) = [allow_flag; p]) /\
  ((forall p, a = Some p -> p = []) -> length (compare_arguments b c o a) = 12%nat).
Proof.
  unfold compare_arguments. destruct a as [p|]; [destruct (truthy p) eqn:Ht|];
    do 3 (split; [done|]); split.
  - intros p' [= <-] _. done.
  - intros Hp. rewrite (Hp p eq_refl) in Ht. discriminate.
  - intros p' [= ->] Hne. destruct p'; [done|discriminate].
  - intros _. done.
  - intros p' [=].
  - intros _. done.
Qed.

Lemma compare_step b c o a w :
  compare b c o a w =
    let args := compare_arguments b c o a in
    let w1 := add_spawned args w in
    match run_tool args w1 with
    | (LaunchFailed e, fs) => (inl e, set_fs fs w1)
    | (Completed rc out err, fs) =>
      if rc =? 0 then make o (set_fs fs w1)
      else (inl digester_failed, add_stdout (err ++ [10]) (set_fs fs w1))
    end.
Proof.
  unfold compare, bind, subprocess_run. simpl.
  destruct (run_tool _ _) as [[rc out err|e] fs]; [|done]. simpl.
  by destruct (rc =? 0).
Qed.

(** C9. A failing digester is fatal. When the digester exits with a
    non-zero status, [compare] prints the tool's stderr and raises
    ["swift-api-digester failed"]. No report is built, and the output
    file is not read even if the tool left one. *)
Theorem compare_tool_failure b c o a w rc out err fs :
  run_tool (compare_arguments b c o a) (add_spawned (compare_arguments b c o a) w)
    = (Completed rc out err, fs) ->
  rc <> 0 ->
  compare b c o a w =
    (inl digester_failed,
     add_stdout (err ++ [10]) (set_fs fs (add_spawned (compare_arguments b c o a) w))).
Proof.
  intros Hrun Hrc. rewrite compare_step. simpl. rewrite Hrun.
  by rewrite (proj2 (Z.eqb_neq rc 0) Hrc).
Qed.

Lemma compare_completed_ok b c o a w out err fs bs :
  run_tool (compare_arguments b c o a) (add_spawned (compare_arguments b c o a) w)
    = (Completed 0 out err, fs) ->
  fs !! resolve w o = Some bs ->
  compare b c o a w =
    (report_of_bytes o bs, set_fs fs (add_spawned (compare_arguments b c o a) w)).
Proof.
  intros Hrun Hf. rewrite compare_step. simpl. rewrite Hrun. simpl.
  apply make_spec. done.
Qed.

(** C10. [compare] refines contract A of the spec. When the digester
    exits with status 0 and leaves [bs] at the output path, [compare]
    returns exactly the [BreakageReport] of [bs]: the parse of its lines
    and the verdict of its fingerprint. The digester's command is the only
    one run, its captured output is not echoed, and the file system is the
    one the digester left. *)
Theorem compare_success b c o a w out err fs bs :
  run_tool (compare_arguments b c o a) (add_spawned (compare_arguments b c o a) w)
    = (Completed 0 out err, fs) ->
  fs !! resolve w o = Some bs ->
  exists w', compare b c o a w = (report_of_bytes o bs, w') /\
    w_spawned w' = w_spawned w ++ [compare_arguments b c o a] /\
    w_stdout w' = w_stdout w /\ w_stderr w' = w_stderr w /\ w_fs w' = fs.
Proof.
  intros Hrun Hf. rewrite (compare_completed_ok _ _ _ _ _ _ _ _ _ Hrun Hf).
  eexists. split; [reflexivity|]. done.
Qed.

End CompareTheorems.

Section DumpTheorems.
Context `{Toolchain} `{PlistLib} `{PyRepr}.

(** The search paths the dependencies contribute, given the device module
    [sib xc] of every sibling bundle [xc]. *)
Definition search_paths (xcDeps : list XCFramework.t) (sib : XCFramework.t -> SDKModule.t)
    (deps : list pystr) : list pystr :=
  concat (map (fun dep =>
    match find_framework (basename dep) xcDeps with
    | Some x => [py "-iframework"; dirname (SDKModule.path (sib x))]
    | None => []
    end) deps).

(** The whole command line of the dump. *)
Definition dump_command (output_path : pystr) (abi : bool) (xcDeps : list XCFramework.t)
    (sib : XCFramework.t -> SDKModule.t) (deps : list pystr) (name target mpath : pystr)
    : list pystr :=
  dump_arguments output_path abi ++ search_paths xcDeps sib deps ++
  [py "-module"; name; py "-target"; target; py "-iframework"; dirname mpath].

Lemma fold_append_dependency xcs sib deps args w :
  (forall xc, xc ∈ xcs -> XCFramework.iOSDeviceModule xc w = (inr (sib xc), w)) ->
  fold_m (append_dependency xcs) deps args w = (inr (args ++ search_paths xcs sib deps), w).
Proof.
  intros Hsib. revert args. induction deps as [|dep deps IH]; intros args.
  - cbn. by rewrite app_nil_r.
  - cbn [fold_m]. unfold bind at 1, append_dependency, search_paths. cbn [map concat].
    destruct (find_framework _ _) as [xc|] eqn:E.
    + apply List.find_some in E as [Hin _]. apply list_elem_of_In in Hin.
      unfold bind at 1. rewrite Hsib by done. cbn. rewrite IH.
      by rewrite <-!app_assoc.
    + cbn. by rewrite IH.
Qed.

Lemma append_dependencies_run m dp args w deps w1 names xcs sib :
  SDKModule.list_dependencies m w = (inr deps, w1) -> same_view w w1 ->
  w_dirs w !! resolve w dp = Some names ->
  map_m (fun d => XCFramework.init (path_join dp d))
    (List.filter (fun d => isdir w (path_join dp d) && endswith d (py ".xcframework")) names) w
    = (inr xcs, w) ->
  (forall xc, xc ∈ xcs -> XCFramework.iOSDeviceModule xc w = (inr (sib xc), w)) ->
  append_dependencies m dp args w = (inr (args ++ search_paths xcs sib deps), w1).
Proof.
  intros Hd Hv Hl Hxs Hsib.
  unfold append_dependencies, bind at 1. rewrite Hd.
  assert (Hl1 : listdir dp w1 = (inr names, w1)).
  { apply (reads_only_run _ w); [apply ro_listdir| |done]. unfold listdir. by rewrite Hl. }
  unfold bind at 1. rewrite Hl1. unfold bind at 1.
  rewrite (filter_m_pure _ (fun d => isdir w (path_join dp d) && endswith d (py ".xcframework")));
    [|intros d _; unfold is_framework_dir, path_isdir, bind; by rewrite (isdir_view w w1)].
  unfold bind at 1.
  rewrite (reads_only_run _ _ _ (ro_map_m _ _ (fun d => XCFramework.ro_framework_init _)) Hxs _ Hv).
  apply fold_append_dependency. intros xc Hin.
  exact (reads_only_run _ _ _ (XCFramework.ro_iOSDeviceModule _) (Hsib xc Hin) _ Hv).
Qed.

(** C27. The dump command (spec 4.3). Suppose [otool] leaves the files
    alone. Suppose further that the bundle's device module is [m], its
    dependencies are [deps], and the sibling bundles of the dependency
    directory load as [xcs], each with device module [sib xc]. Then
    [dump_sdk] runs one digester command. It is the fixed arguments, [-abi]
    when asked, then per dependency the directory of the first sibling of
    that name, then the module name, its target triple and its directory.
    If that command fails, [dump_sdk] prints its stderr and raises. *)
Theorem dump_sdk_command x dp o abi w m deps w1 names xcs sib target rc out err fs :
  (forall exe w', (run_tool (SDKModule.otool_command exe) w').2 = w_fs w') ->
  XCFramework.iOSDeviceModule x w = (inr m, w) ->
  SDKModule.list_dependencies m w = (inr deps, w1) ->
  w_dirs w !! resolve w dp = Some names ->
  map_m (fun d => XCFramework.init (path_join dp d))
    (List.filter (fun d => isdir w (path_join dp d) && endswith d (py ".xcframework")) names) w
    = (inr xcs, w) ->
  (forall xc, xc ∈ xcs -> XCFramework.iOSDeviceModule xc w = (inr (sib xc), w)) ->
  SDKModule.triplet_target m w = (inr target, w) ->
  let args := dump_command o abi xcs sib deps (XCFramework.name x) target (SDKModule.path m) in
  run_tool args (add_spawned args w1) = (Completed rc out err, fs) ->
  dump_sdk x dp o abi w =
    if rc =? 0 then (inr tt, set_fs fs (add_spawned args w1))
    else (inl digester_failed, add_stdout (err ++ [10]) (set_fs fs (add_spawned args w1))).
Proof.
  intros Hot Hm Hd Hl Hxs Hsib Ht args Hrun.
  pose proof (SDKModule.list_dependencies_view _ _ _ _ Hot Hd) as Hv.
  assert (Hb : build_arguments x dp (dump_arguments o abi) w = (inr args, w1)).
  { unfold build_arguments, bind at 1. rewrite Hm.
    unfold bind at 1. rewrite (append_dependencies_run _ _ _ _ _ _ _ _ _ Hd Hv Hl Hxs Hsib).
    unfold append_module, bind at 1.
    rewrite (reads_only_run _ _ _ (XCFramework.ro_iOSDeviceModule _) Hm _ Hv).
    unfold bind at 1. rewrite (reads_only_run _ _ _ (SDKModule.ro_triplet_target _) Ht _ Hv).
    subst args. unfold dump_command. cbn [ret]. by rewrite <-app_assoc. }
  unfold dump_sdk, bind at 1. rewrite Hb. unfold bind, subprocess_run.
  rewrite Hrun. cbn. by destruct (rc =? 0).
Qed.

End DumpTheorems.

End APIDigester.

(** ** Witnesses *)

Import BreakageReport APIDigester.

(** A digester that exits with status [rc], prints ["boom"] on stderr,
    and writes [bs] to [/out]. *)
Definition fake_digester (rc : Z) (bs : pybytes) : Toolchain :=
  {| run_tool := fun _ w => (Completed rc [] (py "boom"), <[py "/out" := bs]> (w_fs w)) |}.

Definition digester_world : world := mkWorld ∅ ∅ (py "/w") [] [] [].

Lemma compare_arguments_shape_witness :
  let args := compare_arguments (py "old.json") (py "new.json") (py "/out") (Some (py "allow.txt")) in
  args !! 6%nat = Some (py "/out") /\ args !! 8%nat = Some (py "old.json") /\
  args !! 10%nat = Some (py "new.json") /\
  (forall p, Some (py "allow.txt") = Some p -> p <> [] -> drop 12 args = [allow_flag; p]) /\
  ((forall p, Some (py "allow.txt") = Some p -> p = []) -> length args = 12%nat).
Proof. apply compare_arguments_shape. Defined.

Lemma compare_tool_failure_witness :
  @compare (fake_digester 1 empty_report_bytes) (py "old.json") (py "new.json") (py "/out") None
    digester_world =
  (inl digester_failed,
   add_stdout (py "boom" ++ [10])
     (set_fs {[py "/out" := empty_report_bytes]}
        (add_spawned (compare_arguments (py "old.json") (py "new.json") (py "/out") None)
           digester_world))).
Proof.
  apply (@compare_tool_failure (fake_digester 1 empty_report_bytes) _ _ _ _ _ 1 [] (py "boom")).
  - reflexivity.
  - lia.
Defined.

Lemma compare_success_witness :
  exists w', @compare (fake_digester 0 empty_report_bytes) (py "old.json") (py "new.json")
      (py "/out") None digester_world = (report_of_bytes (py "/out") empty_report_bytes, w') /\
    w_spawned w' = w_spawned digester_world ++
      [compare_arguments (py "old.json") (py "new.json") (py "/out") None] /\
    w_stdout w' = w_stdout digester_world /\ w_stderr w' = w_stderr digester_world /\
    w_fs w' = {[py "/out" := empty_report_bytes]}.
Proof.
  apply (@compare_success (fake_digester 0 empty_report_bytes) _ _ _ _ _ [] (py "boom")).
  - reflexivity.
  - vm_compute. reflexivity.
Defined.

(** A sibling bundle with one device library. *)
Definition sibling_root : pystr := py "/sdk/Sibling.xcframework".

Definition sibling_library : pval :=
  PDict [(py "LibraryIdentifier", PStr (py "ios-arm64"));
         (py "LibraryPath", PStr (py "Sibling.framework"));
         (py "SupportedArchitectures", PArr [PStr (py "arm64")]);
         (py "SupportedPlatform", PStr (py "ios"))].

Definition sibling_plist : pval := PDict [(py "AvailableLibraries", PArr [sibling_library])].

(** A stand-in for [plistlib] that knows the files of the artifacts
    directory by their contents. *)
Definition dump_plistlib : PlistLib :=
  {| plist_loads := fun bs =>
       if bool_decide (bs = py "framework") then Some framework_plist
       else if bool_decide (bs = py "sibling") then Some sibling_plist
       else if bool_decide (bs = py "module") then Some module_plist else None |}.

Definition artifact_deps : list (pystr * pystr) :=
  [(py "@rpath/Sibling.framework/Sibling", py "compatibility version 1.0.0, current version 1.0.0");
   (py "/usr/lib/libSystem.B.dylib", py "compatibility version 1.0.0, current version 1.0.0");
   (py "@rpath/Other.framework/Other", py "compatibility version 1.0.0, current version 1.0.0")].

(** [otool] lists [artifact_deps] for any file; the digester succeeds;
    neither writes a file. *)
Definition dump_tools : Toolchain :=
  {| run_tool := fun argv w =>
       if bool_decide (take 3 argv = [py "xcrun"; py "otool"; py "-L"])
       then (Completed 0 (SDKModule.otool_output (default [] (last argv)) artifact_deps) [], w_fs w)
       else (Completed 0 [] [], w_fs w) |}.

(** An unpacked [artifacts] directory: MapboxMaps, one sibling bundle and
    a stray file. *)
Definition artifacts_world : world :=
  mkWorld
    (<[py "/sdk/MapboxMaps.xcframework/Info.plist" := py "framework"]>
     (<[py "/sdk/MapboxMaps.xcframework/ios-arm64/MapboxMaps.framework/Info.plist" := py "module"]>
      (<[py "/sdk/Sibling.xcframework/Info.plist" := py "sibling"]>
       (<[py "/sdk/Sibling.xcframework/ios-arm64/Sibling.framework/Info.plist" := py "module"]>
        {[py "/sdk/notes.txt" := []]}))))
    (<[py "/sdk" := [py "MapboxMaps.xcframework"; py "Sibling.xcframework"; py "notes.txt"]]>
     (<[sdk_root := [py "Info.plist"; py "ios-arm64"]]>
      {[sibling_root := [py "Info.plist"; py "ios-arm64"]]}))
    (py "/sdk") [] [] [].

Definition sample_bundle : XCFramework.t := bundle [simulator_library; device_library].

Definition sibling_bundle : XCFramework.t :=
  XCFramework.mk sibling_root (py "Sibling") [Library.mk sibling_library sibling_root].

Definition sibling_module : SDKModule.t :=
  SDKModule.mk (Library.mk sibling_library sibling_root)
    (py "/sdk/Sibling.xcframework/ios-arm64/Sibling.framework") module_plist.

Definition device_module_of (xc : XCFramework.t) : SDKModule.t :=
  if bool_decide (XCFramework.name xc = py "Sibling") then sibling_module else device_module.

Definition after_otool : world :=
  set_fs (w_fs artifacts_world) (add_spawned (SDKModule.otool_command module_exe) artifacts_world).

(** The command the dump runs: the sibling's directory is a search path,
    [Other] has no bundle and [libSystem] is a system library. *)
Definition expected_dump_args : list pystr :=
  dump_arguments (py "/out/MapboxMaps.json") true ++
  [py "-iframework"; py "/sdk/Sibling.xcframework/ios-arm64";
   py "-module"; py "MapboxMaps"; py "-target"; py "arm64-apple-ios11.0";
   py "-iframework"; py "/sdk/MapboxMaps.xcframework/ios-arm64"].

Lemma dump_sdk_command_witness :
  @dump_sdk dump_tools dump_plistlib sample_repr sample_bundle (py "/sdk")
    (py "/out/MapboxMaps.json") true artifacts_world =
  (inr tt, set_fs (w_fs artifacts_world) (add_spawned expected_dump_args after_otool)).
Proof.
  assert (Hargs : dump_command (py "/out/MapboxMaps.json") true [sample_bundle; sibling_bundle]
            device_module_of [py "@rpath/Sibling.framework/Sibling"; py "@rpath/Other.framework/Other"]
            (XCFramework.name sample_bundle) (py "arm64-apple-ios11.0")
            (SDKModule.path device_module)
          = expected_dump_args) by (vm_compute; reflexivity).
  pose proof (@dump_sdk_command dump_tools dump_plistlib sample_repr sample_bundle (py "/sdk")
    (py "/out/MapboxMaps.json") true artifacts_world device_module
    [py "@rpath/Sibling.framework/Sibling"; py "@rpath/Other.framework/Other"] after_otool
    [py "MapboxMaps.xcframework"; py "Sibling.xcframework"; py "notes.txt"]
    [sample_bundle; sibling_bundle] device_module_of (py "arm64-apple-ios11.0") 0 [] []
    (w_fs artifacts_world)) as E.
  cbv zeta in E. rewrite Hargs in E. rewrite E; [reflexivity| | | | | | | |].
  - intros exe w'. cbn. by destruct (bool_decide _).
  - vm_compute. reflexivity.
  - vm_compute. reflexivity.
  - vm_compute. reflexivity.
  - vm_compute. reflexivity.
  - intros xc Hin. apply elem_of_cons in Hin as [->|Hin]; [vm_compute; reflexivity|].
    apply elem_of_cons in Hin as [->|Hin]; [vm_compute; reflexivity|].
    by apply not_elem_of_nil in Hin.
  - vm_compute. reflexivity.
  - vm_compute. reflexivity.
Defined.
