(* ===== verification/Notifier.v ===== *)
(** * [add_comment_to_pr] (lines 46-67)

    [comment_text] renders the report as Markdown. A good report gives a
    one-line approval. A breaking one gives a heading, then per category a
    [####] title and one bullet per finding, in the dict's order.
    [add_comment_to_pr] writes the comment to [comment.txt] in the working
    directory. It asks [gh] to edit the last comment. If that fails and the
    report is breaking, it asks [gh] to create a new comment. Then it
    removes the file. [gh] is reached through the [Toolchain] interface. *)

From S2P Require Import Prelude PyStr PyRuntime Sha1 Report.

Open Scope Z_scope.
Open Scope py_scope.

Module Notifier.

Import BreakageReport.

(** ** Rendering (lines 48-59) *)

(** U+2705 and U+274C, the two emoji of the comment. *)
Definition check_mark : Z := 9989.
Definition cross_mark : Z := 10060.

Definition good_comment : pystr :=
  [10] ++ py "**API compatibility report:** " ++ [check_mark; 10] ++ py "        ".

Definition bad_header : pystr :=
  [10] ++ py "## API compatibility report: " ++ [cross_mark; 10].

(** [comment += f"* `{breakage}`\n"]. *)
Definition render_breakage (b : pystr) : pystr := py "* `" ++ b ++ py "`" ++ [10].

(** [comment += f"#### {category}\n"], then the bullets. *)
Definition render_category (kv : pystr * list pystr) : pystr :=
  py "#### " ++ kv.1 ++ [10] ++ concat (map render_breakage kv.2).

Definition comment_text (r : report) : pystr :=
  if is_good r then good_comment
  else bad_header ++ concat (map render_category (breakage r)).

(** ** Publishing (lines 62-67) *)

Definition comment_path : pystr := py "comment.txt".

Definition gh_edit : list pystr :=
  [py "gh"; py "pr"; py "comment"; py "--edit-last"; py "--body-file"; comment_path].

Definition gh_create : list pystr :=
  [py "gh"; py "pr"; py "comment"; py "--body-file"; comment_path].

Section Publish.
Context `{Toolchain}.

Definition add_comment_to_pr (r : report) : PyM unit :=
  print (py "Commenting on PR") ;;
  write_text comment_path (comment_text r) ;;
  proc <- subprocess_run gh_edit false ;;
  (if negb (returncode proc =? 0) && negb (is_good r)
   then subprocess_run gh_create false ;; ret tt
   else ret tt) ;;
  remove comment_path.

End Publish.

Lemma lg_add_comment_to_pr `{Toolchain} r : log_grows (add_comment_to_pr r).
Proof. unfold add_comment_to_pr. lg_solve. Qed.

#[export] Hint Resolve lg_add_comment_to_pr : loggrows.

(** ** The protocol with [gh] *)

Section GhBehaviour.
Context `{Toolchain}.

(** [gh] completes each of its two commands with a fixed status and output
    and leaves the file system as it was. *)
Variables (rc_edit rc_create : Z) (out_edit err_edit out_create err_create : pystr).
Hypothesis gh_edit_run :
  forall w, run_tool gh_edit w = (Completed rc_edit out_edit err_edit, w_fs w).
Hypothesis gh_create_run :
  forall w, run_tool gh_create w = (Completed rc_create out_create err_create, w_fs w).

(** Whether the script falls back to creating a new comment. *)
Definition falls_back (r : report) : bool := negb (rc_edit =? 0) && negb (is_good r).

Lemma publish_outcome r w :
  exists w', add_comment_to_pr r w = (inr tt, w') /\
    w_spawned w' = w_spawned w ++ gh_edit :: (if falls_back r then [gh_create] else []) /\
    w_fs w' = delete (resolve w comment_path) (w_fs w) /\
    w_cwd w' = w_cwd w.
Proof.
  cbv beta iota zeta delta [add_comment_to_pr bind print modify write_text
    subprocess_run remove ret].
  rewrite gh_edit_run. cbn [returncode]. unfold falls_back.
  destruct (negb (rc_edit =? 0) && negb (is_good r)); [rewrite gh_create_run|];
    cbn -[delete insert lookup resolve]; unfold resolve; cbn [w_cwd add_stdout add_stderr
      add_spawned set_fs w_fs w_spawned];
    rewrite lookup_insert_eq; (eexists; split; [reflexivity|]); cbn;
    (split; [first [done | by rewrite <-app_assoc]
            |split; [by rewrite delete_insert_eq|done]]).
Qed.

(** C12. The edit-then-create protocol. [add_comment_to_pr] always asks
    [gh] to edit the last comment first. It asks [gh] to create a new
    comment only when the edit failed and the report is breaking. A failed
    edit of a passing report posts nothing. No other command is run. *)
Theorem publish_commands r w :
  exists w', add_comment_to_pr r w = (inr tt, w') /\
    w_spawned w' = w_spawned w ++ gh_edit ::
      (if negb (rc_edit =? 0) && negb (is_good r) then [gh_create] else []).
Proof. destruct (publish_outcome r w) as (w' & Hr & Hs & _ & _). eauto. Qed.

(** C13. The comment file is removed, and so is any file of that name
    that was there before. After a successful [add_comment_to_pr] the file
    system is the one before the call with [comment.txt] of the working
    directory deleted. The script writes and then removes a fixed path, so
    a user's own [./comment.txt] is overwritten and lost. *)
Theorem publish_removes_comment_file r w :
  exists w', add_comment_to_pr r w = (inr tt, w') /\
    w_fs w' = delete (resolve w comment_path) (w_fs w) /\
    w_fs w' !! resolve w comment_path = None.
Proof.
  destruct (publish_outcome r w) as (w' & Hr & _ & Hf & _). exists w'.
  split; [done|]. split; [done|]. rewrite Hf. apply lookup_delete_eq.
Qed.

End GhBehaviour.

Section GhMissing.
Context `{Toolchain}.

(** C14. If [gh] cannot be started, the file stays. When launching [gh]
    raises (for instance, [gh] is not installed), the exception propagates
    out of [add_comment_to_pr]. [comment.txt] is left in the working
    directory, holding the comment. The spec says the file is deleted on
    every exit path. *)
Theorem publish_launch_failure_leaks r w e :
  (forall w1, run_tool gh_edit w1 = (LaunchFailed e, w_fs w1)) ->
  exists w', add_comment_to_pr r w = (inl e, w') /\
    w_fs w' !! resolve w comment_path = Some (utf8_encode (comment_text r)).
Proof.
  intros Hrun. cbv beta iota zeta delta [add_comment_to_pr bind print modify write_text
    subprocess_run].
  rewrite Hrun. eexists. split; [reflexivity|].
  unfold resolve. cbn. apply lookup_insert_eq.
Qed.

End GhMissing.

(** ** The rendered bullets *)

Lemma elem_nonempty_blocks n ls bs :
  (n, ls) ∈ bs -> ls <> [] -> (n, ls) ∈ nonempty_blocks bs.
Proof. intros. unfold nonempty_blocks. apply list_elem_of_filter. done. Qed.

(** C15. Bullets break their code span. Take a breaking report parsed
    from well-formed blocks. Each finding [body] appears in the comment as
    [* `body], a line break, then a closing backtick on its own line:
    [__parseReport] keeps the trailing newline of every line, and line 59
    puts it inside the code span. *)
Theorem comment_code_span_broken p w bs r n ls l :
  Forall block_ok bs -> NoDup (map fst bs) ->
  w_fs w !! resolve w p = Some (utf8_encode (report_text bs)) ->
  make p w = (inr r, w) -> is_good r = false ->
  (n, ls) ∈ bs -> l ∈ ls ->
  exists body, l = body ++ [10] /\
    infix_of (py "* `" ++ body ++ [10] ++ py "`" ++ [10]) (comment_text r).
Proof.
  intros Hok Hnd Hf Hmk Hgood Hin Hl.
  destruct (report_of_blocks p bs Hok Hnd) as (r' & Hr' & Hbr).
  rewrite (make_spec _ _ _ Hf), Hr' in Hmk. injection Hmk as <-.
  rewrite Forall_forall in Hok. destruct (Hok _ Hin) as [_ Hls].
  rewrite Forall_forall in Hls. destruct (Hls _ Hl) as ([body [-> _]] & _).
  exists body. split; [done|].
  unfold comment_text. rewrite Hgood, Hbr.
  apply infix_of_app_l.
  apply (infix_of_trans _ (render_category (n, ls))).
  - unfold render_category. cbn [fst snd].
    apply infix_of_app_l, infix_of_app_l, infix_of_app_l.
    apply (infix_of_trans _ (render_breakage (body ++ [10]))).
    + unfold render_breakage. rewrite <-!app_assoc. apply infix_of_refl.
    + apply infix_concat_map. done.
  - apply infix_concat_map, elem_nonempty_blocks; [done|]. intros ->. set_solver.
Qed.

End Notifier.

(** ** Witnesses *)

Import BreakageReport Notifier.

(** A [gh] whose edit command (six arguments) exits with [rc_edit] and
    whose create command exits with [rc_create]; neither touches files. *)
Definition fake_gh (rc_edit rc_create : Z) : Toolchain :=
  {| run_tool := fun argv w =>
       if (length argv =? 6)%nat then (Completed rc_edit [] [], w_fs w)
       else (Completed rc_create [] [], w_fs w) |}.

(** A machine without [gh]. *)
Definition no_gh : Toolchain :=
  {| run_tool := fun _ w => (LaunchFailed (FileNotFoundError (py "gh")), w_fs w) |}.

Definition notifier_world : world :=
  mkWorld {[ py "/w/comment.txt" := py "my notes" ]} ∅ (py "/w") [] [] [].

Lemma publish_commands_witness :
  exists w', @add_comment_to_pr (fake_gh 1 0) sample_report notifier_world = (inr tt, w') /\
    w_spawned w' = w_spawned notifier_world ++ gh_edit ::
      (if negb (1 =? 0) && negb (is_good sample_report) then [gh_create] else []).
Proof.
  apply (@publish_commands (fake_gh 1 0) 1 0 [] [] [] []); intros; reflexivity.
Defined.

Lemma publish_removes_comment_file_witness :
  exists w', @add_comment_to_pr (fake_gh 0 0) sample_report notifier_world = (inr tt, w') /\
    w_fs w' = delete (resolve notifier_world comment_path) (w_fs notifier_world) /\
    w_fs w' !! resolve notifier_world comment_path = None.
Proof.
  apply (@publish_removes_comment_file (fake_gh 0 0) 0 0 [] [] [] []); intros; reflexivity.
Defined.

Lemma publish_launch_failure_leaks_witness :
  exists w', @add_comment_to_pr no_gh sample_report notifier_world
               = (inl (FileNotFoundError (py "gh")), w') /\
    w_fs w' !! resolve notifier_world comment_path
      = Some (utf8_encode (comment_text sample_report)).
Proof. apply (@publish_launch_failure_leaks no_gh). intros; reflexivity. Defined.

Lemma comment_code_span_broken_witness :
  exists body, py "Func foo() has been removed" ++ [10] = body ++ [10] /\
    infix_of (py "* `" ++ body ++ [10] ++ py "`" ++ [10]) (comment_text sample_report).
Proof.
  apply (comment_code_span_broken (py "/r") (demo_world sample_bytes) sample_blocks
           sample_report (py "Removed Decls") [py "Func foo() has been removed" ++ [10]]).
  - apply Forall_forall. intros b Hb. apply block_okb_sound.
    revert b Hb. apply Forall_forall, forallb_Forall. vm_compute. reflexivity.
  - decide_lit.
  - vm_compute. reflexivity.
  - rewrite (make_spec _ _ sample_bytes); [|vm_compute; reflexivity].
    by rewrite report_of_sample.
  - vm_compute. reflexivity.
  - decide_lit.
  - decide_lit.
Defined.
