(* ===== verification/CheckApi.v ===== *)
(** * [check_api_breaking_changes] (lines 28-43)

    The [check-api] command:
    1. compare the two dumps with the digester;
    2. optionally publish the summary on the pull request;
    3. when the report is breaking, print a banner and the whole report
       file on stderr, then [exit(1)].
    [exit_status] is the status the Python process ends with: 0 on normal
    return, the code of [SystemExit], and 1 for any other uncaught
    exception. *)

From S2P Require Import Prelude PyStr PyRuntime Sha1 Report Digester Notifier.

Open Scope Z_scope.
Open Scope py_scope.

Module CheckApi.

Import BreakageReport APIDigester Notifier.

(** The 38 ['='] of the banner's rules. *)
Definition rule : pystr := repeat 61 38.

(** The f-string of lines 37-42, before [print] adds its newline. *)
Definition error_banner (name report : pystr) : pystr :=
  [10] ++ rule ++ [10] ++ py "ERROR: API breakage detected in " ++ name ++ [10] ++
  rule ++ [10] ++ report ++ [10] ++ py "        ".

Section Check.
Context `{Toolchain}.

Definition check_api_breaking_changes (baseline_dump_path latest_dump_path : pystr)
    (breakage_allow_list_path : option pystr) (report_path : pystr)
    (should_comment_pr : bool) : PyM unit :=
  report <- compare baseline_dump_path latest_dump_path report_path breakage_allow_list_path ;;
  (if should_comment_pr then add_comment_to_pr report else ret tt) ;;
  if negb (is_good report) then
    txt <- read_text report_path ;;
    print_err (error_banner (basename latest_dump_path) txt) ;;
    sys_exit 1
  else ret tt.

End Check.

(** The exit status of the interpreter for the outcome of the script. *)
Definition exit_status (res : exc + unit) : Z :=
  match res with
  | inr _ => 0
  | inl (SystemExit code) => code
  | inl _ => 1
  end.

(** ** Theorems *)

Lemma report_text_of p bs r :
  report_of_bytes p bs = inr r -> exists t, PyStr.read_text bs = Some t.
Proof. unfold report_of_bytes. destruct (PyStr.read_text bs); [eauto|done]. Qed.

Section CheckTheorems.
Context `{Toolchain}.

(** The tail of [check_api_breaking_changes] once the report is known. *)
Lemma verdict_tail r o l w bs t :
  w_fs w !! resolve w o = Some bs -> PyStr.read_text bs = Some t ->
  (if negb (is_good r) then
     txt <- read_text o ;; print_err (error_banner (basename l) txt) ;; sys_exit 1
   else ret tt) w =
  if is_good r then (inr tt, w)
  else (inl (SystemExit 1), add_stderr (error_banner (basename l) t ++ [10]) w).
Proof.
  intros Hf Ht. destruct (is_good r); [done|]. simpl.
  unfold bind at 1. rewrite (read_text_run _ _ _ _ Hf Ht). done.
Qed.

(** C16. The exit status is the verdict. Suppose the digester succeeds
    and the report file it wrote parses to [r], and no comment is asked
    for. Then [check-api] exits with status 0 when [r] is good and 1
    otherwise. In the breaking case the last thing written to stderr is
    the banner naming the latest dump, followed by the whole report
    file. *)
Theorem check_api_exit_status b l a o w out err fs bs r :
  run_tool (compare_arguments b l o a) (add_spawned (compare_arguments b l o a) w)
    = (Completed 0 out err, fs) ->
  fs !! resolve w o = Some bs ->
  report_of_bytes o bs = inr r ->
  exists res w', check_api_breaking_changes b l a o false w = (res, w') /\
    exit_status res = (if is_good r then 0 else 1) /\
    (is_good r = false -> exists t, PyStr.read_text bs = Some t /\
       last (w_stderr w') = Some (error_banner (basename l) t ++ [10])).
Proof.
  intros Hrun Hf Hr. destruct (report_text_of _ _ _ Hr) as [t Ht].
  unfold check_api_breaking_changes. unfold bind at 1.
  rewrite (compare_completed_ok _ _ _ _ _ _ _ _ _ Hrun Hf), Hr.
  unfold bind at 1. cbv beta iota zeta delta [ret].
  rewrite (verdict_tail r o l _ bs t); [|by autorewrite with apichk_rw|done].
  destruct (is_good r); do 2 eexists; (split; [reflexivity|]); split; try done.
  intros _. exists t. split; [done|]. simpl. by rewrite last_snoc.
Qed.

(** C17. Identical dumps pass (spec section 8, end to end). When the
    digester meets its contract, [check-api] on two identical dumps with
    no allow-list and no comment returns normally (exit status 0). The
    report file it leaves is the canonical empty report, whose
    fingerprint is [empty_report_hashsum]. *)
Theorem check_api_identical `{!DigesterContract} b o w :
  exists w', check_api_breaking_changes b b None o false w = (inr tt, w') /\
    w_fs w' !! resolve w o = Some empty_report_bytes /\
    Sha1.sha1_hex empty_report_bytes = empty_report_hashsum.
Proof.
  unfold check_api_breaking_changes. unfold bind at 1.
  rewrite (compare_completed_ok _ _ _ _ _ [] [] _ empty_report_bytes (digester_identical _ _ _)).
  2: { autorewrite with apichk_rw. apply lookup_insert_eq. }
  rewrite report_of_empty_report. simpl. eexists. split; [reflexivity|].
  split; [by autorewrite with apichk_rw; apply lookup_insert_eq|].
  vm_compute. reflexivity.
Qed.

(** C18. A breaking change with [--comment-pr] (spec section 8, end to
    end). The digester reports a breaking change, and editing the last PR
    comment fails. [check-api] then:
    - runs the digester, then [gh pr comment --edit-last], then
      [gh pr comment], in this order and nothing else;
    - prints the banner and the report on stderr;
    - exits with status 1.
    The report path must differ from [comment.txt], which the notifier
    deletes. *)
Theorem check_api_breaking_with_comment b l a o w out err fs bs r
    rc_edit rc_create out_edit err_edit out_create err_create :
  run_tool (compare_arguments b l o a) (add_spawned (compare_arguments b l o a) w)
    = (Completed 0 out err, fs) ->
  fs !! resolve w o = Some bs ->
  report_of_bytes o bs = inr r -> is_good r = false ->
  (forall w1, run_tool gh_edit w1 = (Completed rc_edit out_edit err_edit, w_fs w1)) ->
  (forall w1, run_tool gh_create w1 = (Completed rc_create out_create err_create, w_fs w1)) ->
  rc_edit <> 0 -> resolve w o <> resolve w comment_path ->
  exists w', check_api_breaking_changes b l a o true w = (inl (SystemExit 1), w') /\
    w_spawned w' = w_spawned w ++ [compare_arguments b l o a; gh_edit; gh_create] /\
    exists t, PyStr.read_text bs = Some t /\
      last (w_stderr w') = Some (error_banner (basename l) t ++ [10]).
Proof.
  intros Hrun Hf Hr Hbad Hedit Hcreate Hrc Hkey.
  destruct (report_text_of _ _ _ Hr) as [t Ht].
  unfold check_api_breaking_changes. unfold bind at 1.
  rewrite (compare_completed_ok _ _ _ _ _ _ _ _ _ Hrun Hf), Hr.
  unfold bind at 1.
  destruct (publish_outcome rc_edit rc_create out_edit err_edit out_create err_create
              Hedit Hcreate r (set_fs fs (add_spawned (compare_arguments b l o a) w)))
    as (w2 & Hpub & Hsp & Hfs & Hcwd).
  rewrite Hpub. unfold falls_back in Hsp. rewrite Hbad, (proj2 (Z.eqb_neq _ _) Hrc) in Hsp.
  assert (Ho : w_fs w2 !! resolve w2 o = Some bs).
  { assert (Hr2 : forall p, resolve w2 p = resolve w p) by (intros; by apply resolve_cwd).
    rewrite Hfs, Hr2. autorewrite with apichk_rw.
    rewrite lookup_delete_ne; [done|]. by intros E; apply Hkey. }
  rewrite (verdict_tail r o l w2 bs t Ho Ht), Hbad.
  eexists. split; [reflexivity|]. split.
  + cbn. rewrite Hsp. cbn. by rewrite <-app_assoc.
  + exists t. split; [done|]. cbn. by rewrite last_snoc.
Qed.

(** The digester is the first command [check-api] runs, and every later
    step keeps the log. *)
Lemma check_api_spawns_first b l a o c :
  spawns_first (compare_arguments b l o a) (check_api_breaking_changes b l a o c).
Proof.
  unfold check_api_breaking_changes. apply spawns_first_bind.
  - unfold compare. apply spawns_first_bind; [apply spawns_first_run|]. lg_solve.
  - unfold sys_exit. lg_solve.
Qed.

(** C34. A failing digester ends [check-api]. When the digester exits
    with a non-zero status, [check-api] prints the tool's stderr on stdout
    and raises "swift-api-digester failed", so the process exits with status
    1. No report is read and, even with [--comment-pr], nothing is posted:
    the digester is the only command run. *)
Theorem check_api_tool_failure b l a o c w rc out err fs :
  run_tool (compare_arguments b l o a) (add_spawned (compare_arguments b l o a) w)
    = (Completed rc out err, fs) ->
  rc <> 0 ->
  check_api_breaking_changes b l a o c w =
    (inl digester_failed,
     add_stdout (err ++ [10]) (set_fs fs (add_spawned (compare_arguments b l o a) w))) /\
  exit_status (inl digester_failed) = 1.
Proof.
  intros Hrun Hrc. split; [|done]. unfold check_api_breaking_changes, bind at 1.
  rewrite compare_step. cbn zeta. rewrite Hrun.
  by rewrite (proj2 (Z.eqb_neq rc 0) Hrc).
Qed.

End CheckTheorems.

End CheckApi.

(** ** Witnesses *)

Import BreakageReport APIDigester Notifier CheckApi.

(** The sample report of [Report], as written to [/out]. *)
Definition out_report : report :=
  Eval vm_compute in
  match report_of_bytes (py "/out") sample_bytes with
  | inr r => r
  | inl _ => canonical_report []
  end.

Lemma report_of_out : report_of_bytes (py "/out") sample_bytes = inr out_report.
Proof. vm_compute. reflexivity. Qed.

(** A digester that honours its contract: it writes the canonical empty
    report to the path after [-o]. *)
Definition honest_digester : Toolchain :=
  {| run_tool := fun argv w =>
       (Completed 0 [] [], <[resolve w (nth 6 argv []) := empty_report_bytes]> (w_fs w)) |}.

#[local] Instance honest_digester_contract : @DigesterContract honest_digester.
Proof. constructor. intros w b o. reflexivity. Qed.

(** A CI machine: [gh pr comment --edit-last] fails, [gh pr comment]
    succeeds, and the digester writes [bs] to [/out]. *)
Definition ci_tools (bs : pybytes) : Toolchain :=
  {| run_tool := fun argv w =>
       if (length argv =? 6)%nat then (Completed 1 [] [], w_fs w)
       else if (length argv =? 5)%nat then (Completed 0 [] [], w_fs w)
       else (Completed 0 [] [], <[py "/out" := bs]> (w_fs w)) |}.

Lemma check_api_exit_status_witness :
  exists res w', @check_api_breaking_changes (fake_digester 0 sample_bytes)
      (py "old.json") (py "new.json") None (py "/out") false digester_world = (res, w') /\
    exit_status res = (if is_good out_report then 0 else 1) /\
    (is_good out_report = false -> exists t, PyStr.read_text sample_bytes = Some t /\
       last (w_stderr w') = Some (error_banner (basename (py "new.json")) t ++ [10])).
Proof.
  apply (@check_api_exit_status (fake_digester 0 sample_bytes) _ _ _ _ _ [] (py "boom")
           {[py "/out" := sample_bytes]}).
  - reflexivity.
  - vm_compute. reflexivity.
  - apply report_of_out.
Defined.

Lemma check_api_identical_witness :
  exists w', @check_api_breaking_changes honest_digester (py "v1.json") (py "v1.json") None
      (py "/out") false digester_world = (inr tt, w') /\
    w_fs w' !! resolve digester_world (py "/out") = Some empty_report_bytes /\
    Sha1.sha1_hex empty_report_bytes = empty_report_hashsum.
Proof. apply (@check_api_identical honest_digester honest_digester_contract). Defined.

Lemma check_api_breaking_with_comment_witness :
  exists w', @check_api_breaking_changes (ci_tools sample_bytes) (py "old.json") (py "new.json")
      None (py "/out") true digester_world = (inl (SystemExit 1), w') /\
    w_spawned w' = w_spawned digester_world ++
      [compare_arguments (py "old.json") (py "new.json") (py "/out") None; gh_edit; gh_create] /\
    exists t, PyStr.read_text sample_bytes = Some t /\
      last (w_stderr w') = Some (error_banner (basename (py "new.json")) t ++ [10]).
Proof.
  apply (@check_api_breaking_with_comment (ci_tools sample_bytes) _ _ _ _ _ [] [] 
           {[py "/out" := sample_bytes]} sample_bytes out_report 1 0 [] [] [] []).
  - reflexivity.
  - vm_compute. reflexivity.
  - apply report_of_out.
  - vm_compute. reflexivity.
  - intros; reflexivity.
  - intros; reflexivity.
  - lia.
  - vm_compute. discriminate.
Defined.

Lemma check_api_tool_failure_witness :
  @check_api_breaking_changes (fake_digester 2 sample_bytes)
      (py "old.json") (py "new.json") None (py "/out") true digester_world =
    (inl digester_failed,
     add_stdout (py "boom" ++ [10])
       (set_fs {[py "/out" := sample_bytes]}
          (add_spawned (compare_arguments (py "old.json") (py "new.json") (py "/out") None)
             digester_world))) /\
  exit_status (inl digester_failed) = 1.
Proof.
  apply (@check_api_tool_failure (fake_digester 2 sample_bytes) _ _ _ _ _ _ 2 [] (py "boom")).
  - reflexivity.
  - lia.
Defined.
