(* ===== verification/ExitStatus.v ===== *)
(** * Which exit statuses the components can cause

    [exits_in ok m] (in [PyRuntime]) says that every [SystemExit] escaping
    [m] carries a code with [ok]. The script has one [exit] call of its own,
    [exit(1)] at line 43; every other exception it raises ([Exception],
    [KeyError], [IndexError], [TypeError], [UnboundLocalError],
    [FileNotFoundError], ...) ends the process with status 1 through the
    interpreter, not through [SystemExit].

    This file proves, component by component, that the bundle locator, the
    dependency resolver, the report engine, both digester calls and the
    notifier let no [SystemExit] escape, and that [check-api] lets out only
    [SystemExit 1]. The only assumption is on the toolchain: a program that
    cannot be started makes [subprocess.run] raise an [OSError]
    ([launches_cleanly]). The lemmas feed the [exits] hint database; the
    whole script is in [Cli]. *)

From S2P Require Import Prelude PyStr PyRuntime PyPath XCFramework Sha1 Report Digester Notifier CheckApi.

Open Scope Z_scope.
Open Scope py_scope.

Module ExitStatus.

Import BreakageReport APIDigester Notifier CheckApi.

(** [__parseReport] raises only [UnboundLocalError]. *)
Lemma parse_lines_error st lines e :
  parse_lines st lines = inl e -> e = UnboundLocalError (py "category").
Proof.
  revert st. induction lines as [|l lines IH]; intros [cat br]; cbn [parse_lines]; [done|].
  destruct (parse_line (cat, br) l) as [e'|st'] eqn:E; [|apply IH].
  intros [= <-]. unfold parse_line in E. by repeat case_match; simplify_eq.
Qed.

Section Components.
Context `{Toolchain} `{PlistLib} `{PyRepr} (Hl : launches_cleanly) (ok : Z -> Prop).

Lemma ei_getitem v k : exits_in ok (getitem v k).
Proof. unfold getitem. ei_solve. Qed.
Lemma ei_getitem0 v : exits_in ok (getitem0 v).
Proof. unfold getitem0. ei_solve. Qed.
Lemma ei_join_values root vs : exits_in ok (join_values root vs).
Proof. unfold join_values. ei_solve. Qed.

Hint Resolve ei_getitem ei_getitem0 ei_join_values : exits.

Lemma ei_module_init root l : exits_in ok (SDKModule.init root l).
Proof.
  unfold SDKModule.init, SDKModule.parse_info_plist, Library.libraryIdentifier, Library.path.
  ei_solve.
Qed.

Lemma ei_triplet_target m : exits_in ok (SDKModule.triplet_target m).
Proof.
  unfold SDKModule.triplet_target, SDKModule.minimum_os_version,
    Library.supported_architectures, Library.supported_platform. ei_solve.
Qed.

Lemma ei_list_dependencies m : exits_in ok (SDKModule.list_dependencies m).
Proof.
  unfold SDKModule.list_dependencies, SDKModule.list_all_dependencies, SDKModule.executable,
    SDKModule.executable_path, SDKModule.first_word. ei_solve.
Qed.

Lemma ei_framework_init p : exits_in ok (XCFramework.init p).
Proof. unfold XCFramework.init, XCFramework.parse_libraries. ei_solve. Qed.

Lemma ei_iOSDeviceModule x : exits_in ok (XCFramework.iOSDeviceModule x).
Proof.
  unfold XCFramework.iOSDeviceModule, XCFramework.is_ios_device, Library.is_ios,
    Library.supported_platform.
  ei_solve.
Qed.

Hint Resolve ei_module_init ei_triplet_target ei_list_dependencies ei_framework_init
  ei_iOSDeviceModule : exits.

Lemma ei_make p : exits_in ok (make p).
Proof.
  unfold make, parseReport, read_lines, read_text, hashsum_m. ei_solve.
  apply ei_raise. intros c ->. unfold parse in *.
  destruct (parse_lines _ _) as [e|[??]] eqn:E; simplify_eq.
  by apply parse_lines_error in E.
Qed.

Hint Resolve ei_make : exits.

Lemma ei_compare b c o a : exits_in ok (compare b c o a).
Proof. unfold compare. ei_solve. Qed.

Lemma ei_build_arguments x dp args : exits_in ok (build_arguments x dp args).
Proof.
  unfold build_arguments, append_dependencies, append_dependency, is_framework_dir,
    append_module.
  ei_solve.
Qed.

Hint Resolve ei_build_arguments : exits.

Lemma ei_dump_sdk x dp o abi : exits_in ok (APIDigester.dump_sdk x dp o abi).
Proof. unfold APIDigester.dump_sdk. ei_solve. Qed.

Lemma ei_add_comment_to_pr r : exits_in ok (add_comment_to_pr r).
Proof. unfold add_comment_to_pr. ei_solve. Qed.

Hint Resolve ei_compare ei_add_comment_to_pr ei_dump_sdk : exits.

(** [check-api] raises [SystemExit] only through its own [exit(1)]. *)
Lemma ei_check_api b l a o c :
  ok 1 -> exits_in ok (check_api_breaking_changes b l a o c).
Proof.
  intros Hok. unfold check_api_breaking_changes, read_text, sys_exit.
  ei_solve.
  apply ei_raise. by intros ? [= <-].
Qed.

End Components.

#[export] Hint Resolve ei_getitem ei_getitem0 ei_join_values ei_module_init ei_triplet_target
  ei_list_dependencies ei_framework_init ei_iOSDeviceModule ei_make ei_compare
  ei_add_comment_to_pr ei_build_arguments ei_dump_sdk ei_check_api : exits.

(** The status of a process whose only [SystemExit] is [exit(1)]. *)
Lemma exit_status_exits (m : PyM unit) w :
  exits_in (eq 1) m -> exit_status (m w).1 = 0 \/ exit_status (m w).1 = 1.
Proof.
  intros [Hm]. destruct (m w) as [[e|[]] w'] eqn:E; cbn; [|by left].
  destruct e; try by right. right. symmetry. apply (Hm w). by rewrite E.
Qed.

End ExitStatus.
