(* ===== verification/Argparse.v ===== *)
(** * [argparse] (CPython 3.11), the library [main] parses with

    The library's parse algorithm, transcribed from [argparse.py] of CPython
    3.11 for the kinds of argument the script declares: [_parse_optional]
    and [_get_option_tuples] (abbreviations, [--option=value], [-ovalue],
    negative numbers), the loop of [_parse_known_args] with
    [consume_optional] and [consume_positionals], [_get_values] (which
    drops the first ['--'] of an argument's strings, so that ['--'] alone
    becomes an empty list), the actions [store], [BooleanOptionalAction],
    [help] and [_SubParsersAction], and [parse_known_args]. The namespace
    holds the attributes the actions set; defaults and [type] conversions
    are left to the caller. The help and usage texts come from the
    library's formatter: they are the interface [ArgparseText], with the
    messages of [parser.error] built from them.

    The lemmas are those of any parser: classifying a command line piece by
    piece, consuming options that take only their own string, the
    namespace only gaining keys ([consume_keeps]), and the fuel of the loop
    being enough ([consume_fuel]). The parsers of the script are in
    CliParser.v. *)

From S2P Require Import Prelude PyStr PyPath.

Open Scope Z_scope.

Module Argparse.

(** ** Data *)

(** The actions the script uses. [Store] is the default action.
    [BooleanOptional] is [argparse.BooleanOptionalAction]. [HelpAction] is
    the [-h]/[--help] of every parser. *)
Inductive kind := Store | BooleanOptional | HelpAction.

(** An optional argument: its option strings in declaration order, its
    [dest] and its action. *)
Record optional := Optional { option_strings : list pystr; dest : pystr; kind_of : kind }.

(** A positional argument. [Single] takes one string ([nargs=None]).
    [Subcommand] is the sub-parser action ([nargs=PARSER]): it takes the
    sub-command's name and every string after it. *)
Inductive positional :=
| Single (dest metavar : pystr)
| Subcommand (dest : pystr) (choices : list pystr).

Inductive parser_id := MainParser | DumpParser | CheckApiParser.

Record parser := Parser {
  id : parser_id;
  optionals : list optional;
  positionals : list positional
}.

(** The value of an attribute. [_get_values] makes a list out of zero
    strings. *)
Inductive value := VStr (s : pystr) | VBool (b : bool) | VList (l : list pystr).

Abbreviation namespace := (gmap pystr value).

(** The errors of [parser.error] and [ArgumentError], with their data. *)
Inductive arg_error :=
| Ambiguous (arg : pystr) (matches : list pystr)
| ExpectedOne (name : pystr)
| IgnoredExplicit (name : pystr) (arg : pystr)
| InvalidChoice (name : pystr) (value : pystr) (choices : list pystr)
| Required (names : list pystr)
| Unrecognized (args : list pystr).

(** What a parse ends with: [print_help(); exit(0)], [error(msg)]
    ([exit(2)]), or the namespace and the strings no action took. *)
Inductive outcome :=
| Help (p : parser_id)
| Error (p : parser_id) (e : arg_error)
| Parsed (ns : namespace) (extras : list pystr).

(** The pattern letter of an argument string ([arg_strings_pattern]).
    ['-'] is the first ['--']. ['A'] is an argument. ['O'] is an option
    string, with the action it names (none for an option this parser does
    not know) and its explicit argument. *)
Inductive tok :=
| TSep
| TArg
| TOpt (a : option optional) (option_string : pystr) (explicit : option pystr).

(** ** String helpers *)

Definition dash : Z := 45.

(** [s.split(c, 1)] when [c] occurs in [s]. *)
Fixpoint split_once (c : Z) (s : pystr) : option (pystr * pystr) :=
  match s with
  | [] => None
  | d :: s' =>
    if d =? c then Some ([], s')
    else match split_once c s' with
         | Some (a, b) => Some (d :: a, b)
         | None => None
         end
  end.

(** [l.remove(x)] that ignores the [ValueError] when [x] is absent. *)
Fixpoint remove_first (x : pystr) (l : list pystr) : list pystr :=
  match l with
  | [] => []
  | y :: l' => if bool_decide (y = x) then l' else y :: remove_first x l'
  end.

(** The longest prefix whose elements satisfy [f], and the rest. *)
Fixpoint span {A} (f : A -> bool) (l : list A) : list A * list A :=
  match l with
  | [] => ([], [])
  | x :: l' => if f x then let '(a, b) := span f l' in (x :: a, b) else ([], l)
  end.

(** The code points [\d] matches in a [str] pattern: Unicode category Nd,
    as in the database of CPython 3.11. *)
Definition decimal_ranges : list (Z * Z) :=
  [(48, 57); (1632, 1641); (1776, 1785); (1984, 1993); (2406, 2415); (2534, 2543);
   (2662, 2671); (2790, 2799); (2918, 2927); (3046, 3055); (3174, 3183); (3302, 3311);
   (3430, 3439); (3558, 3567); (3664, 3673); (3792, 3801); (3872, 3881); (4160, 4169);
   (4240, 4249); (6112, 6121); (6160, 6169); (6470, 6479); (6608, 6617); (6784, 6793);
   (6800, 6809); (6992, 7001); (7088, 7097); (7232, 7241); (7248, 7257); (42528, 42537);
   (43216, 43225); (43264, 43273); (43472, 43481); (43504, 43513); (43600, 43609);
   (44016, 44025); (65296, 65305); (66720, 66729); (68912, 68921); (69734, 69743);
   (69872, 69881); (69942, 69951); (70096, 70105); (70384, 70393); (70736, 70745);
   (70864, 70873); (71248, 71257); (71360, 71369); (71472, 71481); (71904, 71913);
   (72016, 72025); (72784, 72793); (73040, 73049); (73120, 73129); (92768, 92777);
   (92864, 92873); (93008, 93017); (120782, 120831); (123200, 123209); (123632, 123641);
   (125264, 125273); (130032, 130041)].

Definition is_decimal (c : Z) : bool :=
  existsb (fun '(lo, hi) => (lo <=? c) && (c <=? hi)) decimal_ranges.

Definition digits (r : pystr) : bool := forallb is_decimal r.

(** The body of [-\d+] or [-\d*\.\d+] after the dash. *)
Definition number_body (r : pystr) : bool :=
  (digits r && truthy r) ||
  match split_once 46 r with
  | Some (a, b) => digits a && digits b && truthy b
  | None => false
  end.

(** [_negative_number_matcher.match(s)], the pattern
    [^-\d+$|^-\d*\.\d+$]. [$] also matches before a final newline. *)
Definition negative_number (s : pystr) : bool :=
  match s with
  | c :: r =>
    (c =? dash) &&
    (number_body r ||
     match last r with
     | Some n => (n =? 10) && number_body (removelast r)
     | None => false
     end)
  | [] => false
  end.

(** An action call of [consume_optional]: the action, its strings and the
    option string used. *)
Abbreviation call := (optional * list pystr * pystr)%type.

(** ** One parser *)

Section Parser.
Variable P : parser.

(** [self._option_string_actions], in the order the strings were added. *)
Definition option_string_actions : list (pystr * optional) :=
  flat_map (fun a => map (fun s => (s, a)) (option_strings a)) (optionals P).

Definition lookup_action (s : pystr) : option optional :=
  snd <$> List.find (fun p => bool_decide (p.1 = s)) option_string_actions.

Definition has_negative_number_optionals : bool :=
  existsb (fun p => negative_number p.1) option_string_actions.

(** [_get_option_tuples]: the options an abbreviation can stand for. It is
    called on strings of at least two characters starting with a dash. A
    string with two dashes matches the options it is a prefix of, up to its
    first [=]. A string with one dash matches the option of its first two
    characters, with the rest as explicit argument, and the options it is
    a prefix of. *)
Definition option_tuples (s : pystr) : list (optional * pystr * option pystr) :=
  match s with
  | c1 :: c2 :: _ =>
    if (c1 =? dash) && (c2 =? dash) then
      let '(prefix, explicit) :=
        match split_once 61 s with
        | Some (a, b) => (a, Some b)
        | None => (s, None)
        end in
      omap (fun '(os, a) => if startswith os prefix then Some (a, os, explicit) else None)
        option_string_actions
    else if c1 =? dash then
      omap (fun '(os, a) =>
              if bool_decide (os = take 2 s) then Some (a, os, Some (drop 2 s))
              else if startswith os s then Some (a, os, None)
              else None)
        option_string_actions
    else []
  | _ => []
  end.

(** [_parse_optional]: the pattern letter of one argument string. An
    ambiguous abbreviation is an error at once. *)
Definition parse_optional (s : pystr) : arg_error + tok :=
  match s with
  | [] => inr TArg
  | c :: rest =>
    if negb (c =? dash) then inr TArg else
    match lookup_action s with
    | Some a => inr (TOpt (Some a) s None)
    | None =>
      if negb (truthy rest) then inr TArg else
      let found :=
        match split_once 61 s with
        | Some (os, ex) => (fun a => (a, os, ex)) <$> lookup_action os
        | None => None
        end in
      match found with
      | Some (a, os, ex) => inr (TOpt (Some a) os (Some ex))
      | None =>
        match option_tuples s with
        | [(a, os, ex)] => inr (TOpt (Some a) os ex)
        | (_ :: _ :: _) as ts => inl (Ambiguous s (map (fun '(_, os, _) => os) ts))
        | [] =>
          if negative_number s && negb has_negative_number_optionals then inr TArg
          else if existsb (Z.eqb 32) s then inr TArg
          else inr (TOpt None s None)
        end
      end
    end
  end.

(** The loop that builds [arg_strings_pattern]: every string after the
    first ['--'] is an argument. *)
Fixpoint classify (args : list pystr) : arg_error + list (pystr * tok) :=
  match args with
  | [] => inr []
  | s :: rest =>
    if bool_decide (s = py "--") then inr ((s, TSep) :: map (fun s' => (s', TArg)) rest)
    else match parse_optional s with
         | inl e => inl e
         | inr t =>
           match classify rest with
           | inl e => inl e
           | inr ts => inr ((s, t) :: ts)
           end
         end
  end.

Definition is_sep (t : pystr * tok) : bool := match t.2 with TSep => true | _ => false end.
Definition is_opt (t : pystr * tok) : bool := match t.2 with TOpt _ _ _ => true | _ => false end.

(** [re.match] of one positional's [nargs] pattern at the head of the
    remaining pattern: [-*A-*] for [Single], [-*A[-AO]*] for [Subcommand],
    each in one group. It returns the strings matched and the rest. *)
Definition match_positional (p : positional) (ts : list (pystr * tok))
    : option (list pystr * list (pystr * tok)) :=
  let '(d1, r1) := span is_sep ts in
  match r1 with
  | (s, TArg) :: r2 =>
    match p with
    | Single _ _ => let '(d2, r3) := span is_sep r2 in Some (map fst d1 ++ [s] ++ map fst d2, r3)
    | Subcommand _ _ => Some (map fst ts, [])
    end
  | _ => None
  end.

(** [_match_arguments_partial]: as many positionals as match, in order.
    Matching them one after the other, each as long as it can, gives the
    match of the concatenated pattern for the lists this program has
    (single-string positionals, or the sub-parser action alone). *)
Fixpoint match_partial (pos : list positional) (ts : list (pystr * tok))
    : list (positional * list pystr) * list positional * list (pystr * tok) :=
  match pos with
  | [] => ([], [], ts)
  | p :: pos' =>
    match match_positional p ts with
    | Some (strs, ts') =>
      let '(ms, rest, ts'') := match_partial pos' ts' in ((p, strs) :: ms, rest, ts'')
    | None => ([], pos, ts)
    end
  end.

(** [_get_values] for [nargs=None]: the first ['--'] is removed, then one
    string is the value and any other number of strings a list. *)
Definition store_value (strs : list pystr) : value :=
  match remove_first (py "--") strs with
  | [v] => VStr v
  | l => VList l
  end.

(** [_get_action_name] of an optional. *)
Definition action_name (a : optional) : pystr := join_with (py "/") (option_strings a).

Definition nargs (a : optional) : nat := match kind_of a with Store => 1 | _ => 0 end.

(** [consume_optional] with no explicit argument: a [store] takes the next
    string when it is an argument. *)
Definition no_explicit (a : optional) (os : pystr) (rest : list (pystr * tok))
    : arg_error + (list call * list (pystr * tok)) :=
  match nargs a, rest with
  | O, _ => inr ([(a, [], os)], rest)
  | _, (s, TArg) :: rest' => inr ([(a, [s], os)], rest')
  | _, _ => inl (ExpectedOne (action_name a))
  end.

(** [consume_optional] with an explicit argument [e]. A single-dash flag
    ([-hx]) reads the next character as another single-dash option. *)
Fixpoint explicit_chain (a : optional) (os e : pystr) (rest : list (pystr * tok)) {struct e}
    : arg_error + (list call * list (pystr * tok)) :=
  let single := if (nargs a =? 1)%nat then inr ([(a, [e], os)], rest)
                else inl (IgnoredExplicit (action_name a) e) in
  match e with
  | c :: e' =>
    if (nargs a =? 0)%nat && negb (bool_decide (os !! 1%nat = Some dash)) then
      let os' := take 1 os ++ [c] in
      match lookup_action os' with
      | Some a' =>
        match (match e' with
               | [] => no_explicit a' os' rest
               | _ => explicit_chain a' os' e' rest
               end) with
        | inr (calls, rest') => inr ((a, [], os) :: calls, rest')
        | inl err => inl err
        end
      | None => inl (IgnoredExplicit (action_name a) e)
      end
    else single
  | [] => single
  end.

Definition consume_optional (a : optional) (os : pystr) (ex : option pystr)
    (rest : list (pystr * tok)) : arg_error + (list call * list (pystr * tok)) :=
  match ex with
  | Some e => explicit_chain a os e rest
  | None => no_explicit a os rest
  end.

(** [take_action] of an optional; [None] is [help], which exits. *)
Definition take_optional (ns : namespace) (c : call) : option namespace :=
  let '(a, strs, os) := c in
  match kind_of a with
  | Store => Some (<[dest a := store_value strs]> ns)
  | BooleanOptional => Some (<[dest a := VBool (negb (startswith os (py "--no-")))]> ns)
  | HelpAction => None
  end.

Fixpoint take_optionals (ns : namespace) (calls : list call) : option namespace :=
  match calls with
  | [] => Some ns
  | c :: calls' => ns' ← take_optional ns c; take_optionals ns' calls'
  end.

(** The metavars of the positionals never matched: the required actions
    not seen. The sub-parser action is not required. *)
Definition required_names (pos : list positional) : list pystr :=
  omap (fun p => match p with Single _ m => Some m | Subcommand _ _ => None end) pos.

(** The state of the parse after some positionals: stop with an outcome, or
    go on with the namespace and the strings the sub-parser did not take. *)
Inductive step := Stop (o : outcome) | Go (ns : namespace) (sub_extras : list pystr).

(** The parse of a sub-command's strings by its parser. *)
Variable invoke : pystr -> list pystr -> outcome.

(** [take_action] of a positional. The sub-parser action checks the name
    against the choices, sets [dest], and parses the rest with the chosen
    parser into a fresh namespace whose attributes it copies. *)
Definition take_positional (ns : namespace) (subx : list pystr) (p : positional)
    (strs : list pystr) : step :=
  match p with
  | Single d _ => Go (<[d := store_value strs]> ns) subx
  | Subcommand d choices =>
    match strs with
    | [] => Go ns subx
    | name :: rest =>
      if bool_decide (name ∈ choices) then
        match invoke name rest with
        | Parsed ns' x => Go (ns' ∪ <[d := VStr name]> ns) (subx ++ x)
        | o => Stop o
        end
      else Stop (Error (id P) (InvalidChoice d name choices))
    end
  end.

Fixpoint take_positionals (ns : namespace) (subx : list pystr)
    (ms : list (positional * list pystr)) : step :=
  match ms with
  | [] => Go ns subx
  | (p, strs) :: ms' =>
    match take_positional ns subx p strs with
    | Go ns' subx' => take_positionals ns' subx' ms'
    | s => s
    end
  end.

(** The [while] loop of [_parse_known_args] and what follows it. While an
    option string remains, a leading option is consumed; otherwise the
    positionals are matched, and when none matches the strings up to the
    next option are extras. After the last option the positionals are
    matched once more, the rest are extras, and a required positional left
    over is an error. Each turn takes at least one string: [S (length ts)]
    turns are enough ([consume_fuel]). *)
Fixpoint consume (fuel : nat) (ts : list (pystr * tok)) (pos : list positional)
    (ns : namespace) (extras subx : list pystr) : outcome :=
  match fuel with
  | O => Parsed ns (extras ++ subx)
  | S fuel =>
    if existsb is_opt ts then
      match ts with
      | (s, TOpt None _ _) :: rest => consume fuel rest pos ns (extras ++ [s]) subx
      | (_, TOpt (Some a) os ex) :: rest =>
        match consume_optional a os ex rest with
        | inl e => Error (id P) e
        | inr (calls, rest') =>
          match take_optionals ns calls with
          | Some ns' => consume fuel rest' pos ns' extras subx
          | None => Help (id P)
          end
        end
      | _ =>
        match match_partial pos ts with
        | ([], _, _) =>
          let '(before, after) := span (fun t => negb (is_opt t)) ts in
          consume fuel after pos ns (extras ++ map fst before) subx
        | (ms, pos', ts') =>
          match take_positionals ns subx ms with
          | Go ns' subx' => consume fuel ts' pos' ns' extras subx'
          | Stop o => o
          end
        end
      end
    else
      let '(ms, pos', ts') := match_partial pos ts in
      match take_positionals ns subx ms with
      | Stop o => o
      | Go ns' subx' =>
        match required_names pos' with
        | [] => Parsed ns' (extras ++ map fst ts' ++ subx')
        | names => Error (id P) (Required names)
        end
      end
  end.

(** [parse_known_args(args)]: the namespace and the unrecognized strings,
    those of the sub-parser last. *)
Definition parse_known_args (args : list pystr) : outcome :=
  match classify args with
  | inl e => Error (id P) e
  | inr ts => consume (S (length ts)) ts (positionals P) ∅ [] []
  end.

End Parser.

(** The sub-parsers have no sub-parser action of their own. *)
Definition no_subcommand : pystr -> list pystr -> outcome := fun _ _ => Parsed ∅ [].

(** ** Lemmas on the parse *)

Section Lemmas.
Variable P : parser.

Lemma classify_cons s t rest :
  s <> py "--" -> parse_optional P s = inr t ->
  classify P (s :: rest) =
    match classify P rest with inl e => inl e | inr ts => inr ((s, t) :: ts) end.
Proof. intros Hs Ht. cbn [classify]. by rewrite bool_decide_eq_false_2, Ht. Qed.

(** Classifying a list is classifying its pieces, when the first piece has
    no ['--'] and no error. *)
Lemma classify_app (pre : list (pystr * tok)) rest :
  Forall (fun st => st.1 <> py "--" /\ parse_optional P st.1 = inr st.2) pre ->
  classify P (map fst pre ++ rest) =
    match classify P rest with inl e => inl e | inr ts => inr (pre ++ ts) end.
Proof.
  induction 1 as [|[s t] pre [Hs Ht] _ IH]; cbn [map app]; [by destruct (classify P rest)|].
  rewrite (classify_cons s t) by done. rewrite IH. by destruct (classify P rest).
Qed.

Lemma classify_sep rest :
  classify P (py "--" :: rest) = inr ((py "--", TSep) :: map (fun s => (s, TArg)) rest).
Proof. cbn [classify]. by rewrite bool_decide_eq_true_2. Qed.

Lemma parse_optional_plain s : head s <> Some dash -> parse_optional P s = inr TArg.
Proof.
  destruct s as [|c s]; [done|]. intros Hc. cbn in Hc. cbn [parse_optional].
  rewrite (proj2 (Z.eqb_neq c dash)) by congruence. done.
Qed.

Lemma split_once_app c a b : c ∉ a -> split_once c (a ++ c :: b) = Some (a, b).
Proof.
  induction a as [|d a IH]; intros Ha; cbn; [by rewrite Z.eqb_refl|].
  rewrite not_elem_of_cons in Ha. rewrite (proj2 (Z.eqb_neq d c)) by naive_solver.
  by rewrite IH by naive_solver.
Qed.

(** The option strings of [P] have no [=]. *)
Definition no_equals : Prop := Forall (fun p => 61 ∉ p.1) (option_string_actions P).

Lemma lookup_action_with_equals os e :
  no_equals -> lookup_action P (os ++ 61 :: e) = None.
Proof.
  intros Hne. unfold lookup_action.
  destruct (List.find _ _) as [[s a]|] eqn:Hf; [|done]. exfalso.
  apply List.find_some in Hf as [Hin Heq]. apply bool_decide_eq_true_1 in Heq.
  cbn in Heq. subst s. unfold no_equals in Hne. rewrite Forall_forall in Hne.
  apply (Hne _ (proj2 (list_elem_of_In _ _) Hin)). cbn. rewrite elem_of_app, elem_of_cons. auto.
Qed.

(** [--option=value] names the option, with the value as its explicit
    argument, whatever the value. *)
Lemma parse_optional_equals os a e :
  no_equals -> lookup_action P os = Some a -> head os = Some dash -> 61 ∉ os ->
  parse_optional P (os ++ 61 :: e) = inr (TOpt (Some a) os (Some e)).
Proof.
  intros Hne Ha Hd H61. destruct os as [|c os]; [done|]. injection Hd as ->.
  unfold parse_optional. cbn [app]. rewrite Z.eqb_refl. cbn [negb].
  change (dash :: os ++ 61 :: e) with ((dash :: os) ++ 61 :: e).
  rewrite lookup_action_with_equals by done.
  assert (Hr : truthy (os ++ 61 :: e) = true) by (destruct os; done).
  rewrite Hr. cbn [negb]. rewrite split_once_app by done. by rewrite Ha.
Qed.

Lemma parse_optional_exact os a :
  lookup_action P os = Some a -> head os = Some dash ->
  parse_optional P os = inr (TOpt (Some a) os None).
Proof.
  intros Ha Hd. destruct os as [|c os]; [done|]. injection Hd as ->.
  unfold parse_optional. rewrite Z.eqb_refl. cbn [negb]. by rewrite Ha.
Qed.

(** A [store] option with an explicit argument takes that argument and
    nothing else. *)
Lemma consume_optional_store a os e rest :
  kind_of a = Store -> consume_optional P a os (Some e) rest = inr ([(a, [e], os)], rest).
Proof. intros Hk. destruct e; cbn [consume_optional explicit_chain]; unfold nargs; by rewrite Hk. Qed.

(** A flag given without an argument takes nothing. *)
Lemma consume_optional_flag a os rest :
  kind_of a <> Store -> consume_optional P a os None rest = inr ([(a, [], os)], rest).
Proof. intros Hk. unfold consume_optional, no_explicit, nargs. by destruct (kind_of a). Qed.

(** One turn of the loop on an option that takes only its own string. *)
Lemma consume_option_step inv n s a os ex rest pos ns ns' c extras subx :
  consume_optional P a os ex rest = inr ([c], rest) -> take_optional ns c = Some ns' ->
  consume P inv (S n) ((s, TOpt (Some a) os ex) :: rest) pos ns extras subx =
    consume P inv n rest pos ns' extras subx.
Proof. intros Hc Ht. cbn [consume existsb is_opt snd orb]. by rewrite Hc; cbn; rewrite Ht. Qed.

End Lemmas.


Section Sub.
Variable P : parser.
Variable inv : pystr -> list pystr -> outcome.

Lemma consume_subcommand n name ts d cs ns :
  consume P inv (S n) ((name, TArg) :: ts) [Subcommand d cs] ns [] [] =
  match take_positional P inv ns [] (Subcommand d cs) (name :: map fst ts) with
  | Go ns' subx => Parsed ns' subx
  | Stop o => o
  end.
Proof.
  cbn [consume existsb is_opt snd orb].
  destruct (existsb is_opt ts); cbn [match_partial match_positional span is_sep snd];
    cbn [take_positionals]; destruct (take_positional _ _ _ _ _ _); try done; destruct n; done.
Qed.
End Sub.

Section Options.
Variable P : parser.
Variable inv : pystr -> list pystr -> outcome.

(** An option token that takes only its own string, with its action call. *)
Definition simple_option (st : pystr * tok) (c : call) : Prop :=
  exists a os ex, st.2 = TOpt (Some a) os ex /\
    forall rest, consume_optional P a os ex rest = inr ([c], rest).

Lemma consume_options pre cs n rest pos ns ns' extras subx :
  Forall2 simple_option pre cs -> take_optionals ns cs = Some ns' ->
  consume P inv (length pre + n) (pre ++ rest) pos ns extras subx =
    consume P inv n rest pos ns' extras subx.
Proof.
  intros Hpre. revert ns. induction Hpre as [|[s t] c pre cs (a & os & ex & Ht & Hc) _ IH];
    intros ns Hns.
  - cbn in Hns. by simplify_eq.
  - cbn [take_optionals] in Hns. destruct (take_optional ns c) as [ns1|] eqn:E1; [|done].
    cbn in Ht. subst t. cbn [length app Nat.add].
    erewrite consume_option_step; [apply IH; exact Hns|apply Hc|exact E1].
Qed.
End Options.

Lemma store_value_sep s : store_value [py "--"; s] = VStr s.
Proof. unfold store_value. cbn [remove_first]. by rewrite bool_decide_eq_true_2. Qed.

Lemma store_value_single s : s <> py "--" -> store_value [s] = VStr s.
Proof. intros Hs. unfold store_value. cbn [remove_first]. by rewrite bool_decide_eq_false_2. Qed.

Abbreviation piece := (pystr * tok * call)%type.

Definition equals_piece (a : optional) (os x : pystr) : piece :=
  (os ++ 61 :: x, TOpt (Some a) os (Some x), (a, [x], os)).

Definition flag_piece (a : optional) (os : pystr) : piece :=
  (os, TOpt (Some a) os None, (a, [], os)).

Definition piece_ok (P : parser) (p : piece) : Prop :=
  (p.1.1 <> py "--" /\ parse_optional P p.1.1 = inr p.1.2) /\ simple_option P p.1 p.2.

Lemma equals_piece_ok P a os x :
  no_equals P -> lookup_action P os = Some a -> head os = Some dash -> 61 ∉ os ->
  kind_of a = Store -> piece_ok P (equals_piece a os x).
Proof.
  intros Hne Ha Hd H61 Hk. split; [split|].
  - unfold equals_piece. cbn [fst]. intros Heq.
    assert (H : 61 ∈ os ++ 61 :: x) by (apply elem_of_app; right; left).
    rewrite Heq in H. change (py "--") with [45; 45] in H.
    repeat (apply elem_of_cons in H as [H|H]; [lia|]). by apply not_elem_of_nil in H.
  - unfold equals_piece. cbn [fst snd]. by apply parse_optional_equals.
  - exists a, os, (Some x). split; [done|]. intros rest. by apply consume_optional_store.
Qed.

Lemma flag_piece_ok P a os :
  lookup_action P os = Some a -> head os = Some dash -> os <> py "--" ->
  kind_of a = BooleanOptional -> piece_ok P (flag_piece a os).
Proof.
  intros Ha Hd Hs Hk. unfold flag_piece. split; [split|]; cbn [fst snd];
    [done|by apply parse_optional_exact|].
  exists a, os, None. split; [done|]. intros rest. apply consume_optional_flag. by rewrite Hk.
Qed.

(** A sub-parser on options that take only their own strings, then ['--']
    and the positionals: the options fill the namespace, then the loop
    goes on with the rest. *)
Lemma parse_known_pieces P pcs tail ns :
  Forall (piece_ok P) pcs -> take_optionals ∅ (map snd pcs) = Some ns ->
  parse_known_args P no_subcommand (map (fun p => p.1.1) pcs ++ py "--" :: tail) =
    consume P no_subcommand (S (S (length tail))) ((py "--", TSep) :: map (fun s => (s, TArg)) tail)
      (positionals P) ns [] [].
Proof.
  intros Hok Hns. unfold parse_known_args.
  replace (map (fun p => p.1.1) pcs) with (map fst (map fst pcs)) by (by rewrite map_map).
  rewrite (classify_app P (map fst pcs)), classify_sep
    by (rewrite Forall_map; eapply Forall_impl; [exact Hok|]; intros p [[? ?] _]; done).
  cbn iota beta. rewrite length_app, length_map. cbn [length]. rewrite length_map.
  replace (S (length pcs + S (length tail))) with (length (map fst pcs) + S (S (length tail)))%nat
    by (rewrite length_map; lia).
  apply (consume_options P no_subcommand _ (map snd pcs)); [|done].
  apply Forall2_fmap, Forall_Forall2_diag. eapply Forall_impl; [exact Hok|]. by intros p [_ ?].
Qed.

(** ** A parse without a sub-command *)

Lemma consume_optional_head P a os ex rest calls rest' :
  consume_optional P a os ex rest = inr (calls, rest') ->
  exists strs os' calls', calls = (a, strs, os') :: calls'.
Proof.
  destruct ex as [e|]; cbn [consume_optional].
  - destruct e as [|c e]; cbn [explicit_chain]; repeat case_match; intros Hc; simplify_eq; eauto.
  - unfold no_explicit. repeat case_match; intros Hc; simplify_eq; eauto.
Qed.

Lemma take_optionals_keeps ns calls ns' k :
  take_optionals ns calls = Some ns' -> is_Some (ns !! k) -> is_Some (ns' !! k).
Proof.
  revert ns. induction calls as [|[[a strs] os] calls IH]; intros ns Hc Hk; cbn in Hc; [by simplify_eq|].
  destruct (kind_of a); cbn in Hc; try done; apply (IH _ Hc);
    (destruct (decide (k = dest a)) as [->|Hne]; [by rewrite lookup_insert_eq|by rewrite lookup_insert_ne]).
Qed.

Lemma take_positionals_keeps P inv ns subx ms ns' subx' k :
  take_positionals P inv ns subx ms = Go ns' subx' -> is_Some (ns !! k) -> is_Some (ns' !! k).
Proof.
  revert ns subx. induction ms as [|[p strs] ms IH]; intros ns subx Hm Hk; cbn in Hm; [by simplify_eq|].
  destruct (take_positional P inv ns subx p strs) as [o|ns1 subx1] eqn:E; [done|].
  apply (IH _ _ Hm). unfold take_positional in E.
  destruct p as [d m|d cs].
  - simplify_eq. destruct (decide (k = d)) as [->|Hne]; [by rewrite lookup_insert_eq|by rewrite lookup_insert_ne].
  - destruct strs as [|name rest]; [by simplify_eq|].
    case_bool_decide; [|done]. destruct (inv name rest) as [| |ns2 x]; try done. simplify_eq.
    rewrite lookup_union. destruct Hk as [v Hv].
    destruct (decide (k = d)) as [->|Hne]; [rewrite lookup_insert_eq|rewrite lookup_insert_ne, Hv by done];
      destruct (ns2 !! _); by eexists.
Qed.

Lemma take_positionals_stop P inv ns subx ms o :
  take_positionals P inv ns subx ms = Stop o -> forall ns' x, o <> Parsed ns' x.
Proof.
  revert ns subx. induction ms as [|[p strs] ms IH]; intros ns subx Hm ns' x; cbn in Hm; [done|].
  destruct (take_positional P inv ns subx p strs) as [o'|ns1 subx1] eqn:E; [|by eapply IH].
  simplify_eq. unfold take_positional in E. repeat case_match; by simplify_eq.
Qed.

Lemma consume_keeps P inv fuel ts pos ns extras subx ns' x k :
  consume P inv fuel ts pos ns extras subx = Parsed ns' x -> is_Some (ns !! k) -> is_Some (ns' !! k).
Proof.
  revert ts pos ns extras subx. induction fuel as [|fuel IH]; intros ts pos ns extras subx Hc Hk;
    cbn [consume] in Hc; [by simplify_eq|].
  assert (Hpos : forall ms pos' ts', match_partial pos ts = (ms, pos', ts') -> ms <> [] ->
    match take_positionals P inv ns subx ms with
    | Go ns1 subx1 => consume P inv fuel ts' pos' ns1 extras subx1
    | Stop o => o end = Parsed ns' x -> is_Some (ns' !! k)).
  { intros ms pos' ts' _ _. destruct (take_positionals P inv ns subx ms) as [o|ns1 subx1] eqn:Et.
    - intros ->. by destruct (take_positionals_stop _ _ _ _ _ _ Et _ _ eq_refl).
    - intros Hc'. eapply IH; [exact Hc'|]. by eapply take_positionals_keeps. }
  destruct (existsb is_opt ts).
  - destruct ts as [|[s [| |[a|] os ex]] rest] eqn:Ets;
      try (destruct (match_partial pos _) as [[[|m ms] pos'] ts'] eqn:Em;
           [destruct (span _ _); by eapply IH|by eapply (Hpos (m :: ms))]).
    + destruct (consume_optional P a os ex rest) as [|[calls rest']]; [done|].
      destruct (take_optionals ns calls) as [ns1|] eqn:Et; [|done].
      eapply IH; [exact Hc|]. by eapply take_optionals_keeps.
    + by eapply IH.
  - destruct (match_partial pos ts) as [[ms pos'] ts'] eqn:Em.
    destruct (take_positionals P inv ns subx ms) as [o|ns1 subx1] eqn:Et.
    + subst o. by destruct (take_positionals_stop _ _ _ _ _ _ Et _ _ eq_refl).
    + destruct (required_names pos'); [|done]. simplify_eq. by eapply take_positionals_keeps.
Qed.

Lemma option_tuples_action P s t :
  t ∈ option_tuples P s -> exists os, (os, t.1.1) ∈ option_string_actions P.
Proof.
  unfold option_tuples. destruct s as [|c1 [|c2 r]]; [set_solver|set_solver|].
  destruct ((c1 =? dash) && (c2 =? dash)).
  - destruct (match split_once 61 _ with Some _ => _ | None => _ end) as [prefix explicit].
    intros Ht. apply list_elem_of_omap in Ht as ([os a] & Hin & Hf).
    case_match; simplify_eq; eauto.
  - destruct (c1 =? dash); [|set_solver]. intros Ht.
    apply list_elem_of_omap in Ht as ([os a] & Hin & Hf). repeat case_match; simplify_eq; eauto.
Qed.

Lemma span_app {A} (f : A -> bool) l a b : span f l = (a, b) -> l = a ++ b.
Proof.
  revert a b. induction l as [|x l IH]; intros a b Hs; cbn in Hs; [by simplify_eq|].
  destruct (f x); [|by simplify_eq]. destruct (span f l) as [a' b'] eqn:E. simplify_eq.
  cbn. f_equal. by apply IH.
Qed.

Lemma match_partial_command d cs ts :
  match_partial [Subcommand d cs] ts = ([], [Subcommand d cs], ts) \/
  exists name rest ts', match_partial [Subcommand d cs] ts = ([(Subcommand d cs, name :: rest)], [], ts').
Proof.
  cbn. unfold match_positional. destruct (span is_sep ts) as [d1 r1] eqn:Es.
  destruct r1 as [|[s [| |]] r2]; auto. right.
  apply span_app in Es. subst ts. destruct d1 as [|[s1 t1] d1]; cbn; eauto.
Qed.

Lemma span_cons_true {A} (f : A -> bool) x l a b :
  f x = true -> span f (x :: l) = (a, b) ->
  exists a', a = x :: a' /\ l = a' ++ b.
Proof.
  intros Hf Hs. cbn in Hs. rewrite Hf in Hs. destruct (span f l) as [a' b'] eqn:E.
  simplify_eq. exists a'. split; [done|]. by apply (span_app f).
Qed.

(** ** The fuel of the loop is enough *)

(** Each turn of [consume] takes at least one string, so any fuel above
    the number of strings gives the same outcome. *)
Lemma no_explicit_rest a os rest calls rest' :
  no_explicit a os rest = inr (calls, rest') -> (length rest' <= length rest)%nat.
Proof. unfold no_explicit. repeat case_match; intros Hn; simplify_eq; cbn; lia. Qed.

Lemma consume_optional_rest P a os ex rest calls rest' :
  consume_optional P a os ex rest = inr (calls, rest') -> (length rest' <= length rest)%nat.
Proof.
  destruct ex as [e|]; cbn [consume_optional]; [|apply no_explicit_rest].
  revert a os calls rest'. induction e as [|c e IH]; intros a os calls rest';
    cbn [explicit_chain]; [repeat case_match; intros Hc; simplify_eq; lia|].
  repeat case_match; intros Hc; simplify_eq; try lia;
    match goal with
    | H : no_explicit _ _ _ = inr _ |- _ => by apply no_explicit_rest in H
    | H : explicit_chain _ _ _ _ _ = inr _ |- _ => by apply IH in H
    end.
Qed.

Lemma match_positional_rest p ts strs ts' :
  match_positional p ts = Some (strs, ts') -> (length ts' < length ts)%nat.
Proof.
  unfold match_positional. destruct (span is_sep ts) as [d1 r1] eqn:Es.
  apply span_app in Es. subst ts.
  destruct r1 as [|[s [| |]] r2]; try done. destruct p.
  - destruct (span is_sep r2) as [d2 r3] eqn:Es2. apply span_app in Es2. subst r2.
    intros H; simplify_eq. rewrite !length_app. cbn. rewrite length_app. lia.
  - intros H; simplify_eq. rewrite length_app. cbn. lia.
Qed.

Lemma match_partial_rest pos ts ms pos' ts' :
  match_partial pos ts = (ms, pos', ts') -> ms <> [] -> (length ts' < length ts)%nat.
Proof.
  revert ts ms. induction pos as [|p pos IH]; intros ts ms Hm Hne; cbn in Hm; [by simplify_eq|].
  destruct (match_positional p ts) as [[strs ts1]|] eqn:Ep; [|by simplify_eq].
  destruct (match_partial pos ts1) as [[ms1 pos1] ts2] eqn:E1. simplify_eq.
  apply match_positional_rest in Ep. destruct ms1 as [|m ms1].
  - cbn in E1. destruct pos; cbn in E1; [simplify_eq; lia|].
    destruct (match_positional _ _) as [[??]|]; [destruct (match_partial _ _) as [[??]?]|]; simplify_eq; lia.
  - specialize (IH _ _ E1 ltac:(done)). lia.
Qed.


Lemma consume_fuel P inv n m ts pos ns extras subx :
  (length ts < n)%nat -> (length ts < m)%nat ->
  consume P inv n ts pos ns extras subx = consume P inv m ts pos ns extras subx.
Proof.
  revert m ts pos ns extras subx. induction n as [|n IH]; intros m ts pos ns extras subx Hn Hm; [lia|].
  destruct m as [|m]; [lia|]. cbn [consume].
  destruct (existsb is_opt ts) eqn:Eo; [|done].
  destruct ts as [|[s [| |[a|] os ex]] rest]; [done| | | |].
  1,2: destruct (match_partial pos _) as [[[|mm ms] pos'] ts'] eqn:Em;
       [destruct (span _ _) as [before after] eqn:Es;
        apply span_cons_true in Es as (a' & -> & ->); [|reflexivity];
        cbn in Hn, Hm; rewrite length_app in Hn, Hm; apply IH; lia
       |destruct (take_positionals _ _ _ _ _) as [o|ns1 subx1]; [done|];
        apply match_partial_rest in Em; [|done]; apply IH; lia].
  - destruct (consume_optional P a os ex rest) as [|[calls rest']] eqn:Ec; [done|].
    apply consume_optional_rest in Ec. destruct (take_optionals ns calls); [|done].
    cbn in Hn, Hm. apply IH; lia.
  - cbn in Hn, Hm. apply IH; lia.
Qed.

End Argparse.

(** ** Messages *)

(** The library's text: the program name ([os.path.basename(sys.argv[0])]),
    the usage and help texts of each parser, and [repr] of a string. *)
Class ArgparseText := {
  prog_name : pystr;
  format_usage : Argparse.parser_id -> pystr;
  format_help : Argparse.parser_id -> pystr;
  repr_str : pystr -> pystr
}.

Section Messages.
Context `{ArgparseText}.
Import Argparse.

(** [parser.prog]: a sub-parser's is the main program's and its name. *)
Definition prog (p : parser_id) : pystr :=
  match p with
  | MainParser => prog_name
  | DumpParser => prog_name ++ py " dump"
  | CheckApiParser => prog_name ++ py " check-api"
  end.

(** [str(ArgumentError)]: the action's name before the message. *)
Definition argument_message (name msg : pystr) : pystr := py "argument " ++ name ++ py ": " ++ msg.

(** The message [parser.error] is given. *)
Definition message (e : arg_error) : pystr :=
  match e with
  | Ambiguous s ms => py "ambiguous option: " ++ s ++ py " could match " ++ join_with (py ", ") ms
  | ExpectedOne n => argument_message n (py "expected one argument")
  | IgnoredExplicit n a => argument_message n (py "ignored explicit argument " ++ repr_str a)
  | InvalidChoice n v cs =>
    argument_message n (py "invalid choice: " ++ repr_str v ++ py " (choose from " ++
                        join_with (py ", ") (map repr_str cs) ++ py ")")
  | Required ns => py "the following arguments are required: " ++ join_with (py ", ") ns
  | Unrecognized l => py "unrecognized arguments: " ++ join_with (py " ") l
  end.

End Messages.
