(* ===== verification/CliParser.v ===== *)
(** * The parser of [main] (lines 69-87)

    [main] builds an [ArgumentParser] with a sub-parser action
    [dest='command'] and two sub-commands (lines 70-85), then calls
    [parser.parse_args()] (line 87). This file holds the three parsers as
    data of the library model of Argparse.v, and what the parse does on
    them: the main parser hands every string after the sub-command to its
    parser ([parse_args_command]); a line of options, ['--'] and the
    positionals parses to the namespace they name ([parse_dump_line],
    [parse_check_api_line]); a parse that sets no sub-command leaves every
    string unrecognized, so only the empty command line has none
    ([parse_without_command]). *)

From S2P Require Import Prelude PyStr PyPath Argparse.

Open Scope Z_scope.

Module CliParser.

Import Argparse.

(** ** The parsers (lines 70-85) *)

(** [add_help=True]. *)
Definition help_optional : optional := Optional [py "-h"; py "--help"] (py "help") HelpAction.

(** [dumpSDKParser.add_argument("--abi", action=BooleanOptionalAction)]
    (line 77): the action adds [--no-abi]. *)
Definition abi_optional : optional :=
  Optional [py "--abi"; py "--no-abi"] (py "abi") BooleanOptional.

(** [add_argument("-o", "--output-path")] (line 78): [dest] comes from the
    first long option. *)
Definition output_optional : optional :=
  Optional [py "-o"; py "--output-path"] (py "output_path") Store.

(** [dumpSDKParser] (lines 75-78). *)
Definition dump_parser : parser :=
  Parser DumpParser [help_optional; abi_optional; output_optional]
    [Single (py "sdk_path") (py "sdk-path")].

(** Lines 83-85 of [checkAPIParser]. *)
Definition allowlist_optional : optional :=
  Optional [py "--breakage-allowlist-path"] (py "breakage_allowlist_path") Store.
Definition report_optional : optional :=
  Optional [py "--report-path"] (py "report_path") Store.
Definition comment_optional : optional :=
  Optional [py "--comment-pr"; py "--no-comment-pr"] (py "comment_pr") BooleanOptional.

(** [checkAPIParser] (lines 80-85). *)
Definition check_api_parser : parser :=
  Parser CheckApiParser [help_optional; allowlist_optional; report_optional; comment_optional]
    [Single (py "base_dump") (py "base-dump-path");
     Single (py "latest_dump") (py "latest-dump-path")].

(** [parser] and [parser.add_subparsers(dest='command')] (lines 70-73). *)
Definition main_parser : parser :=
  Parser MainParser [help_optional] [Subcommand (py "command") [py "dump"; py "check-api"]].

(** [self._name_parser_map[name]], for a name among the choices. *)
Definition subparser (name : pystr) : parser :=
  if bool_decide (name = py "dump") then dump_parser else check_api_parser.

(** [parser.parse_args()] (line 87): unrecognized strings are an error of
    the main parser. *)
Definition parse_args (argv : list pystr) : outcome :=
  match parse_known_args main_parser
          (fun name rest => parse_known_args (subparser name) no_subcommand rest) argv with
  | Parsed ns ((_ :: _) as extras) => Error MainParser (Unrecognized extras)
  | o => o
  end.

(** ** Lemmas *)

(** ** Lemmas on the program's parsers *)

Lemma osa_main : option_string_actions main_parser =
  [([45; 104], help_optional); ([45; 45; 104; 101; 108; 112], help_optional)].
Proof. reflexivity. Qed.
Lemma option_tuples_main s : (length (option_tuples main_parser s) <= 1)%nat.
Proof.
  unfold option_tuples. rewrite osa_main. unfold dash.
  destruct s as [|c1 [|c2 r]]; try (cbn; lia).
  destruct (c1 =? 45) eqn:E1; cbn [andb]; [|cbn; lia].
  apply Z.eqb_eq in E1; subst c1.
  destruct (c2 =? 45) eqn:E2.
  - apply Z.eqb_eq in E2; subst c2. cbn.
    destruct (split_once 61 r) as [[x y]|]; cbn; repeat case_match; cbn; lia.
  - cbn. repeat case_match; cbn; try lia;
    repeat match goal with H : bool_decide _ = true |- _ => apply bool_decide_eq_true_1 in H end;
    simplify_eq; cbn in *; rewrite ?E2 in *; cbn in *; congruence.
Qed.
Lemma parse_optional_main s : exists t, parse_optional main_parser s = inr t.
Proof.
  unfold parse_optional. destruct s as [|c s]; [eauto|].
  repeat case_match; eauto; exfalso;
    match goal with H : option_tuples _ _ = _ |- _ =>
      pose proof (option_tuples_main (c :: s)) as Hl; rewrite H in Hl; cbn in Hl; lia end.
Qed.

Lemma classify_main args : exists ts, classify main_parser args = inr ts /\ map fst ts = args.
Proof.
  induction args as [|s args IH]; [by exists []|]. cbn [classify]. case_bool_decide.
  - eexists; split; [done|]. cbn. subst s. f_equal. clear IH. induction args; cbn; congruence.
  - destruct (parse_optional_main s) as [t ->]. destruct IH as (ts & -> & <-).
    by eexists.
Qed.

Lemma parse_args_command name rest :
  head name <> Some dash ->
  parse_args (name :: rest) =
    if bool_decide (name ∈ [py "dump"; py "check-api"]) then
      match parse_known_args (subparser name) no_subcommand rest with
      | Parsed ns [] => Parsed (ns ∪ <[py "command" := VStr name]> ∅) []
      | Parsed ns x => Error MainParser (Unrecognized x)
      | o => o
      end
    else Error MainParser (InvalidChoice (py "command") name [py "dump"; py "check-api"]).
Proof.
  intros Hh. unfold parse_args, parse_known_args at 1.
  rewrite (classify_cons _ _ TArg) by (by intros ->) || by apply parse_optional_plain.
  destruct (classify_main rest) as (ts & -> & <-). cbn iota beta. cbn [length].
  change (positionals main_parser) with [Subcommand (py "command") [py "dump"; py "check-api"]].
  rewrite consume_subcommand. unfold take_positional.
  case_bool_decide; [|done].
  destruct (parse_known_args (subparser name) no_subcommand (map fst ts)) as [| |ns [|x xs]]; done.
Qed.

(** After the options: ['--'] and the SDK path. *)
Lemma consume_dump_tail inv n s ns :
  consume dump_parser inv (S n) [(py "--", TSep); (s, TArg)] (positionals dump_parser) ns [] [] =
    Parsed (<[py "sdk_path" := VStr s]> ns) [].
Proof. cbn -[store_value insert]. by rewrite store_value_sep. Qed.

(** After the options: ['--'] and the two dumps. The separator goes with
    the first dump; the second is taken as it is, so a second ['--']
    becomes an empty list. *)
Lemma consume_check_api_tail inv n b l ns :
  consume check_api_parser inv (S n) [(py "--", TSep); (b, TArg); (l, TArg)]
    (positionals check_api_parser) ns [] [] =
    Parsed (<[py "latest_dump" := store_value [l]]> (<[py "base_dump" := VStr b]> ns)) [].
Proof. cbn -[store_value insert]. by rewrite store_value_sep. Qed.


(** A command-line string made of one option, with its pattern letter and
    its action call: [--option=value], or a flag. *)
Lemma subparser_dump : subparser (py "dump") = dump_parser.
Proof. reflexivity. Qed.
Lemma subparser_check_api : subparser (py "check-api") = check_api_parser.
Proof. reflexivity. Qed.

Lemma no_equals_dump : no_equals dump_parser.
Proof. decide_lit. Qed.
Lemma no_equals_check_api : no_equals check_api_parser.
Proof. decide_lit. Qed.


(** The two sub-commands on a command line of options, ['--'] and the
    positionals. *)
Lemma parse_dump_line pcs ns s :
  Forall (piece_ok dump_parser) pcs -> take_optionals ∅ (map snd pcs) = Some ns ->
  parse_args (py "dump" :: map (fun p => p.1.1) pcs ++ [py "--"; s]) =
    Parsed (<[py "sdk_path" := VStr s]> ns ∪ <[py "command" := VStr (py "dump")]> ∅) [].
Proof.
  intros Hok Hns. rewrite parse_args_command by decide_lit.
  rewrite bool_decide_eq_true_2 by (by left). rewrite subparser_dump.
  rewrite (parse_known_pieces _ _ _ ns) by done. cbn [map length].
  by rewrite consume_dump_tail.
Qed.

Lemma parse_check_api_line pcs ns b l :
  Forall (piece_ok check_api_parser) pcs -> take_optionals ∅ (map snd pcs) = Some ns ->
  parse_args (py "check-api" :: map (fun p => p.1.1) pcs ++ [py "--"; b; l]) =
    Parsed (<[py "latest_dump" := store_value [l]]> (<[py "base_dump" := VStr b]> ns)
              ∪ <[py "command" := VStr (py "check-api")]> ∅) [].
Proof.
  intros Hok Hns. rewrite parse_args_command by decide_lit.
  rewrite bool_decide_eq_true_2 by (by right; left). rewrite subparser_check_api.
  rewrite (parse_known_pieces _ _ _ ns) by done. cbn [map length].
  by rewrite consume_check_api_tail.
Qed.


(** [check-api] with one positional: the second dump is missing. *)
Lemma parse_check_api_one b :
  head b <> Some dash ->
  parse_args [py "check-api"; b] = Error CheckApiParser (Required [py "latest-dump-path"]).
Proof.
  intros Hb. rewrite parse_args_command by decide_lit.
  rewrite bool_decide_eq_true_2 by (by right; left). rewrite subparser_check_api.
  unfold parse_known_args. rewrite (classify_cons _ _ TArg) by
    (by intros ->) || by apply parse_optional_plain.
  reflexivity.
Qed.

Lemma parse_invalid_command name rest :
  head name <> Some dash -> name ∉ [py "dump"; py "check-api"] ->
  parse_args (name :: rest) =
    Error MainParser (InvalidChoice (py "command") name [py "dump"; py "check-api"]).
Proof. intros Hh Hn. rewrite parse_args_command by done. by rewrite bool_decide_eq_false_2. Qed.


(** ** A parse without a sub-command *)

Definition help_only (ts : list (pystr * tok)) : Prop :=
  Forall (fun t => match t.2 with TOpt (Some a) _ _ => a = help_optional | _ => True end) ts.

Lemma lookup_action_main s a : lookup_action main_parser s = Some a -> a = help_optional.
Proof.
  unfold lookup_action. rewrite osa_main.
  destruct (List.find _ _) as [p|] eqn:Hf; intros H; cbn in H; [|done]. simplify_eq.
  apply List.find_some in Hf as [Hin _]. cbn in Hin. by repeat destruct Hin as [<-|Hin].
Qed.

Lemma option_tuples_main_help s t : t ∈ option_tuples main_parser s -> t.1.1 = help_optional.
Proof.
  intros Ht. apply option_tuples_action in Ht as [os Hin]. rewrite osa_main in Hin.
  repeat (apply elem_of_cons in Hin as [Hin|Hin]; [by simplify_eq|]). by apply not_elem_of_nil in Hin.
Qed.

Lemma parse_optional_main_help s a os ex :
  parse_optional main_parser s = inr (TOpt (Some a) os ex) -> a = help_optional.
Proof.
  unfold parse_optional. repeat case_match; intros Hp; simplify_eq;
    try (by eapply lookup_action_main).
  all: repeat match goal with
       | H : (fun _ => _) <$> lookup_action main_parser ?s = Some _ |- _ =>
         destruct (lookup_action main_parser s) eqn:?; cbn in H; simplify_eq
       end; try (by eapply lookup_action_main).
  all: match goal with H : option_tuples _ ?s = [?t] |- _ =>
         apply (option_tuples_main_help s t); rewrite H; left end.
Qed.

Lemma classify_main_help args ts : classify main_parser args = inr ts -> help_only ts.
Proof.
  revert ts. induction args as [|s args IH]; intros ts Hc; cbn [classify] in Hc;
    [injection Hc as <-; constructor|].
  destruct (decide (s = py "--")) as [Hs|Hs];
    [rewrite bool_decide_eq_true_2 in Hc by done|rewrite bool_decide_eq_false_2 in Hc by done].
  - simplify_eq. constructor; [done|]. clear IH. induction args; by constructor.
  - destruct (parse_optional main_parser s) as [|t] eqn:Ep; [done|].
    destruct (classify main_parser args) as [|ts'] eqn:Ec; [done|]. simplify_eq.
    constructor; [|by apply IH]. cbn. destruct t as [| |[a|] os ex]; try done.
    by eapply parse_optional_main_help.
Qed.

Lemma take_command_sets inv ns subx name rest ns1 subx1 :
  take_positionals main_parser inv ns subx
    [(Subcommand (py "command") [py "dump"; py "check-api"], name :: rest)] = Go ns1 subx1 ->
  is_Some (ns1 !! py "command").
Proof.
  cbn. case_bool_decide; [|done]. destruct (inv name rest) as [| |ns' x]; try done.
  intros Hg. simplify_eq. rewrite lookup_union, lookup_insert_eq.
  destruct (ns' !! _); by eexists.
Qed.

(** The loop of the main parser, before its sub-command is set: an option
    string is [-h] (help) or unknown (an extra), and an argument string
    either starts the sub-command or, with no sub-command matched, is an
    extra. So a parse that never sets [command] leaves every string
    unrecognized. *)
Lemma main_no_command_extras inv fuel ts ns0 extras ns x :
  (length ts < fuel)%nat -> help_only ts ->
  consume main_parser inv fuel ts (positionals main_parser) ns0 extras [] = Parsed ns x ->
  ns !! py "command" = None -> x = extras ++ map fst ts.
Proof.
  revert ts ns0 extras. induction fuel as [|fuel IH]; intros ts ns0 extras Hl Hh Hc Hn; [lia|].
  change (positionals main_parser) with [Subcommand (py "command") [py "dump"; py "check-api"]] in Hc.
  cbn [consume] in Hc.
  destruct (match_partial_command (py "command") [py "dump"; py "check-api"] ts)
    as [Em|(name & rest0 & ts' & Em)].
  2: { (* the sub-command is matched: [command] is set and stays set *)
    destruct (existsb is_opt ts); [destruct ts as [|[s [| |[a|] os ex]] rest]|];
      try (rewrite Em in Hc;
           destruct (take_positionals _ _ _ _ _) as [o|ns1 subx1] eqn:Et;
           [subst o; by destruct (take_positionals_stop _ _ _ _ _ _ Et _ _ eq_refl)|];
           apply take_command_sets in Et;
           first [apply (consume_keeps _ _ _ _ _ _ _ _ _ _ _ Hc) in Et | cbn in Hc; simplify_eq];
           rewrite Hn in Et; by destruct Et).
    - apply Forall_cons in Hh as [Ha _]. cbn in Ha. subst a.
      destruct (consume_optional main_parser help_optional os ex rest) as [|[calls rest']] eqn:Ec;
        [done|].
      by destruct (consume_optional_head _ _ _ _ _ _ _ Ec) as (strs & os' & calls' & ->).
    - apply Forall_cons in Hh as [_ Hh]. cbn in Hl.
      apply IH in Hc; [|lia|done|done]. by rewrite Hc, <-app_assoc. }
  destruct (existsb is_opt ts) eqn:Eo.
  - destruct ts as [|[s t] rest]; [done|]. destruct t as [| |[a|] os ex].
    1,2: rewrite Em in Hc; destruct (span _ _) as [before after] eqn:Es;
      apply span_cons_true in Es as (a' & -> & ->); [|reflexivity];
      apply Forall_cons in Hh as [_ Hh]; apply Forall_app in Hh as [_ Hh];
      cbn in Hl; rewrite length_app in Hl;
      apply IH in Hc; [|lia|done|done]; rewrite Hc; cbn; by rewrite map_app, <-!app_assoc.
    + apply Forall_cons in Hh as [Ha _]. cbn in Ha. subst a.
      destruct (consume_optional main_parser help_optional os ex rest) as [|[calls rest']] eqn:Ec;
        [done|].
      by destruct (consume_optional_head _ _ _ _ _ _ _ Ec) as (strs & os' & calls' & ->).
    + apply Forall_cons in Hh as [_ Hh]. cbn in Hl.
      apply IH in Hc; [|lia|done|done]. by rewrite Hc, <-app_assoc.
  - rewrite Em in Hc. cbn in Hc. simplify_eq. by rewrite app_nil_r.
Qed.

(** A command line that parses without naming a sub-command is empty. *)
Lemma parse_without_command argv ns :
  parse_args argv = Parsed ns [] -> ns !! py "command" = None -> argv = [].
Proof.
  intros Hp Hn. unfold parse_args, parse_known_args in Hp.
  destruct (classify_main argv) as (ts & Hc & <-). rewrite Hc in Hp.
  destruct (consume _ _ _ _ _ _ _ _) as [| |ns' x] eqn:Ec; try done.
  destruct x as [|y x]; [|done]. simplify_eq.
  pose proof (main_no_command_extras _ _ _ _ _ _ _ (Nat.lt_succ_diag_r _) (classify_main_help _ _ Hc) Ec Hn) as Hx.
  cbn in Hx. by destruct ts.
Qed.


End CliParser.
