(* ===== verification/Cli.v ===== *)
(** * The [dump] command and [main] (lines 11-26 and 69-92)

    [dump_sdk] makes a temporary directory, prints it, unpacks the SDK
    archive there when its extension is [.zip], loads
    [artifacts/MapboxMaps.xcframework] and runs [APIDigester.dump_sdk] with
    [artifacts] as the directory of dependencies. [main] dispatches on the
    sub-command [argparse] found. Every path option goes through
    [type=os.path.abspath], the string defaults included.

    [tempfile.mkdtemp] and [shutil.unpack_archive] are library calls. They
    are the interfaces [TempFiles] and [Archives]. [TempFiles] carries the
    library's documented promise: it creates a new, empty directory and
    returns its path.

    [main] is three definitions. [run] is [parser.parse_args()] on the
    command line ([CliParser.parse_args]): help goes to stdout with exit
    status 0, a usage error to stderr with status 2. [cli_of_namespace]
    reads the attributes of the namespace, where an option not given is
    [None] and a value ['--'] is an empty list. [main] applies the
    defaults and [abspath] and dispatches. [script] is [__main__].

    The theorems: a non-zip SDK (C28), the empty command line (C29), the
    command-line round trip (C35), ['--'] values (C36), [check-api] run
    from its command line runs the digester first (C37), usage errors
    (C38), and the exit status of the whole script (C8). *)

From S2P Require Import Prelude PyStr PyRuntime PyPath XCFramework Sha1 Report Digester Notifier CheckApi ExitStatus Argparse CliParser.

Open Scope Z_scope.
Open Scope py_scope.

(** [tempfile.mkdtemp(prefix=p)]. *)
Class TempFiles := {
  mkdtemp : pystr -> PyM pystr;
  mkdtemp_fresh : forall prefix w, exists d,
    mkdtemp prefix w = (inr d, add_dir d w) /\ w_dirs w !! d = None
}.

(** [shutil.unpack_archive(filename, extract_dir)]. *)
Class Archives := {
  unpack_archive : pystr -> pystr -> PyM unit
}.

Module DumpCommand.

Import APIDigester.

Definition zip_required : exc := Exception (py "SDK path must be a zip archive").

Section Dump.
Context `{Toolchain} `{PlistLib} `{PyRepr} `{TempFiles} `{Archives}.

(** [dittoSDK] (lines 15-20). *)
Definition dittoSDK (sdk_path destination : pystr) : PyM pystr :=
  if bool_decide ((splitext sdk_path).2 = py ".zip") then
    unpack_archive sdk_path destination ;;
    ret (path_join destination (py "artifacts"))
  else raise zip_required.

(** Lines 12-24 of [dump_sdk]: the temporary directory, the unpacked
    artifacts and their bundle. *)
Definition unpack_sdk (sdk_path : pystr) : PyM (XCFramework.t * pystr) :=
  tempDir <- mkdtemp (py "API-check-") ;;
  print tempDir ;;
  current_artifacts_dir <- dittoSDK sdk_path tempDir ;;
  current_xcframework <-
    XCFramework.init (path_join current_artifacts_dir (py "MapboxMaps.xcframework")) ;;
  ret (current_xcframework, current_artifacts_dir).

(** [dump_sdk] (lines 11-26). *)
Definition dump_sdk (sdk_path output_path : pystr) (abi : bool) : PyM unit :=
  unpacked <- unpack_sdk sdk_path ;;
  APIDigester.dump_sdk unpacked.1 unpacked.2 output_path abi.

(** [dump_sdk] called with a list as [sdk_path]: [os.path.splitext] in
    [dittoSDK] raises [TypeError] once the directory is made and printed. *)
Definition dump_sdk_list_sdk : PyM unit :=
  tempDir <- mkdtemp (py "API-check-") ;;
  print tempDir ;;
  raise TypeError.

(** [dump_sdk] called with a list as [output_path]: all of it up to the
    digester's [subprocess.run] (line 155), which raises [TypeError] on the
    list in its argument vector. The vector is built without the list; it is
    never run. *)
Definition dump_sdk_list_output (sdk_path : pystr) (abi : bool) : PyM unit :=
  unpacked <- unpack_sdk sdk_path ;;
  _ <- APIDigester.build_arguments unpacked.1 unpacked.2 [] ;;
  raise TypeError.

End Dump.

(** ** Theorems *)

Section DumpTheorems.
Context `{Toolchain} `{PlistLib} `{PyRepr} `{TempFiles} `{Archives}.

(** C28. Only zip archives are unpacked (spec 4.1 and 5). When the
    extension of the SDK path is not [.zip], [dump] raises "SDK path must be
    a zip archive". It has already created a new temporary directory and
    printed its path, and the directory is left behind. Nothing is
    unpacked and no command is run. *)
Theorem dump_rejects_non_zip sdk_path output_path abi w :
  (splitext sdk_path).2 <> py ".zip" ->
  exists d w', dump_sdk sdk_path output_path abi w = (inl zip_required, w') /\
    w_dirs w !! d = None /\ w_dirs w' !! d = Some [] /\
    w_stdout w' = w_stdout w ++ [d ++ [10]] /\ w_spawned w' = w_spawned w /\
    w_fs w' = w_fs w.
Proof.
  intros Hext. destruct (mkdtemp_fresh (py "API-check-") w) as (d & Hm & Hfresh).
  exists d. unfold dump_sdk, unpack_sdk, bind at 1 2. rewrite Hm.
  unfold bind at 1. cbn [print modify]. unfold bind at 1, dittoSDK.
  rewrite bool_decide_eq_false_2 by done.
  eexists. split; [reflexivity|]. split; [done|]. split; [|done].
  cbn. apply lookup_insert_eq.
Qed.

End DumpTheorems.

(** ** The [SystemExit]s of [dump] *)

Section DumpExits.
Import ExitStatus.
Context `{Toolchain} `{PlistLib} `{PyRepr} `{TempFiles} `{Archives}.
Context (Hl : launches_cleanly) (Hu : forall s d, exits_in (fun _ => False) (unpack_archive s d)).
Context (ok : Z -> Prop).

Lemma ei_mkdtemp prefix : exits_in ok (mkdtemp prefix).
Proof. constructor. intros w c. by destruct (mkdtemp_fresh prefix w) as (d & -> & _). Qed.

Lemma ei_unpack_archive s d : exits_in ok (unpack_archive s d).
Proof. apply (ei_weaken (fun _ => False)); [done|apply Hu]. Qed.

Hint Resolve ei_mkdtemp ei_unpack_archive : exits.

Lemma ei_unpack_sdk s : exits_in ok (unpack_sdk s).
Proof. unfold unpack_sdk, dittoSDK. ei_solve. Qed.

Hint Resolve ei_unpack_sdk : exits.

Lemma ei_dump_command s o abi : exits_in ok (dump_sdk s o abi).
Proof. unfold dump_sdk. ei_solve. Qed.
Lemma ei_dump_list_sdk : exits_in ok dump_sdk_list_sdk.
Proof. unfold dump_sdk_list_sdk. ei_solve. Qed.
Lemma ei_dump_list_output s abi : exits_in ok (dump_sdk_list_output s abi).
Proof. unfold dump_sdk_list_output. ei_solve. Qed.

End DumpExits.

#[export] Hint Resolve ei_dump_command ei_dump_list_sdk ei_dump_list_output : exits.

End DumpCommand.

Module Main.

(** The sub-command and options [parser.parse_args()] returns, before the
    [type] conversions; [None] is an option left out. An empty list where a
    path should be ([--output-path=--], see [Argparse.store_value]) has
    constructors of its own: the call fails where the list is first used. *)
Inductive cli :=
| DumpArgs (sdk_path : pystr) (abi : option bool) (output_path : option pystr)
| CheckApiArgs (base_dump latest_dump : pystr) (breakage_allowlist_path : option pystr)
    (report_path : option pystr) (comment_pr : option bool)
| DumpListSdk
| DumpListOutput (sdk_path : pystr) (abi : option bool)
| CheckApiListPath
| NoCommand.

Section Main.
Context `{Toolchain} `{PlistLib} `{PyRepr} `{TempFiles} `{Archives}.

(** [main] (lines 69-92): the defaults of lines 77-85, [os.path.abspath]
    on every path, then the dispatch of lines 89-92. *)
Definition main (args : cli) : PyM unit :=
  cwd <- getcwd ;;
  let abs := abspath cwd in
  match args with
  | DumpArgs sdk_path abi output_path =>
    DumpCommand.dump_sdk (abs sdk_path) (abs (default (py "MapboxMaps.json") output_path))
      (default false abi)
  | CheckApiArgs base_dump latest_dump allow report_path comment_pr =>
    CheckApi.check_api_breaking_changes (abs base_dump) (abs latest_dump) (abs <$> allow)
      (abs (default (py "api-check-report.txt") report_path)) (default false comment_pr)
  | DumpListSdk => DumpCommand.dump_sdk_list_sdk
  | DumpListOutput sdk_path abi => DumpCommand.dump_sdk_list_output (abs sdk_path) (default false abi)
  | CheckApiListPath => raise TypeError
  | NoCommand => ret tt
  end.

End Main.

Import Argparse CliParser.

Definition arg_str (v : option value) : option pystr :=
  match v with Some (VStr s) => Some s | _ => None end.
Definition arg_bool (v : option value) : option bool :=
  match v with Some (VBool b) => Some b | _ => None end.
Definition is_list (v : option value) : bool :=
  match v with Some (VList _) => true | _ => false end.

(** The attributes lines 89-92 read. A required positional is a string or
    a list. In [check-api], a list among the three paths fails at once:
    [compare] puts them in the argument vector of [subprocess.run]. An
    allow-list given as a list is the empty list, which is false, so
    [compare] adds no allow-list ([if breakage_allow_list_path:]). *)
Definition cli_of_namespace (ns : namespace) : cli :=
  let get k := ns !! py k in
  match get "command" with
  | Some (VStr c) =>
    if bool_decide (c = py "dump") then
      match get "sdk_path" with
      | Some (VStr sdk) =>
        if is_list (get "output_path") then DumpListOutput sdk (arg_bool (get "abi"))
        else DumpArgs sdk (arg_bool (get "abi")) (arg_str (get "output_path"))
      | _ => DumpListSdk
      end
    else if bool_decide (c = py "check-api") then
      match get "base_dump", get "latest_dump" with
      | Some (VStr b), Some (VStr l) =>
        if is_list (get "report_path") then CheckApiListPath
        else CheckApiArgs b l (arg_str (get "breakage_allowlist_path"))
               (arg_str (get "report_path")) (arg_bool (get "comment_pr"))
      | _, _ => CheckApiListPath
      end
    else NoCommand
  | _ => NoCommand
  end.

Section Run.
Context `{Toolchain} `{PlistLib} `{PyRepr} `{TempFiles} `{Archives} `{ArgparseText}.

(** [main()] (lines 69-92): [parser.parse_args()] on the command line, then
    the dispatch. Help goes to stdout and exits with 0; an error prints the
    usage and the message on stderr and exits with 2. *)
Definition run (argv : list pystr) : PyM unit :=
  match parse_args argv with
  | Help p => modify (add_stdout (format_help p)) ;; sys_exit 0
  | Error p e =>
    modify (add_stderr (format_usage p)) ;;
    modify (add_stderr (prog p ++ py ": error: " ++ message e ++ [10])) ;;
    sys_exit 2
  | Parsed ns _ => main (cli_of_namespace ns)
  end.

(** [if __name__ == "__main__": main()] (lines 286-287): [parse_args] reads
    [sys.argv[1:]]. *)
Definition script (sys_argv : list pystr) : PyM unit := run (drop 1 sys_argv).

End Run.

(** ** A command line for each call *)

(** The pieces of a command line that asks for the options of [c]: each
    option as [--option=value] or as a flag. *)
Definition flag_pieces (a : optional) (pos neg : pystr) (b : option bool) : list piece :=
  match b with
  | Some true => [flag_piece a pos]
  | Some false => [flag_piece a neg]
  | None => []
  end.

Definition equals_pieces (a : optional) (os : pystr) (v : option pystr) : list piece :=
  match v with Some x => [equals_piece a os x] | None => [] end.

Definition dump_pieces (abi : option bool) (output_path : option pystr) : list piece :=
  flag_pieces abi_optional (py "--abi") (py "--no-abi") abi ++
  equals_pieces output_optional (py "--output-path") output_path.

Definition check_api_pieces (allow report : option pystr) (comment : option bool) : list piece :=
  equals_pieces allowlist_optional (py "--breakage-allowlist-path") allow ++
  equals_pieces report_optional (py "--report-path") report ++
  flag_pieces comment_optional (py "--comment-pr") (py "--no-comment-pr") comment.

(** The command line: the sub-command, the options, then ['--'] and the
    positionals, so that a path may start with a dash. *)
Definition command_line (c : cli) : list pystr :=
  match c with
  | DumpArgs s abi o => py "dump" :: map (fun p => p.1.1) (dump_pieces abi o) ++ [py "--"; s]
  | CheckApiArgs b l a r cm =>
    py "check-api" :: map (fun p => p.1.1) (check_api_pieces a r cm) ++ [py "--"; b; l]
  | _ => []
  end.

(** The calls a command line can ask for: argparse stores an empty list
    for an option value ['--'] and for a latest dump ['--']. *)
Definition expressible (c : cli) : Prop :=
  match c with
  | DumpArgs _ _ o => o <> Some (py "--")
  | CheckApiArgs _ l a r _ => l <> py "--" /\ a <> Some (py "--") /\ r <> Some (py "--")
  | NoCommand => True
  | _ => False
  end.

Ltac piece_tac :=
  first [apply flag_piece_ok | apply equals_piece_ok];
  first [reflexivity | apply no_equals_dump | apply no_equals_check_api | decide_lit].

Ltac pieces_tac :=
  cbn [flag_pieces equals_pieces]; repeat first [apply Forall_nil_2 | apply Forall_cons_2; [piece_tac|]].

(** Replace [cli_of_namespace ns] by [c], computing the lookups. *)
Ltac cli_is c :=
  match goal with |- context [cli_of_namespace ?ns] =>
    replace (cli_of_namespace ns) with c by (vm_compute; reflexivity) end.

Lemma dump_pieces_ok abi o : Forall (piece_ok dump_parser) (dump_pieces abi o).
Proof.
  apply Forall_app; split; [destruct abi as [[]|]|destruct o]; pieces_tac.
Qed.

Lemma check_api_pieces_ok a r c : Forall (piece_ok check_api_parser) (check_api_pieces a r c).
Proof.
  repeat (apply Forall_app; split); [destruct a|destruct r|destruct c as [[]|]]; pieces_tac.
Qed.

Lemma command_line_parses c :
  expressible c ->
  exists ns, parse_args (command_line c) = Parsed ns [] /\ cli_of_namespace ns = c.
Proof.
  destruct c as [s abi o|b l a r cm| | | |]; cbn [expressible command_line]; intros Hc; try done.
  - pose proof (dump_pieces_ok abi o) as Hok.
    destruct abi as [[]|], o as [x|];
      (erewrite parse_dump_line; [|exact Hok|reflexivity]);
      eexists; (split; [reflexivity|]);
      rewrite ?store_value_single by congruence; vm_compute; reflexivity.
  - destruct Hc as (Hl & Ha & Hr). pose proof (check_api_pieces_ok a r cm) as Hok.
    destruct a as [xa|], r as [xr|], cm as [[]|];
      (erewrite parse_check_api_line; [|exact Hok|reflexivity]);
      eexists; (split; [reflexivity|]);
      rewrite ?store_value_single by congruence; vm_compute; reflexivity.
  - by exists ∅.
Qed.

(** C35. Command lines round-trip through [parse_args]. For every call of
    the script whose strings are not ['--'], the command line that names the
    sub-command, gives each option as [--option=value] or as a flag, and
    puts the positionals after ['--'], parses without error and without
    unrecognized strings, and the attributes [main] reads are the call's. *)
Theorem parse_command_line c :
  expressible c ->
  exists ns, parse_args (command_line c) = Parsed ns [] /\ cli_of_namespace ns = c.
Proof. apply command_line_parses. Qed.



(** [check-api] from [main]. When the working directory is
    absolute, [main] runs the digester before any other command, on the
    absolute forms of the two dumps and of the report path, which defaults
    to [api-check-report.txt] in the working directory, and of the
    allow-list when one is given. Every later command is appended after it
    in the log. *)
Theorem main_check_api_digester_first `{Toolchain} `{PlistLib} `{PyRepr} `{TempFiles}
    `{Archives} w b l a r c :
  startswith (w_cwd w) [slash] = true ->
  let abs := abspath (w_cwd w) in
  let report := abs (default (py "api-check-report.txt") r) in
  (w_spawned w ++ [APIDigester.compare_arguments (abs b) (abs l) report (abs <$> a)])
    `prefix_of` w_spawned (main (CheckApiArgs b l a r c) w).2 /\
  Forall (fun p => startswith p [slash] = true) [abs b; abs l; report] /\
  (forall p, a = Some p -> startswith (abs p) [slash] = true).
Proof.
  intros Hc abs report. split; [|split].
  - unfold main, bind at 1. cbn [getcwd]. apply CheckApi.check_api_spawns_first.
  - repeat constructor; by apply abspath_abs.
  - intros p _. by apply abspath_abs.
Qed.

(** [main] lets out only the [exit(1)] of [check-api]. *)
Section MainExits.
Import ExitStatus DumpCommand.
Context `{Toolchain} `{PlistLib} `{PyRepr} `{TempFiles} `{Archives}.
Context (Hl : launches_cleanly) (Hu : forall s d, exits_in (fun _ => False) (unpack_archive s d)).

Lemma ei_main args : exits_in (eq 1) (main args).
Proof. unfold main. ei_solve. Qed.

End MainExits.

Section RunTheorems.
Context `{Toolchain} `{PlistLib} `{PyRepr} `{TempFiles} `{Archives} `{ArgparseText}.

Lemma run_parsed argv ns w :
  parse_args argv = Parsed ns [] -> run argv w = main (cli_of_namespace ns) w.
Proof. intros Hp. unfold run. by rewrite Hp. Qed.

(** C36. A ['--'] where argparse expects a path becomes an empty list
    (CPython 3.11's [_get_values] removes it from the strings of the
    argument). Given to [--report-path], or as the second dump after the
    separator, it makes [check-api] raise [TypeError] before anything runs:
    [compare] puts the list in the digester's argument vector. Given to
    [--breakage-allowlist-path], the empty list is false and the run is the
    one without an allow-list. *)
Theorem double_dash_values w b l :
  l <> py "--" ->
  run [py "check-api"; py "--report-path=--"; py "--"; b; l] w = (inl TypeError, w) /\
  run [py "check-api"; py "--"; b; py "--"] w = (inl TypeError, w) /\
  run [py "check-api"; py "--breakage-allowlist-path=--"; py "--"; b; l] w =
    run [py "check-api"; py "--"; b; l] w.
Proof.
  intros Hl. split; [|split].
  - change [py "check-api"; py "--report-path=--"; py "--"; b; l] with
      (py "check-api" :: map (fun p : piece => p.1.1)
         [equals_piece report_optional (py "--report-path") (py "--")] ++ [py "--"; b; l]).
    erewrite run_parsed; [|apply parse_check_api_line; [pieces_tac|reflexivity]].
    rewrite store_value_single by done. cli_is CheckApiListPath. reflexivity.
  - change [py "check-api"; py "--"; b; py "--"] with
      (py "check-api" :: map (fun p : piece => p.1.1) [] ++ [py "--"; b; py "--"]).
    erewrite run_parsed; [|apply parse_check_api_line; [pieces_tac|reflexivity]].
    cli_is CheckApiListPath. reflexivity.
  - change [py "check-api"; py "--breakage-allowlist-path=--"; py "--"; b; l] with
      (py "check-api" :: map (fun p : piece => p.1.1)
         [equals_piece allowlist_optional (py "--breakage-allowlist-path") (py "--")] ++
       [py "--"; b; l]).
    change [py "check-api"; py "--"; b; l] with
      (py "check-api" :: map (fun p : piece => p.1.1) [] ++ [py "--"; b; l]).
    erewrite (run_parsed (py "check-api" :: _ ++ _));
      [|apply parse_check_api_line; [pieces_tac|reflexivity]].
    erewrite (run_parsed (py "check-api" :: map _ (@nil piece) ++ _));
      [|apply parse_check_api_line; [pieces_tac|reflexivity]].
    rewrite !store_value_single by done.
    cli_is (CheckApiArgs b l None None None). cli_is (CheckApiArgs b l None None None).
    reflexivity.
Qed.

Lemma run_error argv p e w :
  parse_args argv = Error p e ->
  run argv w = (inl (SystemExit 2),
    add_stderr (prog p ++ py ": error: " ++ message e ++ [10]) (add_stderr (format_usage p) w)).
Proof. intros Hp. unfold run. by rewrite Hp. Qed.

(** C37. The script from its command line. For every [check-api] call a
    command line can express, running that command line runs the digester
    before any other command, on the absolute forms of the dumps, of the
    report path ([api-check-report.txt] in the working directory when none
    is given) and of the allow-list when one is given. *)
Theorem run_check_api_digester_first w b l a r c :
  expressible (CheckApiArgs b l a r c) ->
  let abs := abspath (w_cwd w) in
  (w_spawned w ++ [APIDigester.compare_arguments (abs b) (abs l)
                     (abs (default (py "api-check-report.txt") r)) (abs <$> a)])
    `prefix_of` w_spawned (run (command_line (CheckApiArgs b l a r c)) w).2.
Proof.
  intros Hx abs. destruct (command_line_parses _ Hx) as (ns & Hp & Hcli).
  rewrite (run_parsed _ _ _ Hp), Hcli. unfold main, bind at 1. cbn [getcwd].
  apply CheckApi.check_api_spawns_first.
Qed.

(** C8. The exit status of the script. For every command line, the
    process ends with status 0, 1 or 2, and with 2 exactly when argparse
    rejects the command line. Help exits 0 and a usage error 2 (argparse);
    the script's own [exit(1)] on breakage (line 43) and every uncaught
    exception give 1; a normal return gives 0. So a broken API, a failing
    tool or a crash can never be mistaken for a usage error, and the
    script never exits 2 by itself. The assumptions are on the libraries:
    [subprocess.run] and [shutil.unpack_archive] raise their own errors,
    never [SystemExit]. *)
Theorem script_exit_status argv w :
  launches_cleanly -> (forall s d, exits_in (fun _ => False) (unpack_archive s d)) ->
  let st := CheckApi.exit_status (run argv w).1 in
  (st = 0 \/ st = 1 \/ st = 2) /\ (st = 2 <-> exists p e, parse_args argv = Error p e).
Proof.
  intros Hl Hu st. subst st. unfold run.
  destruct (parse_args argv) as [p|p e|ns x] eqn:Ep.
  - cbn. split; [lia|]. split; [lia|]. by intros (? & ? & ?).
  - cbn. split; [lia|]. naive_solver.
  - destruct (ExitStatus.exit_status_exits (main (cli_of_namespace ns)) w) as [Hs|Hs];
      [by apply ei_main| |]; rewrite Hs; (split; [lia|]); split; [lia|by intros (? & ? & ?)|lia|by intros (? & ? & ?)].
Qed.

(** C38. Usage errors end the script with status 2 before anything runs:
    the usage and one line [prog: error: message] go to stderr. [check-api]
    with one dump lacks [latest-dump-path]; [dump] with no path lacks
    [sdk-path]; a first argument that is neither sub-command is an invalid
    choice. *)
Theorem run_usage_errors w b name rest :
  head b <> Some dash -> head name <> Some dash -> name ∉ [py "dump"; py "check-api"] ->
  run [py "check-api"; b] w =
    (inl (SystemExit 2),
     add_stderr (prog CheckApiParser ++
                 py ": error: the following arguments are required: latest-dump-path" ++ [10])
       (add_stderr (format_usage CheckApiParser) w)) /\
  run [py "dump"] w =
    (inl (SystemExit 2),
     add_stderr (prog DumpParser ++ py ": error: the following arguments are required: sdk-path" ++ [10])
       (add_stderr (format_usage DumpParser) w)) /\
  run (name :: rest) w =
    (inl (SystemExit 2),
     add_stderr (prog_name ++ py ": error: argument command: invalid choice: " ++ repr_str name ++
                 py " (choose from " ++ repr_str (py "dump") ++ py ", " ++
                 repr_str (py "check-api") ++ py ")" ++ [10])
       (add_stderr (format_usage MainParser) w)).
Proof.
  intros Hb Hh Hn. split; [|split].
  - by rewrite (run_error _ _ _ _ (parse_check_api_one b Hb)).
  - by rewrite (run_error _ DumpParser (Required [py "sdk-path"])) by reflexivity.
  - rewrite (run_error _ _ _ _ (parse_invalid_command name rest Hh Hn)).
    cbn [message join_with map prog]. unfold argument_message. by rewrite <-!app_assoc.
Qed.

(** C29. Without a sub-command the script does nothing, and only the empty
    command line has none. A command line that parses without setting
    [command] is empty: every other one names a sub-command, asks for help
    or is a usage error. On the empty command line the script returns
    normally, so the process exits with status 0, without running,
    printing or writing anything. *)
Theorem run_without_command argv ns w :
  parse_args argv = Parsed ns [] -> ns !! py "command" = None ->
  argv = [] /\ run argv w = (inr tt, w).
Proof. intros Hp Hn. pose proof (parse_without_command _ _ Hp Hn) as ->. by split. Qed.

End RunTheorems.

End Main.

(** ** Witnesses *)

Import DumpCommand Main Argparse CliParser.

(** The largest length of a directory path of [w]. *)
Definition longest_dir (w : world) : nat :=
  foldr Nat.max 0%nat (map (fun kv => length kv.1) (map_to_list (w_dirs w))).

Lemma longest_dir_spec w d v : w_dirs w !! d = Some v -> (length d <= longest_dir w)%nat.
Proof.
  intros Hd. apply elem_of_map_to_list in Hd. unfold longest_dir.
  remember (map_to_list (w_dirs w)) as l eqn:El. clear El.
  induction l as [|kv l IH]; [by apply not_elem_of_nil in Hd|].
  apply elem_of_cons in Hd as [<-|Hd]; cbn; [lia|]. specialize (IH Hd). lia.
Qed.

(** A [mkdtemp] that picks a name longer than every existing directory. *)
#[local] Program Instance long_names : TempFiles :=
  {| mkdtemp := fun prefix w =>
       let d := py "/tmp/" ++ prefix ++ repeat 97 (S (longest_dir w)) in (inr d, add_dir d w) |}.
Next Obligation.
  intros prefix w. eexists. split; [reflexivity|].
  destruct (w_dirs w !! _) as [v|] eqn:E; [|done]. exfalso.
  apply longest_dir_spec in E. rewrite !length_app, repeat_length in E. lia.
Qed.

Definition no_archives : Archives := {| unpack_archive := fun _ _ => ret tt |}.

Lemma dump_rejects_non_zip_witness :
  exists d w', @dump_sdk dump_tools dump_plistlib sample_repr long_names no_archives
      (py "/sdk/MapboxMaps.tar.gz") (py "/out/MapboxMaps.json") false artifacts_world
      = (inl zip_required, w') /\
    w_dirs artifacts_world !! d = None /\ w_dirs w' !! d = Some [] /\
    w_stdout w' = w_stdout artifacts_world ++ [d ++ [10]] /\
    w_spawned w' = w_spawned artifacts_world /\ w_fs w' = w_fs artifacts_world.
Proof. apply dump_rejects_non_zip. vm_compute. discriminate. Defined.

Lemma main_check_api_digester_first_witness :
  let abs := abspath (w_cwd digester_world) in
  let report := abs (default (py "api-check-report.txt") None) in
  (w_spawned digester_world ++
     [APIDigester.compare_arguments (abs (py "old.json")) (abs (py "new.json")) report
        (abs <$> Some (py "allow.txt"))])
    `prefix_of` w_spawned (@main (fake_digester 0 sample_bytes) dump_plistlib sample_repr
        long_names no_archives
        (CheckApiArgs (py "old.json") (py "new.json") (Some (py "allow.txt")) None (Some true))
        digester_world).2 /\
  Forall (fun p => startswith p [slash] = true) [abs (py "old.json"); abs (py "new.json"); report] /\
  (forall p, Some (py "allow.txt") = Some p -> startswith (abs p) [slash] = true).
Proof. apply main_check_api_digester_first. reflexivity. Defined.

(** The library's text for the witnesses: the program name, empty usage and
    help, and [repr] of ASCII text without quotes or backslashes. *)
Definition sample_text : ArgparseText :=
  {| prog_name := py "breaking-api-check.py"; format_usage := fun _ => [];
     format_help := fun _ => []; repr_str := fun s => [39] ++ s ++ [39] |}.

Lemma parse_command_line_witness :
  expressible (CheckApiArgs (py "old.json") (py "new.json") (Some (py "allow.txt"))
                 (Some (py "report.txt")) (Some true)) /\
  exists ns, parse_args (command_line (CheckApiArgs (py "old.json") (py "new.json")
                 (Some (py "allow.txt")) (Some (py "report.txt")) (Some true))) = Parsed ns [] /\
    cli_of_namespace ns = CheckApiArgs (py "old.json") (py "new.json") (Some (py "allow.txt"))
                            (Some (py "report.txt")) (Some true).
Proof.
  assert (Hx : expressible (CheckApiArgs (py "old.json") (py "new.json") (Some (py "allow.txt"))
                 (Some (py "report.txt")) (Some true))) by (split; [|split]; decide_lit).
  split; [exact Hx|]. exact (parse_command_line _ Hx).
Defined.

Lemma double_dash_values_witness :
  py "new.json" <> py "--" /\
  @run (fake_digester 0 sample_bytes) dump_plistlib sample_repr long_names no_archives sample_text
    [py "check-api"; py "--report-path=--"; py "--"; py "old.json"; py "new.json"] digester_world
    = (inl TypeError, digester_world) /\
  @run (fake_digester 0 sample_bytes) dump_plistlib sample_repr long_names no_archives sample_text
    [py "check-api"; py "--"; py "old.json"; py "--"] digester_world
    = (inl TypeError, digester_world) /\
  @run (fake_digester 0 sample_bytes) dump_plistlib sample_repr long_names no_archives sample_text
    [py "check-api"; py "--breakage-allowlist-path=--"; py "--"; py "old.json"; py "new.json"]
    digester_world =
  @run (fake_digester 0 sample_bytes) dump_plistlib sample_repr long_names no_archives sample_text
    [py "check-api"; py "--"; py "old.json"; py "new.json"] digester_world.
Proof.
  assert (Hl : py "new.json" <> py "--") by decide_lit.
  split; [exact Hl|]. exact (double_dash_values _ _ _ Hl).
Defined.

Lemma run_check_api_digester_first_witness :
  expressible (CheckApiArgs (py "old.json") (py "new.json") None None (Some false)) /\
  let abs := abspath (w_cwd digester_world) in
  (w_spawned digester_world ++
     [APIDigester.compare_arguments (abs (py "old.json")) (abs (py "new.json"))
        (abs (default (py "api-check-report.txt") None)) (abs <$> None)])
    `prefix_of` w_spawned (@run (fake_digester 0 sample_bytes) dump_plistlib sample_repr long_names
        no_archives sample_text
        (command_line (CheckApiArgs (py "old.json") (py "new.json") None None (Some false)))
        digester_world).2.
Proof.
  assert (Hx : expressible (CheckApiArgs (py "old.json") (py "new.json") None None (Some false)))
    by (split; [|split]; decide_lit).
  split; [exact Hx|]. exact (run_check_api_digester_first _ _ _ _ _ _ Hx).
Defined.

Lemma run_usage_errors_witness :
  head (py "old.json") <> Some dash /\ head (py "diff") <> Some dash /\
  py "diff" ∉ [py "dump"; py "check-api"] /\
  let run := @run (fake_digester 0 sample_bytes) dump_plistlib sample_repr long_names no_archives
               sample_text in
  run [py "check-api"; py "old.json"] digester_world =
    (inl (SystemExit 2),
     add_stderr (@prog sample_text CheckApiParser ++
                 py ": error: the following arguments are required: latest-dump-path" ++ [10])
       (add_stderr [] digester_world)) /\
  run [py "dump"] digester_world =
    (inl (SystemExit 2),
     add_stderr (@prog sample_text DumpParser ++
                 py ": error: the following arguments are required: sdk-path" ++ [10])
       (add_stderr [] digester_world)) /\
  run [py "diff"; py "a"] digester_world =
    (inl (SystemExit 2),
     add_stderr (py "breaking-api-check.py" ++ py ": error: argument command: invalid choice: " ++
                 ([39] ++ py "diff" ++ [39]) ++ py " (choose from " ++
                 ([39] ++ py "dump" ++ [39]) ++ py ", " ++ ([39] ++ py "check-api" ++ [39]) ++
                 py ")" ++ [10])
       (add_stderr [] digester_world)).
Proof.
  assert (Hb : head (py "old.json") <> Some dash) by decide_lit.
  assert (Hh : head (py "diff") <> Some dash) by decide_lit.
  assert (Hn : py "diff" ∉ [py "dump"; py "check-api"]) by decide_lit.
  split; [exact Hb|]. split; [exact Hh|]. split; [exact Hn|].
  exact (run_usage_errors _ _ _ [py "a"] Hb Hh Hn).
Defined.

Lemma run_without_command_witness :
  parse_args [] = Parsed ∅ [] /\ (∅ : namespace) !! py "command" = None /\
  [] = @nil pystr /\
  @run (fake_digester 0 sample_bytes) dump_plistlib sample_repr long_names no_archives sample_text
    [] digester_world = (inr tt, digester_world).
Proof.
  assert (Hp : parse_args [] = Parsed ∅ []) by reflexivity.
  assert (Hn : (∅ : namespace) !! py "command" = None) by reflexivity.
  split; [exact Hp|]. split; [exact Hn|]. exact (run_without_command _ _ _ Hp Hn).
Defined.

Lemma script_exit_status_witness :
  @launches_cleanly (fake_digester 1 sample_bytes) /\
  (forall s d, exits_in (fun _ => False) (@unpack_archive no_archives s d)) /\
  let st := CheckApi.exit_status
    (@run (fake_digester 1 sample_bytes) dump_plistlib sample_repr long_names no_archives sample_text
      [py "check-api"; py "old.json"; py "new.json"] digester_world).1 in
  (st = 0 \/ st = 1 \/ st = 2) /\
  (st = 2 <-> exists p e, parse_args [py "check-api"; py "old.json"; py "new.json"] = Error p e).
Proof.
  assert (Hl : @launches_cleanly (fake_digester 1 sample_bytes)) by (intros ? ? ? ? Hr; discriminate Hr).
  assert (Hu : forall s d, exits_in (fun _ => False) (@unpack_archive no_archives s d))
    by (intros s d; constructor; by intros w c).
  split; [exact Hl|]. split; [exact Hu|].
  exact (@script_exit_status (fake_digester 1 sample_bytes) dump_plistlib sample_repr long_names
           no_archives sample_text _ digester_world Hl Hu).
Defined.
